(** * Playbian Auto Typer & Clicker: action model, special-key tokenizer,
      sequence engine and generative-response parser

    A shallow embedding of [actions.py], of the [SPECIAL_KEYS] table of
    [config.py] and of the response parser of [api_integration.py], with the
    properties of the design document proved (or refuted) over it.

    Conventions of the embedding:
    - a Python [str] is a [string]; case mapping and whitespace are those of
      the code points below 128;
    - a Python number ([int] or [float] holding seconds, a timestamp) is a
      rational [Q]: the code stores such numbers, compares them with [0] and
      hands them to [time.sleep], it never computes with them;
    - a Python [dict] is a [gmap string PyVal];
    - an exception is a value of [Exn], carried by the results [Exc] and [Dyn]. *)

From Equations Require Import Equations.
From Stdlib Require Import QArith ZArith String Ascii Lia.
From stdpp Require Import gmap strings list fin_maps.

Set Warnings "-register-all".

Local Open Scope string_scope.
Local Open Scope list_scope.

(** ** Python strings *)

Module PyStr.

Definition is_upper (c : ascii) : bool :=
  let n := nat_of_ascii c in (65 <=? n)%nat && (n <=? 90)%nat.

Definition is_lower (c : ascii) : bool :=
  let n := nat_of_ascii c in (97 <=? n)%nat && (n <=? 122)%nat.

Definition lower_char (c : ascii) : ascii :=
  if is_upper c then ascii_of_nat (nat_of_ascii c + 32) else c.

Definition upper_char (c : ascii) : ascii :=
  if is_lower c then ascii_of_nat (nat_of_ascii c - 32) else c.

(** [s.lower()] *)
Fixpoint lower (s : string) : string :=
  match s with
  | EmptyString => EmptyString
  | String c s' => String (lower_char c) (lower s')
  end.

(** [s.upper()] *)
Fixpoint upper (s : string) : string :=
  match s with
  | EmptyString => EmptyString
  | String c s' => String (upper_char c) (upper s')
  end.

(** [s.title()]: a cased character is upper-cased after an uncased one and
    lower-cased after a cased one. *)
Fixpoint title_from (previous_is_cased : bool) (s : string) : string :=
  match s with
  | EmptyString => EmptyString
  | String c s' =>
      String (if previous_is_cased then lower_char c else upper_char c)
             (title_from (is_upper c || is_lower c) s')
  end.

Definition title (s : string) : string := title_from false s.

(** Whitespace as [str.isspace] has it below 128. *)
Definition is_space (c : ascii) : bool :=
  let n := nat_of_ascii c in
  ((9 <=? n)%nat && (n <=? 13)%nat) || ((28 <=? n)%nat && (n <=? 32)%nat).

Fixpoint lstrip (s : string) : string :=
  match s with
  | EmptyString => EmptyString
  | String c s' => if is_space c then lstrip s' else s
  end.

(** [rstrip] keeps a character when it is not a space or when something
    is kept after it. *)
Fixpoint rstrip (s : string) : string :=
  match s with
  | EmptyString => EmptyString
  | String c s' =>
      match rstrip s' with
      | EmptyString => if is_space c then EmptyString else String c EmptyString
      | r => String c r
      end
  end.

(** [s.strip()] *)
Definition strip (s : string) : string := rstrip (lstrip s).

(** [s.startswith(p)] *)
Definition startswith (p s : string) : bool := String.prefix p s.

(** [s[n:]] *)
Fixpoint drop (n : nat) (s : string) : string :=
  match n, s with
  | O, _ => s
  | S n', EmptyString => EmptyString
  | S n', String _ s' => drop n' s'
  end.

(** [s[:n]] *)
Definition take (n : nat) (s : string) : string := substring 0 n s.

(** [s.split(sep)] for a one-character separator: the pieces between the
    separators, empty pieces included. *)
Fixpoint split_go (sep : ascii) (current : string) (s : string) : list string :=
  match s with
  | EmptyString => [String.rev current]
  | String c s' =>
      if Ascii.eqb c sep then String.rev current :: split_go sep EmptyString s'
      else split_go sep (String c current) s'
  end.

Definition split (sep : ascii) (s : string) : list string :=
  split_go sep EmptyString s.

(** [sep.join(l)] *)
Definition join (sep : string) (l : list string) : string := String.concat sep l.

(** [s.find(c)] and [s.rfind(c)] for a one-character needle; [None] is
    Python's [-1]. *)
Definition find (c : ascii) (s : string) : option nat :=
  String.index 0 (String c EmptyString) s.

Fixpoint rfind (c : ascii) (s : string) : option nat :=
  match s with
  | EmptyString => None
  | String a s' =>
      match rfind c s' with
      | Some k => Some (S k)
      | None => if Ascii.eqb a c then Some O else None
      end
  end.

(** [c in s] for a one-character [c] *)
Definition contains (c : ascii) (s : string) : bool :=
  match find c s with Some _ => true | None => false end.

(** [str(n)] for an [int] *)
Definition digit (d : nat) : ascii := ascii_of_nat (48 + d).

Fixpoint of_pos_fuel (fuel : nat) (p : positive) (acc : string) : string :=
  match fuel with
  | O => acc
  | S fuel' =>
      let d := Z.to_nat (Z.pos p mod 10) in
      match (Z.pos p / 10)%Z with
      | Z.pos q => of_pos_fuel fuel' q (String (digit d) acc)
      | _ => String (digit d) acc
      end
  end.

Definition of_Z (z : Z) : string :=
  match z with
  | Z0 => "0"
  | Z.pos p => of_pos_fuel (Pos.to_nat p) p EmptyString
  | Z.neg p => String "-" (of_pos_fuel (Pos.to_nat p) p EmptyString)
  end.

End PyStr.

(** ** [config.py]: the special-key registry *)

Module Config.

Definition SPECIAL_KEYS : gmap string string :=
  list_to_map
    [ ("<enter>", "enter"); ("<tab>", "tab"); ("<space>", "space");
      ("<backspace>", "backspace"); ("<delete>", "delete");
      ("<escape>", "escape"); ("<shift>", "shift"); ("<ctrl>", "ctrl");
      ("<alt>", "alt"); ("<caps_lock>", "capslock");
      ("<page_up>", "pageup"); ("<page_down>", "pagedown");
      ("<home>", "home"); ("<end>", "end"); ("<insert>", "insert");
      ("<up>", "up"); ("<down>", "down"); ("<left>", "left");
      ("<right>", "right");
      ("<f1>", "f1"); ("<f2>", "f2"); ("<f3>", "f3"); ("<f4>", "f4");
      ("<f5>", "f5"); ("<f6>", "f6"); ("<f7>", "f7"); ("<f8>", "f8");
      ("<f9>", "f9"); ("<f10>", "f10"); ("<f11>", "f11"); ("<f12>", "f12") ].

End Config.

(** ** [TypeAction._parse_text_with_special_keys] *)

Module Tokenizer.
Import PyStr Config.

(** A segment is the pair the source builds: [("text", s)] or
    [("key", name)]. *)
Definition segment : Type := string * string.

Definition inspect {A} (a : A) : {b : A | a = b} := exist _ a eq_refl.

(** [if current_text: parts.append(("text", current_text))] *)
Definition flush (current_text : string) : list segment :=
  match current_text with
  | EmptyString => []
  | _ => [("text", current_text)]
  end.

(** The three nested tests of the loop body at index [i], where
    [text[i] = c]: [c] is ["<"], a [">"] is found from [i] on, and the
    lower-cased slice [text[i:closing_idx+1]] is a registered key. *)
Definition special_key_at (text : string) (i : nat) (c : ascii)
  : option (nat * string) :=
  if Ascii.eqb c "<" then
    match String.index i ">" text with
    | Some closing_idx =>
        let possible_key := lower (substring i (closing_idx + 1 - i) text) in
        match SPECIAL_KEYS !! possible_key with
        | Some key => Some (closing_idx, key)
        | None => None
        end
    | None => None
    end
  else None.

Lemma index_from_le (n m : nat) (p s : string) :
  String.index n p s = Some m -> (n <= m)%nat.
Proof.
  revert n m. induction s as [|a s IH]; intros n m.
  - destruct n, p; simpl; intros H; inversion H; lia.
  - destruct n; simpl.
    + intros _. lia.
    + destruct (String.index n p s) as [k|] eqn:E; intros H; inversion H.
      apply IH in E. lia.
Qed.

Lemma get_lt (i : nat) (s : string) (c : ascii) :
  String.get i s = Some c -> (i < String.length s)%nat.
Proof.
  revert i. induction s as [|a s IH]; intros [|i]; simpl; intros H;
    try discriminate; try lia.
  apply IH in H. lia.
Qed.

Lemma special_key_at_gt text i c closing_idx key :
  special_key_at text i c = Some (closing_idx, key) -> (i <= closing_idx)%nat.
Proof.
  unfold special_key_at.
  destruct (Ascii.eqb c "<"); [|discriminate].
  destruct (String.index i ">" text) as [k|] eqn:E; [|discriminate].
  destruct (SPECIAL_KEYS !! _); [|discriminate].
  intros H. inversion H. subst. eapply index_from_le, E.
Qed.

(** The [while i < len(text)] loop, from the state [(i, current_text,
    parts)]; it ends because [i] grows at every turn. *)
Equations? parse_loop (text : string) (i : nat) (current_text : string)
    (parts : list segment) : list segment
    by wf (String.length text - i)%nat lt :=
  parse_loop text i current_text parts with inspect (String.get i text) := {
    | exist _ None _ => parts ++ flush current_text
    | exist _ (Some c) Hc with inspect (special_key_at text i c) := {
        | exist _ (Some (closing_idx, key)) Hk =>
            parse_loop text (closing_idx + 1) EmptyString
                       (parts ++ flush current_text ++ [("key", key)])
        | exist _ None _ =>
            parse_loop text (i + 1) (current_text +:+ String c EmptyString) parts } }.
Proof.
  - apply get_lt in Hc. apply special_key_at_gt in Hk. lia.
  - apply get_lt in Hc. lia.
Qed.

Definition _parse_text_with_special_keys (text : string) : list segment :=
  parse_loop text 0 EmptyString [].

End Tokenizer.

(** ** Python values and exceptions *)

Module Py.

(** The values a decoded JSON text or an action dictionary holds. *)
Inductive PyVal : Type :=
| VNone
| VBool (b : bool)
| VInt (z : Z)
| VFloat (q : Q)
| VStr (s : string)
| VList (l : list PyVal)
| VDict (d : gmap string PyVal).

(** The exception classes the modelled code raises or names in a handler.
    [DeviceFault] stands for whatever the input-injection library raises. *)
Inductive ExnClass : Type :=
| JSONDecodeError | KeyError | TypeError | ValueError | AttributeError
| NotImplementedError | OverflowError | RecursionError | DeviceFault.

Record Exn : Type := mkExn { exn_class : ExnClass; exn_message : string }.

Definition ExnClass_eqb (c1 c2 : ExnClass) : bool :=
  match c1, c2 with
  | JSONDecodeError, JSONDecodeError | KeyError, KeyError
  | TypeError, TypeError | ValueError, ValueError
  | AttributeError, AttributeError
  | NotImplementedError, NotImplementedError | DeviceFault, DeviceFault
  | OverflowError, OverflowError | RecursionError, RecursionError => true
  | _, _ => false
  end.

(** [isinstance(e, cls)]: [json.JSONDecodeError] derives from [ValueError]. *)
Definition isinstance (e : Exn) (cls : ExnClass) : bool :=
  ExnClass_eqb (exn_class e) cls
  || (ExnClass_eqb (exn_class e) JSONDecodeError && ExnClass_eqb cls ValueError).

(** [except (cls1, cls2, ...)] *)
Definition caught_by (handlers : list ExnClass) (e : Exn) : bool :=
  existsb (isinstance e) handlers.

(** The result of running typed code: a value or a raised exception. *)
Inductive Exc (A : Type) : Type :=
| Ok (a : A)
| Raise (e : Exn).
Arguments Ok {A} a.
Arguments Raise {A} e.

(** The result of code that reads dynamically typed data into the typed
    fields of the embedding: [Untyped] when Python goes on with a value of
    another type than the field's annotation, which this embedding has no
    value for. *)
Inductive Dyn (A : Type) : Type :=
| Typed (r : Exc A)
| Untyped.
Arguments Typed {A} r.
Arguments Untyped {A}.

Definition dyn_bind {A B : Type} (m : Dyn A) (f : A -> Dyn B) : Dyn B :=
  match m with
  | Typed (Ok a) => f a
  | Typed (Raise e) => Typed (Raise e)
  | Untyped => Untyped
  end.

(** [try: m except handlers: h] *)
Definition dyn_try {A : Type} (m : Dyn A) (handlers : list ExnClass)
    (h : Exn -> Dyn A) : Dyn A :=
  match m with
  | Typed (Raise e) => if caught_by handlers e then h e else m
  | _ => m
  end.

(** Reading a value at the type a field is annotated with. *)
Definition as_num (v : PyVal) : option Q :=
  match v with
  | VInt z => Some (inject_Z z)
  | VFloat q => Some q
  | _ => None
  end.

Definition as_int (v : PyVal) : option Z :=
  match v with VInt z => Some z | _ => None end.

Definition as_str (v : PyVal) : option string :=
  match v with VStr s => Some s | _ => None end.

Definition as_bool (v : PyVal) : option bool :=
  match v with VBool b => Some b | _ => None end.

Fixpoint as_strs (l : list PyVal) : option (list string) :=
  match l with
  | [] => Some []
  | v :: l' =>
      match as_str v, as_strs l' with
      | Some s, Some ss => Some (s :: ss)
      | _, _ => None
      end
  end.

Definition as_str_list (v : PyVal) : option (list string) :=
  match v with VList l => as_strs l | _ => None end.

(** [data.get(key, default)] read at a field's type: the default when the
    key is absent, [None] when the value has another type. *)
Definition get_at {A : Type} (read : PyVal -> option A)
    (data : gmap string PyVal) (key : string) (default : A) : option A :=
  match data !! key with
  | None => Some default
  | Some v => read v
  end.

(** A field read at its type from a value that Python stores as it is:
    [Untyped] when the value has another type. *)
Definition at_type {A B : Type} (o : option A) (k : A -> Dyn B) : Dyn B :=
  match o with
  | Some a => k a
  | None => Untyped
  end.

(** [x > 0] and [x < 0] on numbers *)
Definition is_positive (x : Q) : bool := negb (Qle_bool x 0).
Definition is_negative (x : Q) : bool := negb (Qle_bool 0 x).

End Py.

(** ** [actions.py]: the action model *)

Module Actions.
Import PyStr Config Py Tokenizer.

(** The fields each subclass of [Action] adds. *)
Inductive Variant : Type :=
| TypeV (text : string)
| ClickV (x y : Z) (button : string)
| DelayV (wait_time : Q)
| HotkeyV (keys : list string)
| SpecialKeyV (key : string)
| ScrollV (x y clicks : Z) (direction : string)
| DragV (start_x start_y end_x end_y : Z) (duration : Q) (button : string).

(** An action object: the attributes of the base class and those of its
    subclass. [id] is an opaque identifier, [VNone] when absent. *)
Record Action : Type := mkAction {
  delay : Q;
  id : PyVal;
  name : string;
  description : string;
  enabled : bool;
  created_at : Q;
  variant : Variant }.

(** [self.__class__.__name__] *)
Definition class_name (v : Variant) : string :=
  match v with
  | TypeV _ => "TypeAction"
  | ClickV _ _ _ => "ClickAction"
  | DelayV _ => "DelayAction"
  | HotkeyV _ => "HotkeyAction"
  | SpecialKeyV _ => "SpecialKeyAction"
  | ScrollV _ _ _ _ => "ScrollAction"
  | DragV _ _ _ _ _ _ => "DragAction"
  end.

Section Model.

(** [str(x)] of a number inside an f-string: Python's own formatting, not
    part of the repository. *)
Variable repr_float : Q -> string.

Definition point (x y : Z) : string :=
  "(" +:+ of_Z x +:+ ", " +:+ of_Z y +:+ ")".

(** The description every constructor and every [from_dict] derives from
    the subclass fields. *)
Definition describe (v : Variant) : string :=
  match v with
  | TypeV text =>
      "Type: " +:+ take 50 text
        +:+ (if (50 <? String.length text)%nat then "..." else "")
  | ClickV x y button => "Click " +:+ button +:+ " at " +:+ point x y
  | DelayV wait_time => "Wait for " +:+ repr_float wait_time +:+ " seconds"
  | HotkeyV keys => "Press " +:+ join "+" keys
  | SpecialKeyV key => "Press " +:+ key +:+ " key"
  | ScrollV x y clicks direction =>
      "Scroll " +:+ direction +:+ " " +:+ of_Z clicks +:+ " clicks at "
        +:+ point x y
  | DragV start_x start_y end_x end_y _ _ =>
      "Drag from " +:+ point start_x start_y +:+ " to " +:+ point end_x end_y
  end.

(** [Action.__init__] followed by the subclass's [__init__]; [now] is the
    reading of [time.time()]. *)
Definition init (now : Q) (delay : Q) (name : string) (v : Variant) : Action :=
  {| delay := delay; id := VNone; name := name; description := describe v;
     enabled := true; created_at := now; variant := v |}.

Definition TypeAction (now : Q) (text : string) (delay : Q) : Action :=
  init now delay "Type Text" (TypeV text).

Definition ClickAction (now : Q) (x y : Z) (button : string) (delay : Q) : Action :=
  init now delay (title button +:+ " Click") (ClickV x y button).

(** [super().__init__(0)]: a [DelayAction] is built with base delay [0]. *)
Definition DelayAction (now : Q) (wait_time : Q) : Action :=
  init now 0%Q "Delay" (DelayV wait_time).

Definition HotkeyAction (now : Q) (keys : list string) (delay : Q) : Action :=
  init now delay "Hotkey" (HotkeyV keys).

Definition SpecialKeyAction (now : Q) (key : string) (delay : Q) : Action :=
  init now delay "Special Key" (SpecialKeyV key).

Definition ScrollAction (now : Q) (x y clicks : Z) (direction : string)
    (delay : Q) : Action :=
  init now delay ("Scroll " +:+ title direction) (ScrollV x y clicks direction).

Definition DragAction (now : Q) (start_x start_y end_x end_y : Z)
    (duration : Q) (button : string) (delay : Q) : Action :=
  init now delay ("Drag " +:+ title button)
       (DragV start_x start_y end_x end_y duration button).

(** *** Serialization *)

(** [Action.to_dict] *)
Definition base_to_dict (a : Action) : gmap string PyVal :=
  <["created_at" := VFloat (created_at a)]>
  (<["enabled" := VBool (enabled a)]>
  (<["description" := VStr (description a)]>
  (<["name" := VStr (name a)]>
  (<["id" := id a]>
  (<["delay" := VFloat (delay a)]>
  (<["type" := VStr (class_name (variant a))]> ∅)))))).

(** The subclasses' [to_dict]: [super().to_dict()] and their own keys. *)
Definition to_dict (a : Action) : gmap string PyVal :=
  let data := base_to_dict a in
  match variant a with
  | TypeV text => <["text" := VStr text]> data
  | ClickV x y button =>
      <["button" := VStr button]> (<["y" := VInt y]> (<["x" := VInt x]> data))
  | DelayV wait_time => <["wait_time" := VFloat wait_time]> data
  | HotkeyV keys => <["keys" := VList (VStr <$> keys)]> data
  | SpecialKeyV key => <["key" := VStr key]> data
  | ScrollV x y clicks direction =>
      <["direction" := VStr direction]> (<["clicks" := VInt clicks]>
        (<["y" := VInt y]> (<["x" := VInt x]> data)))
  | DragV start_x start_y end_x end_y duration button =>
      <["button" := VStr button]> (<["duration" := VFloat duration]>
        (<["end_y" := VInt end_y]> (<["end_x" := VInt end_x]>
          (<["start_y" := VInt start_y]> (<["start_x" := VInt start_x]> data)))))
  end.

(** [Action.from_dict]: the six common attributes, each with its default. *)
Definition base_from_dict (now : Q) (self : Action) (data : gmap string PyVal)
  : option Action :=
  delay ← get_at as_num data "delay" 0%Q;
  name ← get_at as_str data "name" "";
  description ← get_at as_str data "description" "";
  enabled ← get_at as_bool data "enabled" true;
  created_at ← get_at as_num data "created_at" now;
  Some {| delay := delay; id := default VNone (data !! "id"); name := name;
          description := description; enabled := enabled;
          created_at := created_at; variant := variant self |}.

(** The subclass fields as the subclass's [from_dict] reads them. *)
Definition variant_from_dict (v : Variant) (data : gmap string PyVal)
  : option Variant :=
  match v with
  | TypeV _ => text ← get_at as_str data "text" ""; Some (TypeV text)
  | ClickV _ _ _ =>
      x ← get_at as_int data "x" 0%Z;
      y ← get_at as_int data "y" 0%Z;
      button ← get_at as_str data "button" "left";
      Some (ClickV x y button)
  | DelayV _ =>
      wait_time ← get_at as_num data "wait_time" 1%Q;
      Some (DelayV wait_time)
  | HotkeyV _ => keys ← get_at as_str_list data "keys" []; Some (HotkeyV keys)
  | SpecialKeyV _ => key ← get_at as_str data "key" "enter"; Some (SpecialKeyV key)
  | ScrollV _ _ _ _ =>
      x ← get_at as_int data "x" 0%Z;
      y ← get_at as_int data "y" 0%Z;
      clicks ← get_at as_int data "clicks" 3%Z;
      direction ← get_at as_str data "direction" "up";
      Some (ScrollV x y clicks direction)
  | DragV _ _ _ _ _ _ =>
      start_x ← get_at as_int data "start_x" 0%Z;
      start_y ← get_at as_int data "start_y" 0%Z;
      end_x ← get_at as_int data "end_x" 0%Z;
      end_y ← get_at as_int data "end_y" 0%Z;
      duration ← get_at as_num data "duration" 1%Q;
      button ← get_at as_str data "button" "left";
      Some (DragV start_x start_y end_x end_y duration button)
  end.

(** The subclasses' [from_dict]: [super().from_dict(data)], the subclass
    fields, and the description derived anew from them. *)
Definition from_dict (now : Q) (self : Action) (data : gmap string PyVal)
  : option Action :=
  self' ← base_from_dict now self data;
  v ← variant_from_dict (variant self) data;
  Some {| delay := delay self'; id := id self'; name := name self';
          description := describe v; enabled := enabled self';
          created_at := created_at self'; variant := v |}.

(** *** The constructors on values of any type

    [create_from_dict] and the reply parser hand the constructors whatever
    the mapping holds. A constructor raises where it uses an argument as a
    string: [text[:50]] raises [TypeError] on [None], a boolean and a number,
    and on a dictionary too ([KeyError] from Python 3.12 on), while a list
    can be sliced; [button.title()] and [direction.title()] raise
    [AttributeError] on anything but a string; ['+'.join(keys)] raises
    [TypeError] when an item is no string. Elsewhere a value of another type
    than the field's is stored as it is, and the result is [Untyped]. *)
Definition TypeAction_dyn (now : Q) (text delay : PyVal) : Dyn Action :=
  match text with
  | VStr text =>
      at_type (as_num delay) (fun delay => Typed (Ok (TypeAction now text delay)))
  | VList _ => Untyped
  | VDict _ => Typed (Raise (mkExn TypeError "unhashable type: 'slice'"))
  | VNone | VBool _ | VInt _ | VFloat _ =>
      Typed (Raise (mkExn TypeError "object is not subscriptable"))
  end.

Definition no_title : Exn :=
  mkExn AttributeError "object has no attribute 'title'".

Definition ClickAction_dyn (now : Q) (x y button delay : PyVal) : Dyn Action :=
  match button with
  | VStr button =>
      at_type (as_int x) (fun x =>
      at_type (as_int y) (fun y =>
      at_type (as_num delay) (fun delay =>
      Typed (Ok (ClickAction now x y button delay)))))
  | _ => Typed (Raise no_title)
  end.

Definition DelayAction_dyn (now : Q) (wait_time : PyVal) : Dyn Action :=
  at_type (as_num wait_time) (fun wait_time =>
  Typed (Ok (DelayAction now wait_time))).

(** [keys if isinstance(keys, list) else [keys]], then ['+'.join]. *)
Definition HotkeyAction_dyn (now : Q) (keys delay : PyVal) : Dyn Action :=
  let keys := match keys with VList l => l | _ => [keys] end in
  match as_strs keys with
  | Some keys =>
      at_type (as_num delay) (fun delay =>
      Typed (Ok (HotkeyAction now keys delay)))
  | None => Typed (Raise (mkExn TypeError "sequence item: expected str instance"))
  end.

Definition SpecialKeyAction_dyn (now : Q) (key delay : PyVal) : Dyn Action :=
  at_type (as_str key) (fun key =>
  at_type (as_num delay) (fun delay =>
  Typed (Ok (SpecialKeyAction now key delay)))).

Definition ScrollAction_dyn (now : Q) (x y clicks direction delay : PyVal)
  : Dyn Action :=
  match direction with
  | VStr direction =>
      at_type (as_int x) (fun x =>
      at_type (as_int y) (fun y =>
      at_type (as_int clicks) (fun clicks =>
      at_type (as_num delay) (fun delay =>
      Typed (Ok (ScrollAction now x y clicks direction delay))))))
  | _ => Typed (Raise no_title)
  end.

Definition DragAction_dyn (now : Q)
    (start_x start_y end_x end_y duration button delay : PyVal) : Dyn Action :=
  match button with
  | VStr button =>
      at_type (as_int start_x) (fun start_x =>
      at_type (as_int start_y) (fun start_y =>
      at_type (as_int end_x) (fun end_x =>
      at_type (as_int end_y) (fun end_y =>
      at_type (as_num duration) (fun duration =>
      at_type (as_num delay) (fun delay =>
      Typed (Ok (DragAction now start_x start_y end_x end_y duration button
                            delay))))))))
  | _ => Typed (Raise no_title)
  end.

(** The constructor call of each branch of [Action.create_from_dict], on
    [data.get(key, default)]; [None] when no branch is taken. The delay is
    left at its default, and [DragAction] is called without its button. *)
Definition construct (now : Q) (action_type : string) (data : gmap string PyVal)
  : option (Dyn Action) :=
  let get (key : string) (default_ : PyVal) := default default_ (data !! key) in
  if String.eqb action_type "TypeAction" then
    Some (TypeAction_dyn now (get "text" (VStr "")) (VInt 0))
  else if String.eqb action_type "ClickAction" then
    Some (ClickAction_dyn now (get "x" (VInt 0)) (get "y" (VInt 0))
                          (get "button" (VStr "left")) (VInt 0))
  else if String.eqb action_type "DelayAction" then
    Some (DelayAction_dyn now (get "wait_time" (VFloat 1)))
  else if String.eqb action_type "HotkeyAction" then
    Some (HotkeyAction_dyn now (get "keys" (VList [])) (VInt 0))
  else if String.eqb action_type "SpecialKeyAction" then
    Some (SpecialKeyAction_dyn now (get "key" (VStr "enter")) (VInt 0))
  else if String.eqb action_type "ScrollAction" then
    Some (ScrollAction_dyn now (get "x" (VInt 0)) (get "y" (VInt 0))
                           (get "clicks" (VInt 3)) (get "direction" (VStr "up"))
                           (VInt 0))
  else if String.eqb action_type "DragAction" then
    Some (DragAction_dyn now (get "start_x" (VInt 0)) (get "start_y" (VInt 0))
                         (get "end_x" (VInt 0)) (get "end_y" (VInt 0))
                         (get "duration" (VFloat 1)) (VStr "left") (VInt 0))
  else None.

Definition unknown_action_type : Exn :=
  mkExn ValueError "Unknown action type".

(** [Action.create_from_dict]: the constructor chosen by ["type"], then
    [action.from_dict(data)]; an unknown discriminant raises [ValueError],
    and what the constructor raises is not caught. *)
Definition create_from_dict (now : Q) (data : gmap string PyVal) : Dyn Action :=
  match data !! "type" with
  | Some (VStr action_type) =>
      match construct now action_type data with
      | Some built =>
          dyn_bind built (fun action =>
          match from_dict now action data with
          | Some action' => Typed (Ok action')
          | None => Untyped
          end)
      | None => Typed (Raise unknown_action_type)
      end
  | _ => Typed (Raise unknown_action_type)
  end.

(** [Action.clone] *)
Definition clone (now : Q) (a : Action) : Dyn Action :=
  create_from_dict now (to_dict a).

End Model.

(** *** Execution *)

(** The calls an action makes on the outside world: [time.sleep] and the
    input-injection library ([pyautogui]). *)
Inductive DeviceOp : Type :=
| sleep (seconds : Q)
| typewrite (text : string)
| press (key : string)
| click (x y : Z) (button : string)
| hotkey (keys : list string)
| moveTo (x y : Z)
| scroll (amount x y : Z)
| drag (dx dy : Z) (duration : Q) (button : string).

(** What [Action.execute] gives its caller: the boolean it returns, or the
    [ActionError] it raises. *)
Inductive Outcome : Type :=
| Returned (success : bool)
| ActionError (message : string).

Definition failed (o : Outcome) : bool :=
  match o with
  | Returned success => negb success
  | ActionError _ => true
  end.

(** Code that calls the outside world: from the calls made before it, its
    result and the calls it makes, in order. *)
Definition Dev (A : Type) : Type := list DeviceOp -> Exc A * list DeviceOp.

Definition dev_ret {A : Type} (a : A) : Dev A := fun _ => (Ok a, []).

Definition dev_bind {A B : Type} (m : Dev A) (f : A -> Dev B) : Dev B :=
  fun past =>
    match m past with
    | (Ok a, made) => let '(r, made') := f a (past ++ made) in (r, made ++ made')
    | (Raise e, made) => (Raise e, made)
    end.

Declare Scope dev_scope.
Delimit Scope dev_scope with dev.
Notation "m ;; k" := (dev_bind m (fun _ => k))
  (at level 100, k at level 200, right associativity) : dev_scope.

(** [time.sleep] keeps the length as a signed 64-bit count of nanoseconds:
    a length beyond that range, about 292 years, makes it raise
    [OverflowError]. The numeric fields hold finite numbers; a float that is
    infinite or not a number is outside this embedding. *)
Definition sleep_limit : Q := 9223372036854775807 # 1000000000.

Definition too_long (seconds : Q) : bool := negb (Qle_bool seconds sleep_limit).

Section Execution.

(** Whether a call to the input-injection library raises, and with which
    message, given the calls made before it. *)
Variable fault : list DeviceOp -> DeviceOp -> option string.

(** [time.sleep(seconds)] raises [ValueError] on a negative length and
    [OverflowError] on one that is [too_long]. *)
Definition time_sleep (seconds : Q) : Dev unit :=
  fun _ =>
    if is_negative seconds
    then (Raise (mkExn ValueError "sleep length must be non-negative"), [])
    else if too_long seconds
    then (Raise (mkExn OverflowError "timestamp too large to convert to C _PyTime_t"),
          [])
    else (Ok tt, [sleep seconds]).

Definition pyautogui (op : DeviceOp) : Dev unit :=
  fun past =>
    match fault past op with
    | Some message => (Raise (mkExn DeviceFault message), [op])
    | None => (Ok tt, [op])
    end.

(** [for part_type, part_value in parts: ...] of [TypeAction._execute_impl] *)
Fixpoint type_parts (parts : list segment) : Dev unit :=
  match parts with
  | [] => dev_ret tt
  | (part_type, part_value) :: parts' =>
      ((if String.eqb part_type "text"
        then pyautogui (typewrite part_value)
        else pyautogui (press part_value)) ;;
       type_parts parts')%dev
  end.

(** The subclasses' [_execute_impl]. *)
Definition _execute_impl (v : Variant) : Dev bool :=
  match v with
  | TypeV text =>
      match text with
      | EmptyString => dev_ret true
      | _ => (type_parts (_parse_text_with_special_keys text) ;; dev_ret true)%dev
      end
  | ClickV x y button => (pyautogui (click x y button) ;; dev_ret true)%dev
  | DelayV wait_time => (time_sleep wait_time ;; dev_ret true)%dev
  | HotkeyV keys => (pyautogui (hotkey keys) ;; dev_ret true)%dev
  | SpecialKeyV key => (pyautogui (press key) ;; dev_ret true)%dev
  | ScrollV x y clicks direction =>
      let scroll_amount :=
        if String.eqb direction "up" then clicks else (- clicks)%Z in
      (pyautogui (moveTo x y) ;;
       pyautogui (scroll scroll_amount x y) ;;
       dev_ret true)%dev
  | DragV start_x start_y end_x end_y duration button =>
      (pyautogui (drag (end_x - start_x) (end_y - start_y) duration button) ;;
       dev_ret true)%dev
  end.

(** The body of the [try] of [Action.execute]. *)
Definition execute_body (a : Action) : Dev bool :=
  if negb (enabled a) then dev_ret true
  else
    ((if is_positive (delay a) then time_sleep (delay a) else dev_ret tt) ;;
     _execute_impl (variant a))%dev.

(** [Action.execute]: any exception of the body is raised again as an
    [ActionError] naming the class and the message. *)
Definition execute (a : Action) (past : list DeviceOp)
  : Outcome * list DeviceOp :=
  match execute_body a past with
  | (Ok success, made) => (Returned success, made)
  | (Raise e, made) =>
      (ActionError ("Failed to execute " +:+ class_name (variant a) +:+ ": "
                      +:+ exn_message e), made)
  end.

End Execution.

End Actions.

(** ** [actions.py]: the sequence engine *)

Module Engine.
Import Py Actions.

(** What the engine asks of the members of a sequence: an [execute()]
    method, which from the calls made so far gives its outcome and the
    calls it makes. *)
Class Executable (A : Type) : Type :=
  run : A -> list DeviceOp -> Outcome * list DeviceOp.

Section Sequence.

Context {A : Type} {executable : Executable A}.

(** [ActionSequence]: the list, the execution settings, and the three
    runtime fields. *)
Record ActionSequence : Type := mkSequence {
  name : string;
  actions : list A;
  created_at : Q;
  modified_at : Q;
  description : string;
  loop_enabled : bool;
  loop_count : Z;
  repeat_interval : Q;
  stop_on_error : bool;
  is_running : bool;
  current_action_index : Z;
  current_loop : Z }.

Definition set_is_running (b : bool) (s : ActionSequence) : ActionSequence :=
  {| name := name s; actions := actions s; created_at := created_at s;
     modified_at := modified_at s; description := description s;
     loop_enabled := loop_enabled s; loop_count := loop_count s;
     repeat_interval := repeat_interval s; stop_on_error := stop_on_error s;
     is_running := b; current_action_index := current_action_index s;
     current_loop := current_loop s |}.

Definition set_current_action_index (i : Z) (s : ActionSequence) : ActionSequence :=
  {| name := name s; actions := actions s; created_at := created_at s;
     modified_at := modified_at s; description := description s;
     loop_enabled := loop_enabled s; loop_count := loop_count s;
     repeat_interval := repeat_interval s; stop_on_error := stop_on_error s;
     is_running := is_running s; current_action_index := i;
     current_loop := current_loop s |}.

Definition set_current_loop (l : Z) (s : ActionSequence) : ActionSequence :=
  {| name := name s; actions := actions s; created_at := created_at s;
     modified_at := modified_at s; description := description s;
     loop_enabled := loop_enabled s; loop_count := loop_count s;
     repeat_interval := repeat_interval s; stop_on_error := stop_on_error s;
     is_running := is_running s; current_action_index := current_action_index s;
     current_loop := l |}.

(** What one call of [ActionSequence.execute] does, in order: the calls on
    the outside world, the calls of the two callbacks, and two marks that
    record where control is: [LoopBegins] at the top of the body of the
    outer loop, [Executed] when [action.execute()] has come back. *)
Inductive Event : Type :=
| Device (op : DeviceOp)
| StopCheck (stop : bool)
| ProgressCallback (loop_index loop_count action_index : Z)
    (total_actions : nat) (action : option A)
| LoopBegins (loop_index : nat)
| Executed (loop_index action_index : nat) (result : Outcome).

Definition device_op (e : Event) : option DeviceOp :=
  match e with Device op => Some op | _ => None end.

Definition device_ops (trace : list Event) : list DeviceOp :=
  omap device_op trace.

(** The two optional arguments of [execute]: whether a progress callback is
    given, and the stop predicate, whose answer may depend on everything
    that happened so far. *)
Variable progress_callback : bool.
Variable stop_check : option (list Event -> bool).

(** The object and what has happened since [execute] was entered. *)
Record State : Type := mkState { self : ActionSequence; trace : list Event }.

Definition emit (events : list Event) (s : State) : State :=
  {| self := self s; trace := trace s ++ events |}.

Definition update (f : ActionSequence -> ActionSequence) (s : State) : State :=
  {| self := f (self s); trace := trace s |}.

(** [stop_check and stop_check()] *)
Definition stop_requested (s : State) : bool * State :=
  match stop_check with
  | None => (false, s)
  | Some check => let stop := check (trace s) in (stop, emit [StopCheck stop] s)
  end.

(** [if progress_callback: progress_callback(...)] *)
Definition report (loop_index loop_count action_index : Z)
    (total_actions : nat) (action : option A) (s : State) : State :=
  if progress_callback
  then emit [ProgressCallback loop_index loop_count action_index
               total_actions action] s
  else s.

(** How the body of a loop is left: on to the code after it, or out of
    [execute] with a result. *)
Inductive Flow : Type :=
| Continue
| Return (result : bool).

(** [for action_index, action in enumerate(self.actions)], from
    [action_index] on. *)
Fixpoint run_actions (loop_index : nat) (loop_count : Z) (total_actions : nat)
    (action_index : nat) (todo : list A) (s : State) : Flow * State :=
  match todo with
  | [] => (Continue, s)
  | action :: todo' =>
      let s := update (set_current_action_index (Z.of_nat action_index)) s in
      let '(stop, s) := stop_requested s in
      if stop then (Continue, s)
      else
        let s := report (Z.of_nat loop_index) loop_count (Z.of_nat action_index)
                        total_actions (Some action) s in
        let '(result, made) := run action (device_ops (trace s)) in
        let s := emit ((Device <$> made)
                         ++ [Executed loop_index action_index result]) s in
        match result with
        | Returned success =>
            if negb success && stop_on_error (self s) then (Return false, s)
            else run_actions loop_index loop_count total_actions
                             (S action_index) todo' s
        | ActionError _ =>
            if stop_on_error (self s) then (Return false, s)
            else run_actions loop_index loop_count total_actions
                             (S action_index) todo' s
        end
  end.

(** The pause between two loops: the marker call of the progress callback
    with [action_index = -1], then [time.sleep(repeat_interval)], whose
    argument is positive here. The call is taken to return: an interval
    that is [too_long] makes it raise [OverflowError], which leaves
    [execute] through the [finally] clause, and is outside what this
    definition covers. *)
Definition wait_between_loops (loop_index : nat) (loop_count : Z)
    (total_actions : nat) (s : State) : State :=
  if loop_enabled (self s) && (Z.of_nat loop_index <? loop_count - 1)%Z
     && is_positive (repeat_interval (self s))
  then emit [Device (sleep (repeat_interval (self s)))]
            (report (Z.of_nat loop_index) loop_count (-1)%Z total_actions None s)
  else s.

(** [for loop_index in range(loop_count)], over the indices still to run. *)
Fixpoint run_loops (loop_count : Z) (total_actions : nat) (loops : list nat)
    (s : State) : bool * State :=
  match loops with
  | [] => (true, s)
  | loop_index :: loops' =>
      let s := emit [LoopBegins loop_index]
                    (update (set_current_loop (Z.of_nat loop_index + 1)) s) in
      let '(stop, s) := stop_requested s in
      if stop then (true, s)
      else
        match run_actions loop_index loop_count total_actions 0
                          (actions (self s)) s with
        | (Return result, s) => (result, s)
        | (Continue, s) =>
            run_loops loop_count total_actions loops'
                      (wait_between_loops loop_index loop_count total_actions s)
        end
  end.

(** The [finally] clause. *)
Definition reset_runtime (s : ActionSequence) : ActionSequence :=
  set_current_loop 0 (set_current_action_index 0 (set_is_running false s)).

(** What a call of [ActionSequence.execute] leaves behind: the boolean it
    returns, the object as the call leaves it, and what the call did. *)
Record Run : Type := mkRun {
  result : bool;
  after : ActionSequence;
  events : list Event }.

(** [ActionSequence.execute] *)
Definition execute (sequence : ActionSequence) : Run :=
  let s := {| self := set_is_running true sequence; trace := [] |} in
  let total_actions := length (actions (self s)) in
  let loop_count :=
    if loop_enabled (self s) then loop_count (self s) else 1%Z in
  let '(result, s) :=
    run_loops loop_count total_actions (seq 0 (Z.to_nat loop_count)) s in
  {| result := result; after := reset_runtime (self s); events := trace s |}.

End Sequence.

Arguments ActionSequence A : clear implicits.
Arguments Event A : clear implicits.
Arguments State A : clear implicits.
Arguments Run A : clear implicits.

End Engine.

(** ** [api_integration.py]: the generative-response parser *)

Module ApiIntegration.
Import PyStr Py Actions.

Definition no_attribute (attribute : string) : Exn :=
  mkExn AttributeError ("object has no attribute " +:+ attribute).

(** [data[key]] on a dictionary *)
Definition subscript (d : gmap string PyVal) (key : string) : Dyn PyVal :=
  match d !! key with
  | Some v => Typed (Ok v)
  | None => Typed (Raise (mkExn KeyError key))
  end.

(** What a [for] loop goes through: the items of a list, the characters of
    a string, the keys of a dictionary; other values are not iterable. *)
Definition py_iter (v : PyVal) : Dyn (list PyVal) :=
  match v with
  | VList l => Typed (Ok l)
  | VStr s =>
      Typed (Ok ((fun c => VStr (String c EmptyString))
                   <$> list_ascii_of_string s))
  | VDict d => Typed (Ok ((fun kv => VStr (fst kv)) <$> map_to_list d))
  | _ => Typed (Raise (mkExn TypeError "object is not iterable"))
  end.

Section Parser.

(** Python's own functions, not part of the repository: the formatting of a
    number; [json.loads], which returns the decoded value or raises
    ([JSONDecodeError] on a text that is no JSON, [RecursionError] on one
    that is nested too deep); and [int(s)] and [float(s)] ([None] for
    [ValueError]). *)
Variable repr_float : Q -> string.
Variable json_loads : string -> Exc PyVal.
Variable py_int : string -> option Z.
Variable py_float : string -> option Q.

(** [time.time()] as read while the action that will stand at a given
    position of the result is built. *)
Variable time_time : nat -> Q.

(** The constructor calls of [_create_action_from_data], on decoded values:
    what the constructor raises is raised, and the action it builds is what
    the function returns. *)
Definition built (m : Dyn Action) : Dyn (option Action) :=
  dyn_bind m (fun action => Typed (Ok (Some action))).

Definition TypeAction_of (now : Q) (text delay : PyVal) : Dyn (option Action) :=
  built (TypeAction_dyn repr_float now text delay).

Definition ClickAction_of (now : Q) (x y button delay : PyVal)
  : Dyn (option Action) :=
  built (ClickAction_dyn repr_float now x y button delay).

Definition DelayAction_of (now : Q) (wait_time : PyVal) : Dyn (option Action) :=
  built (DelayAction_dyn repr_float now wait_time).

Definition HotkeyAction_of (now : Q) (keys delay : PyVal) : Dyn (option Action) :=
  built (HotkeyAction_dyn repr_float now keys delay).

Definition SpecialKeyAction_of (now : Q) (key delay : PyVal)
  : Dyn (option Action) :=
  built (SpecialKeyAction_dyn repr_float now key delay).

(** The body of the [try] of [_create_action_from_data]. *)
Definition create_action_body (now : Q) (data : PyVal) : Dyn (option Action) :=
  match data with
  | VDict d =>
      match default (VStr "") (d !! "type") with
      | VStr type_ =>
          let action_type := upper type_ in
          let delay := default (VFloat 0) (d !! "delay") in
          if String.eqb action_type "TYPE" then
            dyn_bind (subscript d "text") (fun text =>
            TypeAction_of now text delay)
          else if String.eqb action_type "CLICK" then
            dyn_bind (subscript d "x") (fun x =>
            dyn_bind (subscript d "y") (fun y =>
            ClickAction_of now x y (default (VStr "left") (d !! "button")) delay))
          else if String.eqb action_type "DELAY" then
            dyn_bind (subscript d "wait_time") (fun wait_time =>
            DelayAction_of now wait_time)
          else if String.eqb action_type "HOTKEY" then
            dyn_bind (subscript d "keys") (fun keys =>
            HotkeyAction_of now keys delay)
          else if String.eqb action_type "SPECIAL_KEY" then
            dyn_bind (subscript d "key") (fun key =>
            SpecialKeyAction_of now key delay)
          else Typed (Ok None)
      | _ => Typed (Raise (no_attribute "upper"))
      end
  | _ => Typed (Raise (no_attribute "get"))
  end.

(** [_create_action_from_data]: [KeyError], [TypeError] and [ValueError] are
    logged and give [None]. *)
Definition _create_action_from_data (now : Q) (data : PyVal)
  : Dyn (option Action) :=
  dyn_try (create_action_body now data) [KeyError; TypeError; ValueError]
          (fun _ => Typed (Ok None)).

(** [for action_data in ...: action = ...; if action: actions.append(action)] *)
Fixpoint collect_actions (items : list PyVal) (actions : list Action)
  : Dyn (list Action) :=
  match items with
  | [] => Typed (Ok actions)
  | action_data :: items' =>
      dyn_bind (_create_action_from_data (time_time (length actions)) action_data)
        (fun action =>
           collect_actions items'
             (match action with
              | Some a => actions ++ [a]
              | None => actions
              end))
  end.

(** One line of [_parse_text_response]. *)
Definition parse_line (line : string) (actions : list Action) : list Action :=
  let now := time_time (length actions) in
  let line := strip line in
  match line with
  | EmptyString => actions
  | _ =>
      if startswith "type:" (lower line) then
        let text := strip (drop 5 line) in
        actions ++ [TypeAction repr_float now text (1 # 2)]
      else if startswith "click:" (lower line) then
        let coords := strip (drop 6 line) in
        if contains "," coords then
          match split "," coords with
          | [a; b] =>
              match py_int a, py_int b with
              | Some x, Some y =>
                  actions ++ [ClickAction repr_float now x y "left" (1 # 5)]
              | _, _ => actions
              end
          | _ => actions
          end
        else actions
      else if startswith "wait:" (lower line) then
        match py_float (strip (drop 5 line)) with
        | Some wait_time => actions ++ [DelayAction repr_float now wait_time]
        | None => actions
        end
      else actions
  end.

(** [_parse_text_response]: the fallback parser. *)
Definition _parse_text_response (content : string) : list Action :=
  foldl (fun actions line => parse_line line actions) []
        (split "010" content).

(** [content[start_idx:end_idx]] when the test
    [start_idx != -1 and end_idx > start_idx] passes. *)
Definition json_span (content : string) : option string :=
  match find "{" content with
  | Some start_idx =>
      let end_idx :=
        match rfind "}" content with Some k => (k + 1)%nat | None => O end in
      if (start_idx <? end_idx)%nat
      then Some (substring start_idx (end_idx - start_idx) content)
      else None
  | None => None
  end.

(** The body of the [try] of [_parse_action_response]. *)
Definition parse_action_body (content : string) : Dyn (list Action) :=
  match json_span content with
  | Some json_str =>
      match json_loads json_str with
      | Ok (VDict data) =>
          dyn_bind (py_iter (default (VList []) (data !! "actions")))
                   (fun items => collect_actions items [])
      | Ok _ => Typed (Raise (no_attribute "get"))
      | Raise e => Typed (Raise e)
      end
  | None => Typed (Ok [])
  end.

(** [_parse_action_response]: only [json.JSONDecodeError] and [KeyError]
    lead to the fallback parser; any other exception leaves the function. *)
Definition _parse_action_response (content : string) : Dyn (list Action) :=
  dyn_try (parse_action_body content) [JSONDecodeError; KeyError]
          (fun _ => Typed (Ok (_parse_text_response content))).

End Parser.

End ApiIntegration.

(** ** The tokenizer as the design document words it

    "Scan left to right; on encountering [<], search forward for the next
    [>]; if found, lowercase the bracketed substring (inclusive of brackets)
    and look it up in the registry. On a hit: flush any accumulated
    literal-text segment, emit a key-token segment, and advance the scan past
    the closing [>]. On a miss: treat the [<] as an ordinary literal character
    and advance by one. At end of input, flush any remaining literal text."
    The scan below consumes the input itself, with no index into it. *)

Module TokenizerSpec.
Import PyStr Config Tokenizer.

(** The search for the next [>]: the characters up to and including it,
    and what follows it. *)
Fixpoint upto_closing (s : string) : option (string * string) :=
  match s with
  | EmptyString => None
  | String c s' =>
      if Ascii.eqb c ">" then Some (String c EmptyString, s')
      else
        match upto_closing s' with
        | Some (inside, rest) => Some (String c inside, rest)
        | None => None
        end
  end.

(** A hit on the input [String c s]: the canonical key name and the input
    past the closing [>]. *)
Definition hit (c : ascii) (s : string) : option (string * string) :=
  if Ascii.eqb c "<" then
    match upto_closing s with
    | Some (inside, rest) =>
        match SPECIAL_KEYS !! lower (String c inside) with
        | Some key => Some (key, rest)
        | None => None
        end
    | None => None
    end
  else None.

Lemma upto_closing_shorter (s inside rest : string) :
  upto_closing s = Some (inside, rest) ->
  (String.length rest < String.length s)%nat.
Proof.
  revert inside rest. induction s as [|c s IH]; simpl; intros inside rest H.
  - discriminate.
  - destruct (Ascii.eqb c ">").
    + inversion H. subst. lia.
    + destruct (upto_closing s) as [[i r]|]; [|discriminate].
      inversion H. subst. specialize (IH _ _ eq_refl). lia.
Qed.

Lemma hit_shorter (c : ascii) (s key rest : string) :
  hit c s = Some (key, rest) -> (String.length rest < String.length s)%nat.
Proof.
  unfold hit. destruct (Ascii.eqb c "<"); [|discriminate].
  destruct (upto_closing s) as [[inside r]|] eqn:E; [|discriminate].
  destruct (SPECIAL_KEYS !! _); [|discriminate].
  intros H. inversion H. subst. eapply upto_closing_shorter, E.
Qed.

(** The scan of the remaining input, with the literal text accumulated so
    far. *)
Equations? scan (remaining : string) (literal : string) : list segment
    by wf (String.length remaining) lt :=
  scan EmptyString literal := flush literal;
  scan (String c s) literal with inspect (hit c s) := {
    | exist _ (Some (key, rest)) Hhit =>
        flush literal ++ ("key", key) :: scan rest EmptyString
    | exist _ None _ => scan s (literal +:+ String c EmptyString) }.
Proof.
  - apply hit_shorter in Hhit. simpl. lia.
  - simpl. lia.
Qed.

Definition tokenize (text : string) : list segment := scan text EmptyString.

End TokenizerSpec.

(** ** Helpers for the concrete runs below *)

Module Samples.
Import Py Actions.

(** The double quote, which a string literal of this file cannot hold. *)
Definition dq : string := String (ascii_of_nat 34) EmptyString.

(** An outside world in which no call ever fails. *)
Definition no_fault : list DeviceOp -> DeviceOp -> option string :=
  fun _ _ => None.

(** A rendering of numbers for the runs below (numerator, then [/] and the
    denominator when it is not one); no statement depends on it. *)
Definition show_Q (q : Q) : string :=
  match Qden q with
  | 1%positive => PyStr.of_Z (Qnum q)
  | d => PyStr.of_Z (Qnum q) +:+ "/" +:+ PyStr.of_Z (Z.pos d)
  end.

(** The line feed. *)
Definition nl : string := String "010" EmptyString.

(** The reply [{"actions": 5}]. *)
Definition actions_is_a_number : string :=
  "{" +:+ dq +:+ "actions" +:+ dq +:+ ": 5}".

(** A decoder that knows the sample reply above and nothing else. *)
Definition sample_json_loads (s : string) : Exc PyVal :=
  if String.eqb s actions_is_a_number
  then Ok (VDict (<["actions" := VInt 5]> ∅))
  else Raise (mkExn JSONDecodeError "Expecting property name").

Definition no_number (s : string) : option Z := None.
Definition no_float (s : string) : option Q := None.
Definition at_zero (k : nat) : Q := 0.

(** A reply whose brace span is no JSON, followed by a line for the
    fallback parser. *)
Definition malformed_reply : string := "{oops}" +:+ nl +:+ "Type: Hello<enter>".

(** A disabled click with a delay of three seconds. *)
Definition disabled_click : Action :=
  {| delay := 3; id := VNone; name := "Left Click";
     description := "Click left at (1, 2)"; enabled := false;
     created_at := 0; variant := ClickV 1 2 "left" |}.

(** The mapping [{"type": "DelayAction", "wait_time": 1.0, "delay": 5}]. *)
Definition reloaded_delay_mapping : gmap string PyVal :=
  <["delay" := VInt 5]> (<["wait_time" := VFloat 1]>
    (<["type" := VStr "DelayAction"]> ∅)).

(** The mapping [{"type": "TypeAction", "text": 5}]. *)
Definition text_is_a_number : gmap string PyVal :=
  <["text" := VInt 5]> (<["type" := VStr "TypeAction"]> ∅).

(** Two variants are of the same class. *)
Definition same_class (v w : Variant) : bool :=
  String.eqb (class_name v) (class_name w).

End Samples.

(** ** What is read off a run of the engine *)

Module Observe.
Import Py Actions Engine.
Section Observations.
Context {A : Type}.

(** The pairs (loop index, action index) of the calls of [action.execute()]. *)
Definition executed_index (e : Event A) : option (nat * nat) :=
  match e with
  | Executed loop_index action_index _ => Some (loop_index, action_index)
  | _ => None
  end.

Definition executed (trace : list (Event A)) : list (nat * nat) :=
  omap executed_index trace.

Definition failed_execution (e : Event A) : bool :=
  match e with Executed _ _ o => failed o | _ => false end.

(** The inter-loop marker: a call of the progress callback with
    [action_index = -1]. *)
Definition is_marker (e : Event A) : bool :=
  match e with
  | ProgressCallback _ _ action_index _ _ => (action_index =? -1)%Z
  | _ => false
  end.

Definition is_loop_mark (e : Event A) : bool :=
  match e with LoopBegins _ => true | _ => is_marker e end.

Definition marker (loop_index loop_count total_actions : nat) : Event A :=
  ProgressCallback (Z.of_nat loop_index) (Z.of_nat loop_count) (-1)
                   total_actions None.

(** The stop predicate answered yes at some point of the run. *)
Definition stopped_early (trace : list (Event A)) : Prop :=
  StopCheck true ∈ trace.

(** What one evaluation of [stop_check and stop_check()] adds to a run. *)
Definition asked (stop_check : option (list (Event A) -> bool)) (stop : bool)
  : list (Event A) :=
  match stop_check with
  | Some _ => [StopCheck stop]
  | None => []
  end.

(** The events of one turn of the inner loop before its [Executed] mark. *)
Definition quiet (e : Event A) : bool :=
  match e with
  | Device _ => true
  | ProgressCallback _ _ action_index _ _ => (0 <=? action_index)%Z
  | _ => false
  end.

(** No call of [action.execute()] failed. *)
Definition clean (l : list (Event A)) : Prop :=
  Forall (fun e => failed_execution e = false) l.

(** The actions of loop [loop_index] from position [first] on. *)
Definition indices (loop_index first count : nat) : list (nat * nat) :=
  (fun i => (loop_index, i)) <$> seq first count.

(** The marker call between loop [loop_index] and the next one, when the
    engine makes it. *)
Definition pause_mark (progress_callback : bool) (s : ActionSequence A)
    (loop_count : Z) (total_actions loop_index : nat) : list (Event A) :=
  if loop_enabled s && (Z.of_nat loop_index <? loop_count - 1)%Z
     && is_positive (repeat_interval s) && progress_callback
  then [ProgressCallback (Z.of_nat loop_index) loop_count (-1) total_actions None]
  else [].

(** The milestones of a run: the top of a loop, the return of an action's
    [execute()], and the marker call with its arguments. *)
Inductive Milestone : Type :=
| Begins (loop_index : nat)
| Ran (loop_index action_index : nat)
| Paused (loop_index loop_count : Z) (total_actions : nat) (action : option A).

Definition milestone (e : Event A) : option Milestone :=
  match e with
  | LoopBegins loop_index => Some (Begins loop_index)
  | Executed loop_index action_index _ => Some (Ran loop_index action_index)
  | ProgressCallback loop_index loop_count action_index total_actions action =>
      if (action_index =? -1)%Z
      then Some (Paused loop_index loop_count total_actions action)
      else None
  | _ => None
  end.

Definition milestones (trace : list (Event A)) : list Milestone :=
  omap milestone trace.

(** Loop [loop_index] from its top to the return of its last action. *)
Definition loop_ran (loop_index total_actions : nat) : list Milestone :=
  Begins loop_index :: (Ran loop_index <$> seq 0 total_actions).

(** Everything of the object but its three runtime fields. *)
Definition settings (s : ActionSequence A) :=
  (actions s, loop_enabled s, loop_count s, repeat_interval s, stop_on_error s,
   (name s, created_at s, modified_at s, description s)).

(** [loop_count if loop_enabled else 1], as the number of turns of
    [range(loop_count)]. *)
Definition loops_of (s : ActionSequence A) : nat :=
  Z.to_nat (if loop_enabled s then loop_count s else 1%Z).
End Observations.

Section Turns.
Context {A : Type} {executable : Executable A}.
Variable progress_callback : bool.

(** One turn of the inner loop past its stop test: the progress call and
    [action.execute()]. *)
Definition turn (loop_index : nat) (loop_count : Z)
    (total_actions action_index : nat) (action : A) (s : State A) : State A :=
  let s := report progress_callback (Z.of_nat loop_index) loop_count
                  (Z.of_nat action_index) total_actions (Some action) s in
  let '(result, made) := run action (device_ops (trace s)) in
  emit ((Device <$> made) ++ [Executed loop_index action_index result]) s.

(** What [action.execute()] gives in that turn. *)
Definition turn_result (loop_index : nat) (loop_count : Z)
    (total_actions action_index : nat) (action : A) (s : State A) : Outcome :=
  (run action
       (device_ops
          (trace (report progress_callback (Z.of_nat loop_index) loop_count
                         (Z.of_nat action_index) total_actions (Some action)
                         s)))).1.

End Turns.

End Observe.

(** ** Sample sequences *)

Module EngineSamples.
Import Py Actions Engine.

(** An outside world in which pressing [f2] fails and nothing else does. *)
Definition f2_is_stuck : list DeviceOp -> DeviceOp -> option string :=
  fun _ op =>
    match op with
    | press key => if String.eqb key "f2" then Some "stuck" else None
    | _ => None
    end.

Definition press_key (key : string) : Action :=
  SpecialKeyAction Samples.show_Q 0 key 0.

(** Three key presses, the second of which fails under [f2_is_stuck]. *)
Definition three_keys (stop_on_error : bool) : ActionSequence Action :=
  {| name := "three keys";
     actions := [press_key "f1"; press_key "f2"; press_key "f3"];
     created_at := 0; modified_at := 0; description := "";
     loop_enabled := false; loop_count := 1; repeat_interval := 0;
     stop_on_error := stop_on_error;
     is_running := false; current_action_index := 0; current_loop := 0 |}.

(** One key press, looped three times with two seconds between the loops. *)
Definition looped : ActionSequence Action :=
  {| name := "looped"; actions := [press_key "f1"];
     created_at := 0; modified_at := 0; description := "";
     loop_enabled := true; loop_count := 3; repeat_interval := 2;
     stop_on_error := true;
     is_running := false; current_action_index := 0; current_loop := 0 |}.

(** The same with a loop count of zero. *)
Definition looped_zero_times : ActionSequence Action :=
  {| name := "looped"; actions := [press_key "f1"];
     created_at := 0; modified_at := 0; description := "";
     loop_enabled := true; loop_count := 0; repeat_interval := 2;
     stop_on_error := true;
     is_running := false; current_action_index := 0; current_loop := 0 |}.

(** A sequence that is marked as running when [execute] is called on it. *)
Definition busy : ActionSequence Action :=
  set_is_running true (three_keys true).

(** A stop predicate that answers yes from the third question on. *)
Definition is_poll (e : Event Action) : bool :=
  match e with StopCheck _ => true | _ => false end.

Definition stop_at_third_poll (trace : list (Event Action)) : bool :=
  (2 <=? length (List.filter is_poll trace))%nat.

(** A stop predicate that answers yes once it has been asked before. *)
Definition stop_from_second_poll (trace : list (Event Action)) : bool :=
  existsb is_poll trace.

Definition fine : Executable Action := Actions.execute Samples.no_fault.

End EngineSamples.

(** ** [actions.py]: validation and display of actions *)

Module ActionChecks.
Import PyStr Py Actions.

(** [button in ["left", "right", "middle"]] *)
Definition is_button (button : string) : bool :=
  existsb (String.eqb button) ["left"; "right"; "middle"].

(** [direction in ["up", "down"]] *)
Definition is_direction (direction : string) : bool :=
  existsb (String.eqb direction) ["up"; "down"].

(** The subclasses' [validate]. Their [isinstance] tests hold of every value
    of the typed fields of [Action], so only the other tests are left. *)
Definition validate (a : Action) : bool :=
  match variant a with
  | TypeV _ => true
  | ClickV x y button =>
      if negb (is_button button) then false
      else if (x <? 0)%Z || (y <? 0)%Z then false
      else true
  | DelayV wait_time => Qle_bool 0 wait_time
  | HotkeyV keys => match keys with [] => false | _ :: _ => true end
  | SpecialKeyV key => negb (String.eqb (strip key) "")
  | ScrollV _ _ clicks direction =>
      if (clicks <=? 0)%Z then false
      else if negb (is_direction direction) then false
      else true
  | DragV _ _ _ _ duration button =>
      if Qle_bool duration 0 then false
      else if negb (is_button button) then false
      else true
  end.

(** The mapping names one of the seven classes that [create_from_dict]
    knows. *)
Definition known_type (data : gmap string PyVal) : bool :=
  match data !! "type" with
  | Some (VStr action_type) =>
      existsb (String.eqb action_type)
        ["TypeAction"; "ClickAction"; "DelayAction"; "HotkeyAction";
         "SpecialKeyAction"; "ScrollAction"; "DragAction"]
  | _ => false
  end.

(** The call that [TypeAction._execute_impl] makes for one segment. *)
Definition segment_op (part : Tokenizer.segment) : DeviceOp :=
  if String.eqb part.1 "text" then typewrite part.2 else press part.2.

(** The sleep of the base delay, which [Action.execute] makes first when
    the delay is positive. *)
Definition delay_ops (a : Action) : list DeviceOp :=
  if is_positive (delay a) then [sleep (delay a)] else [].

(** An enabled action one of whose sleeps [time.sleep] refuses: the base
    delay, which is slept when it is positive, is too long, or the
    [wait_time] of a [DelayAction] is negative or too long. *)
Definition fails_to_sleep (a : Action) : bool :=
  enabled a
  && ((is_positive (delay a) && too_long (delay a))
      || match variant a with
         | DelayV wait_time => is_negative wait_time || too_long wait_time
         | _ => false
         end).

(** Neither the base delay nor the [wait_time] is beyond the range of
    [time.sleep]; [validate()] does not test it. *)
Definition sleeps_in_range (a : Action) : bool :=
  negb (too_long (delay a))
  && match variant a with
     | DelayV wait_time => negb (too_long wait_time)
     | _ => true
     end.

Section Display.

(** [str(x)] of a number inside an f-string, as in [Actions.describe]. *)
Variable repr_float : Q -> string.

Definition delay_suffix (a : Action) : string :=
  " (delay: " +:+ repr_float (delay a) +:+ "s)".

(** The subclasses' [__str__]. *)
Definition __str__ (a : Action) : string :=
  match variant a with
  | TypeV text => "Type '" +:+ text +:+ "'" +:+ delay_suffix a
  | ClickV x y button =>
      "Click " +:+ button +:+ " at " +:+ point x y +:+ delay_suffix a
  | DelayV wait_time => "Wait for " +:+ repr_float wait_time +:+ "s"
  | HotkeyV keys => "Press hotkey " +:+ join "+" keys +:+ delay_suffix a
  | SpecialKeyV key => "Press " +:+ key +:+ " key" +:+ delay_suffix a
  | ScrollV x y clicks direction =>
      "Scroll " +:+ direction +:+ " " +:+ of_Z clicks +:+ " clicks at "
        +:+ point x y +:+ delay_suffix a
  | DragV start_x start_y end_x end_y _ _ =>
      "Drag from " +:+ point start_x start_y +:+ " to " +:+ point end_x end_y
        +:+ delay_suffix a
  end.

(** The action with its description derived anew from its fields, as
    every [from_dict] leaves it. *)
Definition rederived (a : Action) : Action :=
  {| delay := delay a; id := id a; name := name a;
     description := describe repr_float (variant a);
     enabled := enabled a; created_at := created_at a; variant := variant a |}.

End Display.

End ActionChecks.

(** ** [actions.py]: editing, checking and storing a sequence *)

Module Sequences.
Import PyStr Py Actions Engine.

Section Editing.
Context {A : Type}.

(** [self.actions = l; self.modified_at = time.time()], the clock reading
    being [now]. *)
Definition edited (now : Q) (l : list A) (s : ActionSequence A) : ActionSequence A :=
  {| name := name s; actions := l; created_at := created_at s;
     modified_at := now; description := description s;
     loop_enabled := loop_enabled s; loop_count := loop_count s;
     repeat_interval := repeat_interval s; stop_on_error := stop_on_error s;
     is_running := is_running s; current_action_index := current_action_index s;
     current_loop := current_loop s |}.

(** [ActionSequence.__init__], with the two readings of the clock. *)
Definition init (created modified : Q) (name : string) : ActionSequence A :=
  {| name := name; actions := []; created_at := created; modified_at := modified;
     description := ""; loop_enabled := false; loop_count := 1;
     repeat_interval := 0; stop_on_error := true;
     is_running := false; current_action_index := 0; current_loop := 0 |}.

(** [l.pop(i)] for [i >= 0]: the item and the rest, nothing ([IndexError])
    past the end. *)
Definition pop (i : nat) (l : list A) : option (A * list A) :=
  match l !! i with
  | Some x => Some (x, delete i l)
  | None => None
  end.

(** [l.insert(i, x)] for [i >= 0]: before position [i], at the end when
    [i] is past it. *)
Definition insert_at (i : nat) (x : A) (l : list A) : list A :=
  firstn i l ++ x :: skipn i l.

(** [0 <= index < len(self.actions)] *)
Definition in_range (index : Z) (s : ActionSequence A) : bool :=
  (0 <=? index)%Z && (index <? Z.of_nat (length (actions s)))%Z.

(** [ActionSequence.add_action] *)
Definition add_action (now : Q) (action : A) (s : ActionSequence A)
  : ActionSequence A :=
  edited now (actions s ++ [action]) s.

(** [ActionSequence.remove_action]: what it returns and the object after
    the call. The guard keeps [pop] from raising. *)
Definition remove_action (now : Q) (index : Z) (s : ActionSequence A)
  : bool * ActionSequence A :=
  if in_range index s then
    match pop (Z.to_nat index) (actions s) with
    | Some (removed, rest) => (true, edited now rest s)
    | None => (false, s)
    end
  else (false, s).

(** [ActionSequence.move_action] *)
Definition move_action (now : Q) (from_index to_index : Z) (s : ActionSequence A)
  : bool * ActionSequence A :=
  if in_range from_index s && in_range to_index s then
    match pop (Z.to_nat from_index) (actions s) with
    | Some (action, rest) =>
        (true, edited now (insert_at (Z.to_nat to_index) action rest) s)
    | None => (false, s)
    end
  else (false, s).

(** [ActionSequence.clear] *)
Definition clear (now : Q) (s : ActionSequence A) : ActionSequence A :=
  edited now [] s.

End Editing.

Section Stored.

(** [str(x)] of a number inside an f-string, as in [Actions.describe]. *)
Variable repr_float : Q -> string.

(** [for i, action in enumerate(self.actions)] of [validate], from index
    [i] on. *)
Fixpoint invalid_actions (i : nat) (l : list Action) : list string :=
  match l with
  | [] => []
  | action :: l' =>
      (if ActionChecks.validate action then []
       else ["Action " +:+ PyStr.of_Z (Z.of_nat i + 1) +:+ " is invalid: "
               +:+ ActionChecks.__str__ repr_float action])
      ++ invalid_actions (S i) l'
  end.

(** [ActionSequence.validate]: the error messages. *)
Definition validate (s : ActionSequence Action) : list string :=
  (match actions s with [] => ["Sequence is empty"] | _ :: _ => [] end)
  ++ invalid_actions 0 (actions s).

(** [ActionSequence.__str__] *)
Definition __str__ (s : ActionSequence Action) : string :=
  "ActionSequence '" +:+ name s +:+ "' with "
    +:+ PyStr.of_Z (Z.of_nat (length (actions s))) +:+ " actions".

(** [action.to_dict()] as an entry of the stored list. *)
Definition stored (a : Action) : PyVal := VDict (Actions.to_dict a).

(** [ActionSequence.to_dict]: the runtime fields are not stored. *)
Definition to_dict (s : ActionSequence Action) : gmap string PyVal :=
  <["actions" := VList (stored <$> actions s)]>
  (<["stop_on_error" := VBool (stop_on_error s)]>
  (<["repeat_interval" := VFloat (repeat_interval s)]>
  (<["loop_count" := VInt (loop_count s)]>
  (<["loop_enabled" := VBool (loop_enabled s)]>
  (<["modified_at" := VFloat (modified_at s)]>
  (<["created_at" := VFloat (created_at s)]>
  (<["description" := VStr (description s)]>
  (<["name" := VStr (name s)]> ∅)))))))).

(** The loop of [from_dict] from the entry at index [i] on:
    [Action.create_from_dict(action_data)] inside [try ... except Exception],
    so an entry that is no dictionary ([AttributeError]) or that the
    factory refuses is logged and left out. [clock i] is the reading of
    [time.time()] while the entry at index [i] is loaded. No exception
    leaves the loop; the result is [None] when the factory goes on with a
    value outside the typed fields. *)
Fixpoint load_actions (clock : nat -> Q) (i : nat) (items : list PyVal)
    (loaded : list Action) : option (list Action) :=
  match items with
  | [] => Some loaded
  | action_data :: items' =>
      match action_data with
      | VDict d =>
          match create_from_dict repr_float (clock i) d with
          | Typed (Ok action) =>
              load_actions clock (S i) items' (loaded ++ [action])
          | Typed (Raise _) => load_actions clock (S i) items' loaded
          | Untyped => None
          end
      | _ => load_actions clock (S i) items' loaded
      end
  end.

(** [ActionSequence.from_dict]: the object as the call leaves it, and how
    the call ends. The eight settings are assigned and the list emptied
    before the loop over [data.get("actions", [])] starts, so an exception
    of that loop leaves them behind. [created] and [modified] are the
    readings of [time.time()] for the two defaults. *)
Definition from_dict (created modified : Q) (clock : nat -> Q)
    (self : ActionSequence Action) (data : gmap string PyVal)
  : Dyn (ActionSequence Action * Exc unit) :=
  at_type (get_at as_str data "name" "Untitled Sequence") (fun name_ =>
  at_type (get_at as_str data "description" "") (fun description_ =>
  at_type (get_at as_num data "created_at" created) (fun created_at_ =>
  at_type (get_at as_num data "modified_at" modified) (fun modified_at_ =>
  at_type (get_at as_bool data "loop_enabled" false) (fun loop_enabled_ =>
  at_type (get_at as_int data "loop_count" 1%Z) (fun loop_count_ =>
  at_type (get_at as_num data "repeat_interval" 0%Q) (fun repeat_interval_ =>
  at_type (get_at as_bool data "stop_on_error" true) (fun stop_on_error_ =>
  let with_actions (l : list Action) : ActionSequence Action :=
    {| name := name_; actions := l; created_at := created_at_;
       modified_at := modified_at_; description := description_;
       loop_enabled := loop_enabled_; loop_count := loop_count_;
       repeat_interval := repeat_interval_; stop_on_error := stop_on_error_;
       is_running := is_running self;
       current_action_index := current_action_index self;
       current_loop := current_loop self |} in
  match ApiIntegration.py_iter (default (VList []) (data !! "actions")) with
  | Typed (Ok items) =>
      match load_actions clock 0 items [] with
      | Some l => Typed (Ok (with_actions l, Ok tt))
      | None => Untyped
      end
  | Typed (Raise e) => Typed (Ok (with_actions [], Raise e))
  | Untyped => Untyped
  end)))))))).

(** The values a [for] loop can go through: lists, strings, dictionaries. *)
Definition iterable (v : PyVal) : bool :=
  match v with
  | VList _ | VStr _ | VDict _ => true
  | _ => false
  end.

(** The object [self] with the eight settings of [s] and the list [l]. *)
Definition reloaded (self s : ActionSequence Action) (l : list Action)
  : ActionSequence Action :=
  {| name := name s; actions := l; created_at := created_at s;
     modified_at := modified_at s; description := description s;
     loop_enabled := loop_enabled s; loop_count := loop_count s;
     repeat_interval := repeat_interval s; stop_on_error := stop_on_error s;
     is_running := is_running self;
     current_action_index := current_action_index self;
     current_loop := current_loop self |}.

End Stored.

End Sequences.

(** ** [api_integration.py]: the provider manager *)

Module Manager.
Import PyStr Py.

(** The two provider classes. *)
Inductive ProviderClass : Type := GeminiProvider | OpenAIProvider.

(** A provider object as its constructor leaves it. Its [config], the
    dictionary of [API_CONFIG] it was given, and its session are read by the
    request methods only. *)
Record AIProvider : Type := mkProvider {
  provider_class : ProviderClass;
  api_key : string;
  model : PyVal }.

(** [GeminiProvider(api_key, config)] and [OpenAIProvider(api_key, config)] *)
Definition new_provider (cls : ProviderClass) (api_key : string)
    (config : gmap string PyVal) : AIProvider :=
  {| provider_class := cls; api_key := api_key;
     model := default (VStr (match cls with
                             | GeminiProvider => "gemini-pro"
                             | OpenAIProvider => "gpt-3.5-turbo"
                             end))
                      (config !! "model") |}.

(** [AIProvider.is_configured]: [bool(self.api_key and self.api_key.strip())] *)
Definition is_configured (p : AIProvider) : bool :=
  negb (String.eqb (api_key p) "") && negb (String.eqb (strip (api_key p)) "").

(** [config.py]: [API_CONFIG] as shipped. *)
Definition API_CONFIG : gmap string (gmap string PyVal) :=
  <["gemini" := <["enabled" := VBool false]> (<["api_key" := VStr ""]>
                (<["model" := VStr "gemini-pro"]> (<["max_tokens" := VInt 1000]>
                (<["temperature" := VFloat (7 # 10)]> ∅))))]>
  (<["openai" := <["enabled" := VBool false]> (<["api_key" := VStr ""]>
                (<["model" := VStr "gpt-3.5-turbo"]> (<["max_tokens" := VInt 1000]>
                (<["temperature" := VFloat (7 # 10)]> ∅))))]> ∅).

(** [bool(v)] *)
Definition truthy (v : PyVal) : bool :=
  match v with
  | VNone => false
  | VBool b => b
  | VInt z => negb (z =? 0)%Z
  | VFloat q => negb (Qeq_bool q 0)
  | VStr s => negb (String.eqb s "")
  | VList l => match l with [] => false | _ :: _ => true end
  | VDict d => negb (bool_decide (size d = 0%nat))
  end.

(** The manager object. *)
Record AIManager : Type := mkManager {
  providers : gmap string AIProvider;
  current_provider : option string }.

(** [not self.current_provider] *)
Definition unset (current : option string) : bool :=
  match current with
  | None => true
  | Some name => String.eqb name ""
  end.

(** One of the two blocks of [_initialize_providers]; [None] when the
    stored key is no string. *)
Definition initialize_provider (name : string) (cls : ProviderClass)
    (api_config : gmap string (gmap string PyVal)) (m : AIManager)
  : option AIManager :=
  let config := default ∅ (api_config !! name) in
  if truthy (default (VBool false) (config !! "enabled"))
     && truthy (default VNone (config !! "api_key"))
  then
    match config !! "api_key" with
    | Some (VStr key) =>
        Some {| providers := <[name := new_provider cls key config]> (providers m);
                current_provider :=
                  if unset (current_provider m) then Some name
                  else current_provider m |}
    | _ => None
    end
  else Some m.

(** [AIManager.__init__], which calls [_initialize_providers]. *)
Definition init (api_config : gmap string (gmap string PyVal))
  : option AIManager :=
  m ← initialize_provider "gemini" GeminiProvider api_config
        {| providers := ∅; current_provider := None |};
  initialize_provider "openai" OpenAIProvider api_config m.

(** [AIManager.set_current_provider] *)
Definition set_current_provider (provider_name : string) (m : AIManager)
  : bool * AIManager :=
  match providers m !! provider_name with
  | Some _ =>
      (true, {| providers := providers m; current_provider := Some provider_name |})
  | None => (false, m)
  end.

(** [AIManager.get_current_provider] *)
Definition get_current_provider (m : AIManager) : option AIProvider :=
  match current_provider m with
  | Some name => if String.eqb name "" then None else providers m !! name
  | None => None
  end.

(** [AIManager.is_available] *)
Definition is_available (m : AIManager) : bool :=
  (0 <? size (providers m))%nat
  && match current_provider m with Some _ => true | None => false end.

(** The body of one branch of [update_api_key]: the dictionary of
    [API_CONFIG] (a fresh one when the name is absent) gets the key and the
    flag, and a new provider replaces the registered one. *)
Definition renew (name : string) (cls : ProviderClass) (key : string)
    (w : gmap string (gmap string PyVal) * AIManager)
  : gmap string (gmap string PyVal) * AIManager :=
  let config :=
    <["enabled" := VBool (negb (String.eqb (strip key) ""))]>
      (<["api_key" := VStr key]> (default ∅ (w.1 !! name))) in
  (match w.1 !! name with
   | Some _ => <[name := config]> w.1
   | None => w.1
   end,
   {| providers := <[name := new_provider cls key config]> (providers w.2);
      current_provider := current_provider w.2 |}).

(** [AIManager.update_api_key], on [API_CONFIG] and the manager. *)
Definition update_api_key (provider_name key : string)
    (w : gmap string (gmap string PyVal) * AIManager)
  : bool * (gmap string (gmap string PyVal) * AIManager) :=
  if String.eqb provider_name "gemini" then
    (true, renew "gemini" GeminiProvider key w)
  else if String.eqb provider_name "openai" then
    (true, renew "openai" OpenAIProvider key w)
  else (false, w).

(** The calls that change a manager, and a run of them. *)
Inductive Call : Type :=
| SetCurrentProvider (provider_name : string)
| UpdateApiKey (provider_name key : string).

Definition call (w : gmap string (gmap string PyVal) * AIManager) (c : Call)
  : gmap string (gmap string PyVal) * AIManager :=
  match c with
  | SetCurrentProvider provider_name =>
      (w.1, (set_current_provider provider_name w.2).2)
  | UpdateApiKey provider_name key => (update_api_key provider_name key w).2
  end.

Definition is_update (c : Call) : bool :=
  match c with UpdateApiKey _ _ => true | SetCurrentProvider _ => false end.

End Manager.

(** ** What the tokenizer gives *)

Module Segments.
Import PyStr Config Tokenizer.

Definition is_text (part : segment) : bool := String.eqb part.1 "text".

(** A literal segment is not empty; a key segment holds a key name of the
    registry. *)
Definition well_formed (part : segment) : Prop :=
  (part.1 = "text" /\ part.2 <> "")
  \/ (part.1 = "key" /\ exists token, SPECIAL_KEYS !! token = Some part.2).

(** No literal segment follows another one. *)
Fixpoint no_two_texts (parts : list segment) : bool :=
  match parts with
  | part :: (next :: _) as parts' =>
      negb (is_text part && is_text next) && no_two_texts parts'
  | _ => true
  end.

End Segments.

(** ** What the fallback parser builds *)

Module ReplyShapes.
Import Py Actions.

(** The three calls of [_parse_text_response]: [TypeAction(text, 0.5)],
    [ClickAction(x, y, 'left', 0.2)] and [DelayAction(wait_time)], each an
    enabled action. *)
Definition fallback_shape (a : Action) : bool :=
  enabled a
  && match variant a with
     | TypeV _ => Qeq_bool (delay a) (1 # 2)
     | ClickV _ _ button => String.eqb button "left" && Qeq_bool (delay a) (1 # 5)
     | DelayV _ => Qeq_bool (delay a) 0
     | _ => false
     end.

(** The reply [{"actions": [...]}] as decoded, and an entry of type [TYPE]
    that lacks its ["text"]. *)
Definition reply_with (items : list PyVal) : PyVal :=
  VDict (<["actions" := VList items]> ∅).

Definition type_without_text : PyVal :=
  VDict (<["type" := VStr "type"]> ∅).

End ReplyShapes.

(** * Properties *)

(** ** The special-key tokenizer *)

Module TokenizerFacts.
Import PyStr Config Tokenizer TokenizerSpec.

Lemma scan_hit (c : ascii) (s literal key rest : string) :
  hit c s = Some (key, rest) ->
  scan (String c s) literal = flush literal ++ ("key", key) :: scan rest EmptyString.
Proof.
  intros H. simp scan.
  destruct (inspect (hit c s)) as [[[k r]|] e]; simpl.
  - assert (k = key /\ r = rest) as [-> ->] by (split; congruence). reflexivity.
  - congruence.
Qed.

Lemma scan_miss (c : ascii) (s literal : string) :
  hit c s = None ->
  scan (String c s) literal = scan s (literal +:+ String c EmptyString).
Proof.
  intros H. simp scan.
  destruct (inspect (hit c s)) as [[[k r]|] e]; simpl.
  - congruence.
  - reflexivity.
Qed.

Lemma get_none_drop (text : string) : forall i,
  String.get i text = None -> drop i text = EmptyString.
Proof.
  induction text as [|a s IH]; intros [|i]; simpl; intros H;
    try reflexivity; try discriminate.
  apply IH, H.
Qed.

Lemma get_some_drop (text : string) : forall i c,
  String.get i text = Some c -> drop i text = String c (drop (i + 1) text).
Proof.
  induction text as [|a s IH]; intros [|i] c; simpl; intros H; try discriminate.
  - inversion H. reflexivity.
  - apply IH, H.
Qed.

Lemma prefix_closing (c : ascii) (s : string) :
  String.prefix ">" (String c s) = Ascii.eqb c ">".
Proof.
  unfold String.prefix. destruct (ascii_dec ">" c) as [<-|Hne].
  - destruct s; reflexivity.
  - symmetry. apply Ascii.eqb_neq. congruence.
Qed.

(** The first [>] of [s], as [String.index] and as [upto_closing] find it. *)
Lemma index_upto_closing (s : string) :
  match upto_closing s with
  | Some (inside, rest) =>
      exists m, String.index 0 ">" s = Some m
                /\ substring 0 (m + 1) s = inside /\ drop (m + 1) s = rest
  | None => String.index 0 ">" s = None
  end.
Proof.
  induction s as [|c s IH]; [reflexivity|].
  cbn [upto_closing String.index]. rewrite prefix_closing.
  destruct (Ascii.eqb c ">") eqn:Ec.
  - exists 0%nat. repeat split. simpl. destruct s; reflexivity.
  - destruct (upto_closing s) as [[inside rest]|].
    + destruct IH as (m & -> & Hsub & Hdrop). exists (S m). repeat split.
      * simpl. rewrite Hsub. reflexivity.
      * exact Hdrop.
    + rewrite IH. reflexivity.
Qed.

(** The same from an index [i] at which the text holds a [<]. *)
Lemma index_from_bracket (text : string) : forall i,
  String.get i text = Some "<"%char ->
  match upto_closing (drop (i + 1) text) with
  | Some (inside, rest) =>
      exists closing_idx, String.index i ">" text = Some closing_idx
        /\ substring i (closing_idx + 1 - i) text = String "<" inside
        /\ drop (closing_idx + 1) text = rest
  | None => String.index i ">" text = None
  end.
Proof.
  induction text as [|a s IH]; intros [|i] H; simpl in H; try discriminate.
  - inversion H. subst a. cbn [drop Nat.add].
    pose proof (index_upto_closing s) as Hs.
    cbn [String.index]. rewrite prefix_closing. cbn [Ascii.eqb Bool.eqb].
    destruct (upto_closing s) as [[inside rest]|].
    + destruct Hs as (m & -> & Hsub & Hdrop). exists (S m). repeat split.
      * replace (S m + 1 - 0)%nat with (S (m + 1)) by lia. simpl.
        rewrite Hsub. reflexivity.
      * exact Hdrop.
    + rewrite Hs. reflexivity.
  - specialize (IH i H). cbn [drop Nat.add String.index].
    destruct (upto_closing (drop (i + 1) s)) as [[inside rest]|].
    + destruct IH as (closing_idx & -> & Hsub & Hdrop). exists (S closing_idx).
      repeat split.
      * replace (S closing_idx + 1 - S i)%nat with (closing_idx + 1 - i)%nat by lia.
        simpl. exact Hsub.
      * exact Hdrop.
    + rewrite IH. reflexivity.
Qed.

Lemma hit_at (text : string) (i : nat) (c : ascii) :
  String.get i text = Some c ->
  hit c (drop (i + 1) text)
  = match special_key_at text i c with
    | Some (closing_idx, key) => Some (key, drop (closing_idx + 1) text)
    | None => None
    end.
Proof.
  intros Hc. unfold hit, special_key_at.
  destruct (Ascii.eqb c "<") eqn:Ec; [|reflexivity].
  apply Ascii.eqb_eq in Ec. subst c.
  pose proof (index_from_bracket text i Hc) as H.
  destruct (upto_closing (drop (i + 1) text)) as [[inside rest]|].
  - destruct H as (closing_idx & Hi & Hsub & Hdrop).
    rewrite Hi. cbv zeta. rewrite Hsub, <- Hdrop.
    destruct (SPECIAL_KEYS !! _); reflexivity.
  - rewrite H. reflexivity.
Qed.

Lemma parse_loop_scans (text : string) (i : nat) (current_text : string)
    (parts : list segment) :
  parse_loop text i current_text parts = parts ++ scan (drop i text) current_text.
Proof.
  funelim (parse_loop text i current_text parts).
  - rewrite (get_none_drop _ _ e). simp scan. reflexivity.
  - rewrite H, (get_some_drop _ _ _ Hc).
    pose proof (hit_at text i c Hc) as Hh. rewrite Hk in Hh.
    rewrite (scan_hit _ _ _ _ _ Hh), <- !app_assoc. reflexivity.
  - rewrite H, (get_some_drop _ _ _ Hc).
    pose proof (hit_at text i c Hc) as Hh. rewrite e in Hh.
    rewrite (scan_miss _ _ _ Hh). reflexivity.
Qed.

(** C5. On every input the tokenizer of the source, which walks an index
    through the text, gives the segments of the left-to-right scan of the
    design document: a bracketed substring whose lower-case form is
    registered gives a key segment, after the literal text accumulated so
    far; when no [>] follows or the bracketed substring is not registered,
    the [<] joins the literal text and the scan moves on by one character.
    In particular ["Hello<enter>World"] gives text, key [enter], text, and
    ["<bogus>ok"] gives one text segment. *)
Theorem tokenizer_scans_left_to_right :
  (forall text, _parse_text_with_special_keys text = tokenize text)
  /\ _parse_text_with_special_keys "Hello<enter>World"
     = [("text", "Hello"); ("key", "enter"); ("text", "World")]
  /\ _parse_text_with_special_keys "<bogus>ok" = [("text", "<bogus>ok")].
Proof.
  split; [|split; reflexivity].
  intros text. unfold _parse_text_with_special_keys, tokenize.
  rewrite parse_loop_scans. reflexivity.
Qed.

(** Three runs of the tokenizer: an unmatched [<] stays literal, a key token
    is matched whatever its case, and literal text keeps its case. *)
Theorem tokenizer_keeps_case_of_text_and_unmatched_brackets :
  _parse_text_with_special_keys "a<b" = [("text", "a<b")]
  /\ _parse_text_with_special_keys "Hi<TAB>There<" 
     = [("text", "Hi"); ("key", "tab"); ("text", "There<")]
  /\ _parse_text_with_special_keys "<<Caps_Lock>>"
     = [("text", "<"); ("key", "capslock"); ("text", ">")].
Proof. repeat split. Qed.

End TokenizerFacts.

(** ** The action model *)

Module ActionFacts.
Import Py Actions Samples.

Section RoundTrip.
Variable repr_float : Q -> string.
Variable now : Q.

Lemma as_strs_fmap (keys : list string) : as_strs (VStr <$> keys) = Some keys.
Proof.
  induction keys as [|k ks IH]; [reflexivity|].
  rewrite fmap_cons. cbn [as_strs as_str]. rewrite IH. reflexivity.
Qed.

Lemma base_from_to (self a : Action) :
  base_from_dict now self (to_dict a)
  = Some {| delay := delay a; id := id a; name := name a;
            description := description a; enabled := enabled a;
            created_at := created_at a; variant := variant self |}.
Proof. destruct a as [d i n de e c v]; destruct v; reflexivity. Qed.

Lemma variant_from_to (a : Action) :
  variant_from_dict (variant a) (to_dict a) = Some (variant a).
Proof.
  destruct a as [d i n de e c v]; destruct v; cbn [variant].
  1-3,5-7: reflexivity.
  unfold variant_from_dict, get_at, to_dict. cbn [variant].
  rewrite lookup_insert_eq. cbn [as_str_list]. rewrite as_strs_fmap. reflexivity.
Qed.

Lemma variant_from_dict_class (v w : Variant) data :
  same_class v w = true -> variant_from_dict v data = variant_from_dict w data.
Proof. destruct v, w; simpl; intros H; try discriminate; reflexivity. Qed.

Lemma construct_to (a : Action) :
  exists b, construct repr_float now (class_name (variant a)) (to_dict a)
            = Some (Typed (Ok b))
            /\ same_class (variant b) (variant a) = true.
Proof.
  destruct a as [d i n de e c v]; destruct v; cbn [variant class_name].
  1-3,5-7: eexists; split; reflexivity.
  exists (HotkeyAction repr_float now keys (inject_Z 0)). split; [|reflexivity].
  unfold construct. cbn [String.eqb Ascii.eqb Bool.eqb]. cbv zeta.
  unfold to_dict. cbn [variant].
  rewrite lookup_insert_eq. cbn [default Datatypes.id]. unfold HotkeyAction_dyn.
  rewrite as_strs_fmap. reflexivity.
Qed.

Lemma lookup_type (a : Action) :
  to_dict a !! "type" = Some (VStr (class_name (variant a))).
Proof. destruct a as [d i n de e c v]; destruct v; reflexivity. Qed.

(** [from_dict] on the dictionary of [a], called on any object of the class
    of [a], gives [a] with its description derived anew. *)
Lemma from_to_dict (self a : Action) :
  same_class (variant self) (variant a) = true ->
  from_dict repr_float now self (to_dict a)
  = Some {| delay := delay a; id := id a; name := name a;
            description := describe repr_float (variant a);
            enabled := enabled a; created_at := created_at a;
            variant := variant a |}.
Proof.
  intros Hclass. unfold from_dict. rewrite base_from_to.
  rewrite (variant_from_dict_class _ _ _ Hclass), variant_from_to.
  reflexivity.
Qed.

Lemma clone_rederives (a : Action) :
  clone repr_float now a
  = Typed (Ok {| delay := delay a; id := id a; name := name a;
                 description := describe repr_float (variant a);
                 enabled := enabled a; created_at := created_at a;
                 variant := variant a |}).
Proof.
  unfold clone, create_from_dict. rewrite lookup_type.
  destruct (construct_to a) as (b & -> & Hclass). cbn [dyn_bind].
  rewrite (from_to_dict b a Hclass). reflexivity.
Qed.

Lemma from_dict_derives (self a : Action) (data : gmap string PyVal) :
  from_dict repr_float now self data = Some a ->
  description a = describe repr_float (variant a).
Proof.
  unfold from_dict.
  destruct (base_from_dict now self data) as [self'|]; [|discriminate].
  destruct (variant_from_dict (variant self) data) as [v|]; [|discriminate].
  cbn. intros H; inversion H; reflexivity.
Qed.

Lemma create_from_dict_built (data : gmap string PyVal) (a : Action) :
  create_from_dict repr_float now data = Typed (Ok a) ->
  exists action_type b,
    data !! "type" = Some (VStr action_type)
    /\ construct repr_float now action_type data = Some (Typed (Ok b))
    /\ from_dict repr_float now b data = Some a.
Proof.
  unfold create_from_dict.
  destruct (data !! "type") as [[| | | |action_type| |]|]; try discriminate.
  destruct (construct repr_float now action_type data) as [[[b|e]|]|] eqn:Hc;
    cbn [dyn_bind]; try discriminate.
  destruct (from_dict repr_float now b data) as [a'|] eqn:Hf; [|discriminate].
  intros H; inversion H; subst. exists action_type, b. auto.
Qed.

End RoundTrip.

(** C4. Every action the program builds carries the description derived
    from its subclass fields: the constructors derive it (all seven go
    through [init]), and so does the [from_dict] that ends every call of
    the factory; nothing else assigns a field of an action. On every such
    action, whatever its variant, [clone], which is [create_from_dict] of
    [to_dict], gives back the action itself, and so does [from_dict] of
    [to_dict] on any object of its class: the variant fields, delay, id,
    name, description, enabled flag and creation time are all equal. *)
Theorem round_trip_reproduces_every_field (repr_float : Q -> string) (now : Q) :
  (forall created delay name v,
     description (init repr_float created delay name v) = describe repr_float v)
  /\ (forall data a,
        create_from_dict repr_float now data = Typed (Ok a) ->
        description a = describe repr_float (variant a))
  /\ (forall a,
        description a = describe repr_float (variant a) ->
        clone repr_float now a = Typed (Ok a)
        /\ forall self,
             same_class (variant self) (variant a) = true ->
             from_dict repr_float now self (to_dict a) = Some a).
Proof.
  split; [reflexivity|]. split.
  - intros data a H.
    destruct (create_from_dict_built repr_float now data a H)
      as (action_type & b & _ & _ & Hf).
    eapply from_dict_derives, Hf.
  - intros a Hd. split.
    + rewrite clone_rederives, <- Hd. destruct a; reflexivity.
    + intros self Hclass. rewrite (from_to_dict repr_float now self a Hclass).
      rewrite <- Hd. destruct a; reflexivity.
Qed.

(** C4, witness: a click as its constructor builds it is cloned exactly. *)
Lemma clone_of_a_fresh_click_is_exact :
  description (ClickAction show_Q 0 10 20 "left" (1 # 5))
  = describe show_Q (variant (ClickAction show_Q 0 10 20 "left" (1 # 5)))
  /\ clone show_Q 7 (ClickAction show_Q 0 10 20 "left" (1 # 5))
     = Typed (Ok (ClickAction show_Q 0 10 20 "left" (1 # 5))).
Proof.
  split; [reflexivity|].
  apply (proj2 (proj2 (round_trip_reproduces_every_field show_Q 7))
           (ClickAction show_Q 0 10 20 "left" (1 # 5))).
  reflexivity.
Defined.

Section Execute.
Variable fault : list DeviceOp -> DeviceOp -> option string.

(** C10. [execute()] on an action whose [enabled] is false returns success
    at once, whatever the outside world and whatever happened before: no
    call is made, neither the [time.sleep(delay)] that precedes an enabled
    action nor any call of the input-injection library. *)
Theorem disabled_action_is_skipped_before_its_delay (a : Action) (past : list DeviceOp) :
  enabled a = false -> execute fault a past = (Returned true, []).
Proof.
  intros H. unfold execute, execute_body. rewrite H. reflexivity.
Qed.

End Execute.

(** C10, witness: a disabled click with a delay of three seconds. *)
Lemma disabled_click_with_delay_does_nothing :
  enabled disabled_click = false
  /\ execute no_fault disabled_click [] = (Returned true, []).
Proof.
  split; [reflexivity|].
  apply (disabled_action_is_skipped_before_its_delay no_fault). reflexivity.
Defined.

(** C9, the code at the failing input. The factory builds, from the mapping
    [{"type": "DelayAction", "wait_time": 1.0, "delay": 5}], a delay action
    whose base delay is 5, and its [execute()] sleeps 5 seconds and then
    1 second, in every outside world: the base delay is not ignored. *)
Theorem reloaded_delay_action_waits_its_base_delay_too :
  exists a, create_from_dict show_Q 0 reloaded_delay_mapping = Typed (Ok a)
    /\ variant a = DelayV 1 /\ delay a = 5%Q
    /\ forall fault past, execute fault a past = (Returned true, [sleep 5; sleep 1]).
Proof.
  eexists. split; [reflexivity|]. repeat split.
Qed.

(** The factory raises [ValueError] on a mapping with no ["type"]. *)
Theorem unknown_action_type_raises_value_error (repr_float : Q -> string)
    (now : Q) (data : gmap string PyVal) :
  data !! "type" = None ->
  create_from_dict repr_float now data = Typed (Raise unknown_action_type).
Proof. intros H. unfold create_from_dict. rewrite H. reflexivity. Qed.

(** The empty mapping is such a mapping. *)
Lemma empty_mapping_raises_value_error :
  (∅ : gmap string PyVal) !! "type" = None
  /\ create_from_dict show_Q 0 ∅ = Typed (Raise unknown_action_type).
Proof.
  split; [reflexivity|].
  apply (unknown_action_type_raises_value_error show_Q 0 ∅). reflexivity.
Defined.

(** X3. A [DelayAction] as its constructor builds it has base delay 0. Its
    [execute()] sleeps [wait_time] seconds and makes no other call when
    [time.sleep] accepts the length, that is, when it is neither negative
    nor beyond the range of [time.sleep]; otherwise it makes no call at all
    and raises [ActionError]. *)
Theorem constructed_delay_action_waits_wait_time_only
    (fault : list DeviceOp -> DeviceOp -> option string)
    (repr_float : Q -> string) (now wait_time : Q) (past : list DeviceOp) :
  delay (DelayAction repr_float now wait_time) = 0%Q
  /\ (is_negative wait_time = false -> too_long wait_time = false ->
      execute fault (DelayAction repr_float now wait_time) past
      = (Returned true, [sleep wait_time]))
  /\ (is_negative wait_time = true \/ too_long wait_time = true ->
      exists message,
        execute fault (DelayAction repr_float now wait_time) past
        = (ActionError message, [])).
Proof.
  split; [reflexivity|].
  unfold execute, execute_body. simpl. unfold dev_bind, time_sleep. split.
  - intros Hn Hl. rewrite Hn, Hl. reflexivity.
  - intros H. destruct (is_negative wait_time); [eexists; reflexivity|].
    destruct H as [H|H]; [discriminate|]. rewrite H. eexists; reflexivity.
Qed.

(** X3, witness: a delay of two seconds. *)
Lemma constructed_delay_of_two_seconds :
  is_negative 2 = false /\ too_long 2 = false
  /\ execute no_fault (DelayAction show_Q 0 2) [] = (Returned true, [sleep 2]).
Proof.
  split; [reflexivity|]. split; [reflexivity|].
  apply (constructed_delay_action_waits_wait_time_only no_fault show_Q 0 2 []);
    reflexivity.
Defined.

End ActionFacts.

(** ** The generative-response parser *)

Module ParserFacts.
Import Py Actions ApiIntegration Samples.

Section Parsing.
Variable repr_float : Q -> string.
Variable json_loads : string -> Exc PyVal.
Variable py_int : string -> option Z.
Variable py_float : string -> option Q.
Variable time_time : nat -> Q.

Local Abbreviation _parse_action_response :=
  (_parse_action_response repr_float json_loads py_int py_float time_time).
Local Abbreviation _parse_text_response :=
  (_parse_text_response repr_float py_int py_float time_time).

(** With no [{] before a last [}], nothing is decoded and nothing falls
    back: the result is the empty list. *)
Lemma no_span_no_fallback (content : string) :
  json_span content = None -> _parse_action_response content = Typed (Ok []).
Proof.
  intros H. unfold ApiIntegration._parse_action_response, parse_action_body.
  rewrite H. reflexivity.
Qed.

(** X4. When the text between the first [{] and the last [}] does not
    decode, the parser returns what the fallback parser reads off the lines
    of the reply. *)
Lemma undecodable_span_falls_back (content json_str : string) (e : Exn) :
  json_span content = Some json_str ->
  json_loads json_str = Raise e -> exn_class e = JSONDecodeError ->
  _parse_action_response content = Typed (Ok (_parse_text_response content)).
Proof.
  intros H1 H2 H3. unfold ApiIntegration._parse_action_response, parse_action_body.
  rewrite H1, H2. unfold dyn_try, caught_by, isinstance. rewrite H3. reflexivity.
Qed.

(** C6, the code at the failing input. On the reply ["Type: Hello<enter>"],
    which holds no brace at all, the parser returns the empty list, whatever
    the JSON decoder is; the fallback parser, had it been called, would have
    given the one [TypeAction] with text ["Hello<enter>"] and delay 0.5. *)
Theorem plain_text_reply_never_reaches_the_fallback :
  _parse_action_response "Type: Hello<enter>" = Typed (Ok [])
  /\ _parse_text_response "Type: Hello<enter>"
     = [TypeAction repr_float (time_time 0) "Hello<enter>" (1 # 2)].
Proof. split; reflexivity. Qed.

(** C8, the code at the failing inputs. When the brace span of the reply
    decodes to an object whose ["actions"] is a number, the [for] loop over
    it raises [TypeError], which neither handler of the parser catches: the
    exception reaches the caller. *)
Theorem actions_that_is_no_list_raises_type_error (content json_str : string)
    (data : gmap string PyVal) (z : Z) :
  json_span content = Some json_str ->
  json_loads json_str = Ok (VDict data) ->
  data !! "actions" = Some (VInt z) ->
  _parse_action_response content
  = Typed (Raise (mkExn TypeError "object is not iterable")).
Proof.
  intros H1 H2 H3. unfold ApiIntegration._parse_action_response, parse_action_body.
  rewrite H1, H2, H3. reflexivity.
Qed.

End Parsing.

(** C8, witness: the reply [{"actions": 5}]. *)
Lemma actions_is_a_number_raises :
  json_span actions_is_a_number = Some actions_is_a_number
  /\ sample_json_loads actions_is_a_number
     = Ok (VDict (<["actions" := VInt 5]> ∅))
  /\ ApiIntegration._parse_action_response show_Q sample_json_loads no_number no_float
       at_zero actions_is_a_number
     = Typed (Raise (mkExn TypeError "object is not iterable")).
Proof.
  split; [reflexivity|]. split; [reflexivity|].
  apply (actions_that_is_no_list_raises_type_error show_Q sample_json_loads
           no_number no_float at_zero actions_is_a_number actions_is_a_number
           (<["actions" := VInt 5]> ∅) 5); reflexivity.
Defined.

(** X4, witness: a reply whose brace span does not decode and that holds the
    line [Type: Hello<enter>] gives, through the fallback parser, the one
    [TypeAction] with text ["Hello<enter>"] and delay 0.5. *)
Lemma malformed_reply_falls_back :
  json_span malformed_reply = Some "{oops}"
  /\ sample_json_loads "{oops}"
     = Raise (mkExn JSONDecodeError "Expecting property name")
  /\ _parse_action_response show_Q sample_json_loads no_number no_float at_zero
       malformed_reply
     = Typed (Ok [TypeAction show_Q 0 "Hello<enter>" (1 # 2)]).
Proof.
  split; [reflexivity|]. split; [reflexivity|].
  rewrite (undecodable_span_falls_back show_Q sample_json_loads
             no_number no_float at_zero malformed_reply "{oops}"
             (mkExn JSONDecodeError "Expecting property name"));
    reflexivity.
Defined.

End ParserFacts.

Import Py Actions Engine Observe.

(** ** The sequence engine *)

Ltac no_stop :=
  let H := fresh in
  intros H;
  repeat (apply elem_of_cons in H; destruct H as [H|H]; [discriminate|]);
  inversion H.

Section EngineFacts.
Context {A : Type} {executable : Executable A}.
Variable progress_callback : bool.
Variable stop_check : option (list (Event A) -> bool).

Local Abbreviation run_actions := (run_actions progress_callback stop_check).
Local Abbreviation run_loops := (run_loops progress_callback stop_check).
Local Abbreviation stop_requested := (stop_requested stop_check).
Local Abbreviation report := (report progress_callback).
Local Abbreviation wait_between_loops := (wait_between_loops progress_callback).
Local Abbreviation execute := (execute progress_callback stop_check).
Local Abbreviation turn := (turn progress_callback).
Local Abbreviation turn_result := (turn_result progress_callback).

Lemma run_actions_cons li lc total ai (a : A) todo (s : State A) :
  run_actions li lc total ai (a :: todo) s =
  let '(stop, s1) := stop_requested (update (set_current_action_index (Z.of_nat ai)) s) in
  if stop then (Continue, s1)
  else
    let s2 := turn li lc total ai a s1 in
    if failed (turn_result li lc total ai a s1) && stop_on_error (self s1)
    then (Return false, s2)
    else run_actions li lc total (S ai) todo s2.
Proof.
  simpl. destruct (stop_requested _) as [stop s1]. destruct stop; [reflexivity|].
  unfold turn, turn_result, Engine.report.
  destruct progress_callback; simpl; destruct (run a _) as [r made];
    destruct r as [success|msg]; reflexivity.
Qed.

Lemma quiet_facts (l : list (Event A)) :
  Forall (fun e => quiet e = true) l ->
  executed l = [] /\ List.filter is_loop_mark l = []
  /\ Forall (fun e => failed_execution e = false) l /\ ~ stopped_early l.
Proof.
  unfold stopped_early.
  induction 1 as [|e l He _ (IH1 & IH2 & IH3 & IH4)]; simpl.
  - repeat split; auto. intros H; inversion H.
  - destruct e as [op|stop|li lc ai tot a|k|li ai o]; simpl in He; try discriminate.
    + repeat split; auto. intros H; inversion H; subst; auto.
    + repeat split; auto.
      * unfold is_loop_mark, is_marker. destruct (Z.eqb_spec ai (-1)); [lia|]. exact IH2.
      * intros H; inversion H; subst; auto.
Qed.

Lemma stop_requested_spec (s s1 : State A) stop :
  stop_requested s = (stop, s1) ->
  self s1 = self s
  /\ trace s1 = trace s ++ asked stop_check stop
  /\ (stop_check = None -> stop = false).
Proof.
  unfold Engine.stop_requested, asked.
  destruct stop_check as [check|]; intros H; inversion H; subst; simpl.
  - repeat split; auto. discriminate.
  - rewrite app_nil_r. auto.
Qed.

Lemma turn_spec li lc total ai (a : A) (s : State A) :
  self (turn li lc total ai a s) = self s
  /\ exists pre, trace (turn li lc total ai a s)
                 = trace s ++ pre ++ [Executed li ai (turn_result li lc total ai a s)]
                 /\ Forall (fun e => quiet e = true) pre.
Proof.
  unfold turn, turn_result, Engine.report.
  destruct progress_callback; simpl; destruct (run a _) as [r made]; simpl; split; auto.
  - exists (ProgressCallback (Z.of_nat li) lc (Z.of_nat ai) total (Some a)
              :: (Device <$> made)).
    split; [rewrite <- !app_assoc; reflexivity|].
    constructor; [simpl; apply Z.leb_le; lia|].
    apply Forall_fmap, Forall_true. reflexivity.
  - exists (Device <$> made). split; [reflexivity|].
    apply Forall_fmap, Forall_true. reflexivity.
Qed.

Lemma executed_app (l l' : list (Event A)) :
  executed (l ++ l') = executed l ++ executed l'.
Proof. apply omap_app. Qed.

Lemma polled_facts stop :
  let polled : list (Event A) := asked stop_check stop in
  executed polled = [] /\ List.filter is_loop_mark polled = [] /\ clean polled
  /\ (stop = false -> ~ stopped_early polled).
Proof.
  unfold clean, stopped_early. destruct stop_check; simpl; repeat split; auto.
  - intros -> H. apply list_elem_of_singleton in H. discriminate.
  - intros _ H. inversion H.
Qed.

Lemma run_actions_spec li lc total (todo : list A) : forall ai (s s' : State A) flow,
  run_actions li lc total ai todo s = (flow, s') ->
  settings (self s') = settings (self s)
  /\ exists new, trace s' = trace s ++ new
     /\ List.filter is_loop_mark new = []
     /\ match flow with
        | Return r =>
            r = false /\ stop_on_error (self s) = true
            /\ exists pre li' ai' o, new = pre ++ [Executed li' ai' o]
                 /\ failed o = true /\ clean pre
        | Continue =>
            (stop_on_error (self s) = true -> clean new)
            /\ (~ stopped_early new -> executed new = indices li ai (length todo))
        end.
Proof.
  induction todo as [|a todo IH]; intros ai s s' flow.
  - simpl. intros H; inversion H; subst. split; [reflexivity|].
    exists []. rewrite app_nil_r. repeat split; auto. constructor.
  - rewrite run_actions_cons.
    destruct (stop_requested _) as [stop s1] eqn:E1.
    apply stop_requested_spec in E1. destruct E1 as (Hself1 & Htr1 & Hnone).
    simpl in Hself1, Htr1.
    assert (Hset1 : settings (self s1) = settings (self s))
      by (rewrite Hself1; reflexivity).
    destruct (polled_facts stop) as (Pex & Pmark & Pclean & Pstop).
    set (polled := asked stop_check stop) in *.
    destruct stop.
    + intros H; inversion H; subst. split; [exact Hset1|].
      exists polled. repeat split; auto.
      intros Hno. exfalso. apply Hno. unfold stopped_early, polled.
      destruct stop_check; [apply list_elem_of_singleton; reflexivity|].
      specialize (Hnone eq_refl). discriminate.
    + destruct (turn_spec li lc total ai a s1) as (Hself2 & pre & Htr2 & Hquiet).
      apply quiet_facts in Hquiet. destruct Hquiet as (Qex & Qmark & Qclean & Qstop).
      set (o := turn_result li lc total ai a s1) in *.
      assert (Hsoe : stop_on_error (self s1) = stop_on_error (self s)).
      { unfold settings in Hset1. congruence. }
      destruct (failed o && stop_on_error (self s1)) eqn:Hf.
      * intros H; inversion H; subst. split; [rewrite Hself2; exact Hset1|].
        apply andb_true_iff in Hf. destruct Hf as [Hfo Hso].
        exists (polled ++ pre ++ [Executed li ai o]).
        split; [rewrite Htr2, Htr1, <- !app_assoc; reflexivity|].
        split; [rewrite !List.filter_app, Pmark, Qmark; reflexivity|].
        split; [reflexivity|]. split; [congruence|].
        exists (polled ++ pre), li, ai, o. rewrite <- app_assoc.
        repeat split; auto. apply Forall_app; split; assumption.
      * intros H. apply IH in H. destruct H as (Hset' & new2 & Htr' & Hmark2 & Hflow).
        split; [rewrite Hset', Hself2; exact Hset1|].
        exists (polled ++ pre ++ [Executed li ai o] ++ new2).
        split; [rewrite Htr', Htr2, Htr1, <- !app_assoc; reflexivity|].
        split; [rewrite !List.filter_app, Pmark, Qmark, Hmark2; reflexivity|].
        assert (Hclean_o : stop_on_error (self s) = true -> failed o = false).
        { intros Hso. rewrite Hsoe, Hso, andb_true_r in Hf. exact Hf. }
        rewrite Hself2, Hsoe in Hflow.
        destruct flow as [|r].
        -- destruct Hflow as [Hc Hex]. split.
           ++ intros Hso. apply Forall_app; split; [exact Pclean|].
              apply Forall_app; split; [exact Qclean|].
              apply Forall_cons; split; [simpl; auto|apply Hc; exact Hso].
           ++ intros Hno. rewrite !executed_app, Pex, Qex, Hex.
              ** reflexivity.
              ** intros Hin. apply Hno. unfold stopped_early in *.
                 rewrite !elem_of_app. auto.
        -- destruct Hflow as (-> & Hso & pre2 & li' & ai' & o' & -> & Hfo' & Hcl2).
           split; [reflexivity|]. split; [exact Hso|].
           exists (polled ++ pre ++ [Executed li ai o] ++ pre2), li', ai', o'.
           rewrite <- !app_assoc. repeat split; auto.
           apply Forall_app; split; [exact Pclean|].
           apply Forall_app; split; [exact Qclean|].
           apply Forall_cons; split; [simpl; auto|exact Hcl2].
Qed.

Lemma wait_between_loops_spec k lc total (s : State A) :
  self (wait_between_loops k lc total s) = self s
  /\ exists paused, trace (wait_between_loops k lc total s) = trace s ++ paused
     /\ executed paused = []
     /\ List.filter is_loop_mark paused = pause_mark progress_callback (self s) lc total k
     /\ clean paused /\ ~ stopped_early paused.
Proof.
  unfold Engine.wait_between_loops, pause_mark, Engine.report, clean, stopped_early.
  destruct (loop_enabled (self s) && (Z.of_nat k <? lc - 1)%Z
            && is_positive (repeat_interval (self s))); simpl.
  - destruct progress_callback; simpl; (split; [reflexivity|]).
    + exists [ProgressCallback (Z.of_nat k) lc (-1) total None;
              Device (sleep (repeat_interval (self s)))].
      split; [rewrite <- app_assoc; reflexivity|].
      refine (conj eq_refl (conj eq_refl (conj _ _))); [repeat constructor|no_stop].
    + exists [Device (sleep (repeat_interval (self s)))].
      refine (conj eq_refl (conj eq_refl (conj eq_refl (conj _ _))));
        [repeat constructor|no_stop].
  - split; [reflexivity|]. exists []. rewrite app_nil_r.
    refine (conj eq_refl (conj eq_refl (conj _ (conj _ _))));
      [destruct progress_callback; reflexivity|constructor|no_stop].
Qed.

Lemma run_loops_spec lc total (loops : list nat) : forall (s s' : State A) res,
  run_loops lc total loops s = (res, s') ->
  settings (self s') = settings (self s)
  /\ exists new, trace s' = trace s ++ new
     /\ if res
        then (stop_on_error (self s) = true -> clean new)
             /\ (~ stopped_early new ->
                 executed new
                 = flat_map (fun li => indices li 0 (length (actions (self s)))) loops
                 /\ List.filter is_loop_mark new
                    = flat_map (fun k => LoopBegins k
                                          :: pause_mark progress_callback (self s) lc total k)
                               loops)
        else stop_on_error (self s) = true
             /\ exists pre li ai o, new = pre ++ [Executed li ai o]
                  /\ failed o = true /\ clean pre.
Proof.
  induction loops as [|k loops IH]; intros s s' res.
  - simpl. intros H; inversion H; subst. split; [reflexivity|].
    exists []. rewrite app_nil_r. repeat split; auto. constructor.
  - simpl.
    destruct (stop_requested _) as [stop s1] eqn:E1.
    apply stop_requested_spec in E1. destruct E1 as (Hself1 & Htr1 & Hnone).
    simpl in Hself1, Htr1.
    assert (Hset1 : settings (self s1) = settings (self s))
      by (rewrite Hself1; reflexivity).
    destruct (polled_facts stop) as (Pex & Pmark & Pclean & Pstop).
    set (polled := asked stop_check stop) in *.
    rewrite <- app_assoc in Htr1.
    assert (Hb : clean [LoopBegins k : Event A]) by (repeat constructor).
    destruct stop.
    + intros H; inversion H; subst. split; [exact Hset1|].
      exists ([LoopBegins k] ++ polled). split; [exact Htr1|]. split.
      * intros _. apply Forall_app; split; assumption.
      * intros Hno. exfalso. apply Hno. unfold stopped_early, polled.
        destruct stop_check; [|specialize (Hnone eq_refl); discriminate].
        right. apply list_elem_of_singleton. reflexivity.
    + destruct (run_actions k lc total 0 (actions (self s1)) s1) as [flow s2] eqn:E2.
      apply run_actions_spec in E2.
      destruct E2 as (Hset2 & new2 & Htr2 & Hmark2 & Hflow).
      assert (Hsoe : stop_on_error (self s1) = stop_on_error (self s)).
      { unfold settings in Hset1. congruence. }
      assert (Hact : actions (self s1) = actions (self s)).
      { unfold settings in Hset1. congruence. }
      rewrite Hsoe, Hact in Hflow.
      destruct flow as [|r].
      * destruct Hflow as [Hc2 Hex2].
        destruct (wait_between_loops_spec k lc total s2)
          as (Hself3 & paused & Htr3 & Wex & Wmark & Wclean & Wstop).
        intros H. apply IH in H. destruct H as (Hset' & new4 & Htr4 & Hres).
        assert (Hset3 : settings (self (wait_between_loops k lc total s2))
                        = settings (self s)).
        { rewrite Hself3, Hset2. exact Hset1. }
        split; [rewrite Hset'; exact Hset3|].
        exists ([LoopBegins k] ++ polled ++ new2 ++ paused ++ new4).
        split; [rewrite Htr4, Htr3, Htr2, Htr1, <- !app_assoc; reflexivity|].
        assert (Hsoe3 : stop_on_error (self (wait_between_loops k lc total s2))
                        = stop_on_error (self s)).
        { unfold settings in Hset3. congruence. }
        assert (Hact3 : actions (self (wait_between_loops k lc total s2))
                        = actions (self s)).
        { unfold settings in Hset3. congruence. }
        assert (Hpm : forall j, pause_mark progress_callback
                        (self (wait_between_loops k lc total s2)) lc total j
                      = pause_mark progress_callback (self s) lc total j).
        { intros j. unfold pause_mark, settings in *.
          replace (loop_enabled (self (wait_between_loops k lc total s2)))
            with (loop_enabled (self s)) by congruence.
          replace (repeat_interval (self (wait_between_loops k lc total s2)))
            with (repeat_interval (self s)) by congruence.
          reflexivity. }
        assert (Hpm2 : pause_mark progress_callback (self s2) lc total k
                       = pause_mark progress_callback (self s) lc total k).
        { unfold pause_mark, settings in *.
          replace (loop_enabled (self s2)) with (loop_enabled (self s)) by congruence.
          replace (repeat_interval (self s2)) with (repeat_interval (self s))
            by congruence.
          reflexivity. }
        assert (Hfm : flat_map (fun j => LoopBegins j
                          :: pause_mark progress_callback
                               (self (wait_between_loops k lc total s2)) lc total j) loops
                      = flat_map (fun j => LoopBegins j
                          :: pause_mark progress_callback (self s) lc total j) loops).
        { apply flat_map_ext. intros j. rewrite Hpm. reflexivity. }
        rewrite Hsoe3, Hact3, Hfm in Hres.
        destruct res.
        -- destruct Hres as [Hc4 Hex4]. split.
           ++ intros Hso. apply Forall_app; split; [exact Hb|].
              apply Forall_app; split; [exact Pclean|].
              apply Forall_app; split; [apply Hc2; exact Hso|].
              apply Forall_app; split; [exact Wclean|apply Hc4; exact Hso].
           ++ intros Hno.
              assert (Hno2 : ~ stopped_early new2).
              { intros Hin. apply Hno. unfold stopped_early in *.
                rewrite !elem_of_app. auto. }
              assert (Hno4 : ~ stopped_early new4).
              { intros Hin. apply Hno. unfold stopped_early in *.
                rewrite !elem_of_app. auto. }
              destruct (Hex4 Hno4) as [Hex4a Hex4b]. split.
              ** rewrite !executed_app, Pex, (Hex2 Hno2), Wex, Hex4a.
                 reflexivity.
              ** rewrite !List.filter_app, Pmark, Hmark2, Wmark, Hex4b, Hpm2.
                 reflexivity.
        -- destruct Hres as (Hso & pre & li & ai & o & -> & Hfo & Hcl).
           split; [exact Hso|].
           exists ([LoopBegins k] ++ polled ++ new2 ++ paused ++ pre), li, ai, o.
           rewrite <- !app_assoc. repeat split; auto.
           apply Forall_app; split; [exact Hb|].
           apply Forall_app; split; [exact Pclean|].
           apply Forall_app; split; [apply Hc2; exact Hso|].
           apply Forall_app; split; [exact Wclean|exact Hcl].
      * destruct Hflow as (-> & Hso & pre & li & ai & o & -> & Hfo & Hcl).
        intros H; inversion H; subst.
        split; [rewrite Hset2; exact Hset1|].
        exists ([LoopBegins k] ++ polled ++ pre ++ [Executed li ai o]).
        split; [rewrite Htr2, Htr1, <- !app_assoc; reflexivity|].
        split; [exact Hso|].
        exists ([LoopBegins k] ++ polled ++ pre), li, ai, o.
        rewrite <- !app_assoc. repeat split; auto.
        apply Forall_app; split; [exact Hb|].
        apply Forall_app; split; [exact Pclean|exact Hcl].
Qed.

Lemma execute_spec (sequence : ActionSequence A) :
  let r := execute sequence in
  after r = reset_runtime sequence
  /\ if result r
     then (stop_on_error sequence = true -> clean (events r))
          /\ (~ stopped_early (events r) ->
              executed (events r)
              = flat_map (fun li => indices li 0 (length (actions sequence)))
                         (seq 0 (loops_of sequence))
              /\ List.filter is_loop_mark (events r)
                 = flat_map (fun k => LoopBegins k
                      :: pause_mark progress_callback sequence
                           (if loop_enabled sequence then loop_count sequence else 1%Z)
                           (length (actions sequence)) k)
                     (seq 0 (loops_of sequence)))
     else stop_on_error sequence = true
          /\ exists pre li ai o, events r = pre ++ [Executed li ai o]
               /\ failed o = true /\ clean pre.
Proof.
  unfold Engine.execute. cbn [self actions loop_enabled loop_count].
  destruct (run_loops _ _ _ _) as [res s'] eqn:E.
  apply run_loops_spec in E. destruct E as (Hset & new & Htr & Hres).
  cbn [self trace] in Hset, Htr, Hres. simpl in Htr. subst new.
  cbn [result after events].
  split.
  - destruct (self s'), sequence. unfold settings in Hset. simpl in Hset.
    inversion Hset. subst. reflexivity.
  - destruct sequence; exact Hres.
Qed.

(** C2. Whatever the sequence, the callbacks and the outcomes of the
    actions, so on normal completion, on an early stop and on an abort alike,
    the object that [execute()] leaves behind has [is_running = false],
    [current_action_index = 0] and [current_loop = 0]. *)
Theorem runtime_fields_reset_on_every_exit (sequence : ActionSequence A) :
  let r := execute sequence in
  is_running (after r) = false
  /\ current_action_index (after r) = 0%Z
  /\ current_loop (after r) = 0%Z.
Proof.
  destruct (execute_spec sequence) as [Hafter _]. simpl. rewrite Hafter.
  repeat split.
Qed.

(** C3, as amended. [execute()] has no guard on [is_running]: a call on a
    sequence marked as running returns the same result, leaves the same
    object and does the same things as a call on the same sequence marked
    as idle. *)
Theorem execute_does_not_read_is_running (sequence : ActionSequence A) (b : bool) :
  execute (set_is_running b sequence) = execute sequence.
Proof. destruct sequence. reflexivity. Qed.



Lemma marker_filter (l : list (Event A)) :
  List.filter is_marker (List.filter is_loop_mark l) = List.filter is_marker l.
Proof.
  induction l as [|e l IH]; [reflexivity|].
  destruct e as [op|stop|li lc ai tot a|k|li ai o]; simpl; auto.
  destruct (ai =? -1)%Z eqn:Em; simpl; rewrite ?Em, IH; reflexivity.
Qed.

Lemma marks_before_last (s : ActionSequence A) (n total : nat) :
  loop_enabled s = true -> is_positive (repeat_interval s) = true ->
  progress_callback = true ->
  forall m a, (a + m <= n - 1)%nat ->
  flat_map (fun k => LoopBegins k
               :: pause_mark progress_callback s (Z.of_nat n) total k) (seq a m)
  = flat_map (fun k => [LoopBegins k; marker k n total]) (seq a m).
Proof.
  intros Hen Hpos Hcb. induction m as [|m IH]; intros a Ha; [reflexivity|].
  simpl. rewrite IH by lia. unfold pause_mark, marker.
  rewrite Hen, Hpos, Hcb.
  destruct (Z.ltb_spec (Z.of_nat a) (Z.of_nat n - 1)); [reflexivity|lia].
Qed.

Lemma markers_counted (n total : nat) (l : list nat) :
  length (List.filter is_marker
            (flat_map (fun k => [LoopBegins k; marker k n total : Event A]) l))
  = length l.
Proof. induction l as [|k l IH]; simpl; [reflexivity|]. rewrite IH. reflexivity. Qed.

Lemma milestones_app (l l' : list (Event A)) :
  milestones (l ++ l') = milestones l ++ milestones l'.
Proof. apply omap_app. Qed.

Lemma quiet_milestones (l : list (Event A)) :
  Forall (fun e => quiet e = true) l -> milestones l = [].
Proof.
  induction 1 as [|e l He _ IH]; [reflexivity|].
  destruct e as [op|stop|li lc ai tot a|k|li ai o]; simpl in He;
    try discriminate; unfold milestones; cbn [omap list_omap milestone].
  - exact IH.
  - destruct (Z.eqb_spec ai (-1)); [lia|]. exact IH.
Qed.

Lemma asked_milestones (stop : bool) :
  milestones (asked stop_check stop : list (Event A)) = [].
Proof. unfold asked. destruct stop_check; reflexivity. Qed.

Lemma asked_yes_stops (stop : bool) (l l' : list (Event A)) :
  (stop_check = None -> stop = false) ->
  ~ stopped_early (l ++ asked stop_check stop ++ l') -> stop = false.
Proof.
  intros Hnone Hno. destruct stop; [|reflexivity]. exfalso. apply Hno.
  unfold stopped_early, asked.
  destruct stop_check; [|specialize (Hnone eq_refl); discriminate].
  rewrite !elem_of_app. right. left. apply list_elem_of_singleton. reflexivity.
Qed.

Lemma run_actions_milestones li lc total (todo : list A) :
  forall ai (s s' : State A) flow,
  run_actions li lc total ai todo s = (flow, s') ->
  exists new, trace s' = trace s ++ new
    /\ match flow with
       | Return r => r = false
       | Continue =>
           ~ stopped_early new -> milestones new = Ran li <$> seq ai (length todo)
       end.
Proof.
  induction todo as [|a todo IH]; intros ai s s' flow.
  - simpl. intros H; inversion H; subst. exists []. rewrite app_nil_r.
    split; reflexivity.
  - rewrite run_actions_cons.
    destruct (stop_requested _) as [stop s1] eqn:E1.
    apply stop_requested_spec in E1. destruct E1 as (Hself1 & Htr1 & Hnone).
    simpl in Hself1, Htr1.
    destruct stop.
    + intros H; inversion H; subst. exists (asked stop_check true).
      split; [exact Htr1|]. intros Hno.
      pose proof (asked_yes_stops true [] [] Hnone) as Hs.
      cbn [app] in Hs. rewrite app_nil_r in Hs. specialize (Hs Hno).
      discriminate.
    + destruct (turn_spec li lc total ai a s1) as (Hself2 & pre & Htr2 & Hquiet).
      apply quiet_milestones in Hquiet.
      set (o := turn_result li lc total ai a s1) in *.
      destruct (failed o && stop_on_error (self s1)).
      * intros H; inversion H; subst. eexists.
        split; [rewrite Htr2, Htr1, <- !app_assoc; reflexivity|reflexivity].
      * intros H. apply IH in H. destruct H as (new2 & Htr' & Hflow).
        exists (asked stop_check false ++ pre ++ [Executed li ai o] ++ new2).
        split; [rewrite Htr', Htr2, Htr1, <- !app_assoc; reflexivity|].
        destruct flow as [|r]; [|exact Hflow].
        intros Hno. rewrite !milestones_app, asked_milestones, Hquiet, Hflow.
        -- reflexivity.
        -- intros Hin. apply Hno. unfold stopped_early in *.
           rewrite !elem_of_app. auto.
Qed.

Lemma wait_between_loops_milestones k lc total (s : State A) :
  exists paused, trace (wait_between_loops k lc total s) = trace s ++ paused
    /\ milestones paused
       = milestones (pause_mark progress_callback (self s) lc total k)
    /\ ~ stopped_early paused.
Proof.
  unfold Engine.wait_between_loops, pause_mark, Engine.report, stopped_early.
  destruct (loop_enabled (self s) && (Z.of_nat k <? lc - 1)%Z
            && is_positive (repeat_interval (self s))); simpl.
  - destruct progress_callback; simpl.
    + exists [ProgressCallback (Z.of_nat k) lc (-1) total None;
              Device (sleep (repeat_interval (self s)))].
      split; [rewrite <- app_assoc; reflexivity|]. split; [reflexivity|no_stop].
    + exists [Device (sleep (repeat_interval (self s)))].
      split; [reflexivity|]. split; [reflexivity|no_stop].
  - exists []. rewrite app_nil_r. split; [reflexivity|].
    split; [destruct progress_callback; reflexivity|no_stop].
Qed.

Lemma pause_mark_settings (s1 s2 : ActionSequence A) lc total k :
  settings s1 = settings s2 ->
  pause_mark progress_callback s1 lc total k
  = pause_mark progress_callback s2 lc total k.
Proof.
  unfold settings, pause_mark. intros H.
  replace (loop_enabled s1) with (loop_enabled s2) by congruence.
  replace (repeat_interval s1) with (repeat_interval s2) by congruence.
  reflexivity.
Qed.

Lemma run_loops_milestones (sequence : ActionSequence A) lc total
    (loops : list nat) : forall (s s' : State A),
  settings (self s) = settings sequence ->
  run_loops lc total loops s = (true, s') ->
  exists new, trace s' = trace s ++ new
    /\ (~ stopped_early new ->
        milestones new
        = flat_map (fun k => loop_ran k (length (actions sequence))
                     ++ milestones (pause_mark progress_callback sequence
                                               lc total k))
                   loops).
Proof.
  induction loops as [|k loops IH]; intros s s' Hset.
  - simpl. intros H; inversion H; subst. exists []. rewrite app_nil_r.
    split; reflexivity.
  - simpl.
    destruct (stop_requested _) as [stop s1] eqn:E1.
    apply stop_requested_spec in E1. destruct E1 as (Hself1 & Htr1 & Hnone).
    simpl in Hself1, Htr1. rewrite <- app_assoc in Htr1.
    assert (Hset1 : settings (self s1) = settings sequence)
      by (rewrite Hself1, <- Hset; reflexivity).
    destruct stop.
    + intros H; inversion H; subst.
      exists ([LoopBegins k] ++ asked stop_check true).
      split; [exact Htr1|]. intros Hno.
      pose proof (asked_yes_stops true [LoopBegins k] [] Hnone) as Hs.
      rewrite app_nil_r in Hs. specialize (Hs Hno). discriminate.
    + destruct (run_actions k lc total 0 (actions (self s1)) s1)
        as [flow s2] eqn:E2.
      destruct (run_actions_spec _ _ _ _ _ _ _ _ E2) as (Hset2 & _).
      apply run_actions_milestones in E2. destruct E2 as (new2 & Htr2 & Hflow).
      assert (Hact : actions (self s1) = actions sequence).
      { unfold settings in Hset1. congruence. }
      rewrite Hact in Hflow.
      destruct flow as [|r]; [|intros H; inversion H; subst; discriminate].
      destruct (wait_between_loops_spec k lc total s2) as (Hself3 & _).
      destruct (wait_between_loops_milestones k lc total s2)
        as (paused & Htr3 & Wm & Wstop).
      assert (Hset3 : settings (self (wait_between_loops k lc total s2))
                      = settings sequence).
      { rewrite Hself3, Hset2. exact Hset1. }
      intros H. apply (IH _ _ Hset3) in H. destruct H as (new4 & Htr4 & Hm4).
      exists ([LoopBegins k] ++ asked stop_check false ++ new2 ++ paused ++ new4).
      split; [rewrite Htr4, Htr3, Htr2, Htr1, <- !app_assoc; reflexivity|].
      intros Hno.
      rewrite !milestones_app, asked_milestones, Wm, Hflow, Hm4.
      * rewrite (pause_mark_settings (self s2) sequence)
          by (rewrite Hset2; exact Hset1).
        cbn [flat_map]. unfold loop_ran. rewrite <- !app_assoc. reflexivity.
      * intros Hin. apply Hno. unfold stopped_early in *.
        rewrite !elem_of_app. auto.
      * intros Hin. apply Hno. unfold stopped_early in *.
        rewrite !elem_of_app. auto.
Qed.

Lemma execute_milestones (sequence : ActionSequence A) :
  let r := execute sequence in
  result r = true -> ~ stopped_early (events r) ->
  milestones (events r)
  = flat_map (fun k => loop_ran k (length (actions sequence))
                ++ milestones (pause_mark progress_callback sequence
                     (if loop_enabled sequence then loop_count sequence
                      else 1%Z)
                     (length (actions sequence)) k))
             (seq 0 (loops_of sequence)).
Proof.
  unfold Engine.execute. cbn [self actions loop_enabled loop_count].
  destruct (run_loops _ _ _ _) as [res s'] eqn:E.
  cbn [result events]. intros -> Hno.
  apply (run_loops_milestones sequence) in E;
    [|destruct sequence; reflexivity].
  destruct E as (new & Htr & Hm). cbn [trace app] in Htr. subst new.
  rewrite (Hm Hno). destruct sequence; reflexivity.
Qed.

Lemma milestones_before_last (s : ActionSequence A) (n total : nat) :
  loop_enabled s = true -> is_positive (repeat_interval s) = true ->
  progress_callback = true ->
  forall m a, (a + m <= n - 1)%nat ->
  flat_map (fun k => loop_ran k total
               ++ milestones (pause_mark progress_callback s (Z.of_nat n)
                                         total k))
           (seq a m)
  = flat_map (fun k => loop_ran k total
                ++ [Paused (Z.of_nat k) (Z.of_nat n) total None])
             (seq a m).
Proof.
  intros Hen Hpos Hcb. induction m as [|m IH]; intros a Ha; [reflexivity|].
  cbn [seq flat_map]. rewrite IH by lia. unfold pause_mark.
  rewrite Hen, Hpos, Hcb.
  destruct (Z.ltb_spec (Z.of_nat a) (Z.of_nat n - 1)); [reflexivity|lia].
Qed.

(** C7. With a progress callback, [loop_enabled] true, [loop_count = n] with
    [n >= 1] and a positive [repeat_interval], a run that is neither stopped
    early nor aborted (so the interval is one that [time.sleep] accepts, and
    the run returns true) calls the marker [progress_callback(k, n, -1,
    total_actions, None)] only between consecutive loops: for each of the
    loops [0 .. n-2], once, after the last action of the loop has come back
    and before the next loop begins; not before loop 0, not between the
    actions of a loop, and not after loop [n-1]; [n - 1] calls in all. *)
Theorem inter_loop_marker_fires_between_loops (sequence : ActionSequence A) (n : nat) :
  progress_callback = true ->
  loop_enabled sequence = true ->
  loop_count sequence = Z.of_nat n -> (1 <= n)%nat ->
  is_positive (repeat_interval sequence) = true ->
  too_long (repeat_interval sequence) = false ->
  let r := execute sequence in
  let total_actions := length (actions sequence) in
  ~ stopped_early (events r) -> result r = true ->
  milestones (events r)
  = flat_map (fun k => loop_ran k total_actions
                ++ [Paused (Z.of_nat k) (Z.of_nat n) total_actions None])
             (seq 0 (n - 1))
    ++ loop_ran (n - 1) total_actions
  /\ length (List.filter is_marker (events r)) = (n - 1)%nat.
Proof.
  intros Hcb Hen Hlc Hn Hpos _ r total_actions Hno Hres. split.
  - unfold r. rewrite (execute_milestones sequence Hres Hno).
    unfold loops_of. rewrite Hen, Hlc, Nat2Z.id.
    destruct n as [|m]; [lia|].
    replace (S m - 1)%nat with m by lia.
    rewrite seq_S, flat_map_app. cbn [flat_map plus].
    rewrite (milestones_before_last sequence (S m) _ Hen Hpos Hcb m 0) by lia.
    f_equal. unfold pause_mark. rewrite Hen, Hpos, Hcb. cbn [andb].
    destruct (Z.ltb_spec (Z.of_nat m) (Z.of_nat (S m) - 1)); [lia|].
    cbn. rewrite !app_nil_r. reflexivity.
  - destruct (execute_spec sequence) as [_ H]. fold r in H. rewrite Hres in H.
    destruct H as [_ H]. destruct (H Hno) as [_ Hmarks]. clear H.
    unfold loops_of in Hmarks. rewrite Hen, Hlc, Nat2Z.id in Hmarks.
    assert (Hshape : List.filter is_loop_mark (events r)
      = flat_map (fun k => [LoopBegins k; marker k n (length (actions sequence))])
                 (seq 0 (n - 1)) ++ [LoopBegins (n - 1)]).
    { rewrite Hmarks. destruct n as [|m]; [lia|].
      replace (S m - 1)%nat with m by lia.
      rewrite seq_S, flat_map_app. simpl.
      rewrite (marks_before_last sequence (S m) _ Hen Hpos Hcb m 0) by lia.
      f_equal. unfold pause_mark. rewrite Hen, Hpos, Hcb. simpl.
      destruct (Z.ltb_spec (Z.of_nat m) (Z.of_nat (S m) - 1)); [lia|reflexivity]. }
    rewrite <- marker_filter, Hshape, List.filter_app, length_app, markers_counted.
    rewrite length_seq. simpl. lia.
Qed.

(** X5. [execute()] changes nothing of the object but its three runtime
    fields, which it resets. *)
Theorem execute_writes_runtime_fields_only (sequence : ActionSequence A) :
  after (execute sequence) = reset_runtime sequence.
Proof. apply execute_spec. Qed.

(** X6. When the stop predicate answers yes from the start, the run returns
    true and neither invokes an action nor touches the outside world. *)
Theorem stop_before_the_first_action_runs_nothing (sequence : ActionSequence A) :
  let r := Engine.execute progress_callback (Some (fun _ => true)) sequence in
  result r = true /\ executed (events r) = [] /\ device_ops (events r) = [].
Proof.
  unfold Engine.execute. simpl.
  destruct (seq 0 _) as [|k loops]; simpl; repeat split.
Qed.

End EngineFacts.

(** ** The engine on the sample sequences *)

Import EngineSamples.


(** C3, counterexample. [execute()] on a sequence whose [is_running] is
    already true is neither rejected nor a no-op: it runs all three actions
    and returns true. *)
Lemma a_running_sequence_is_run_again :
  is_running busy = true
  /\ result (@execute _ fine false None busy) = true
  /\ events (@execute _ fine false None busy)
     = [LoopBegins 0; Device (press "f1"); Executed 0 0 (Returned true);
        Device (press "f2"); Executed 0 1 (Returned true);
        Device (press "f3"); Executed 0 2 (Returned true)].
Proof. repeat split. Qed.

(** C7, witness: three loops of one key press with two seconds between
    them give two marker calls, one after the action of loop 0 and one
    after the action of loop 1. *)
Lemma looped_three_times_pauses_twice :
  milestones (events (@execute _ fine true None looped))
  = [Begins 0; Ran 0 0; Paused 0 3 1 None;
     Begins 1; Ran 1 0; Paused 1 3 1 None;
     Begins 2; Ran 2 0]
  /\ length (List.filter is_marker (events (@execute _ fine true None looped))) = 2%nat.
Proof.
  apply (@inter_loop_marker_fires_between_loops _ fine true None looped 3);
    try reflexivity.
  - lia.
  - unfold stopped_early. vm_compute. no_stop.
Defined.

(** ** Validation and execution of single actions *)

Module CheckFacts.
Import Py Actions ActionChecks Samples.

Lemma positive_is_not_negative (x : Q) :
  is_positive x = true -> is_negative x = false.
Proof.
  unfold is_positive, is_negative. intros Hp.
  apply negb_true_iff in Hp. apply negb_false_iff, Qle_bool_iff.
  destruct (Qlt_le_dec 0 x) as [Hlt|Hle]; [apply Qlt_le_weak, Hlt|].
  apply Qle_bool_iff in Hle. congruence.
Qed.

Section FaultFree.
Variable fault : list DeviceOp -> DeviceOp -> option string.
Hypothesis never_fails : forall past op, fault past op = None.

Lemma pyautogui_succeeds (op : DeviceOp) past :
  pyautogui fault op past = (Ok tt, [op]).
Proof. unfold pyautogui. rewrite never_fails. reflexivity. Qed.

Lemma type_parts_succeeds parts : forall past,
  exists made, type_parts fault parts past = (Ok tt, made).
Proof.
  induction parts as [|[part_type part_value] parts IH]; intros past.
  - exists []. reflexivity.
  - cbn [type_parts]. unfold dev_bind.
    destruct (String.eqb part_type "text"); rewrite pyautogui_succeeds.
    + destruct (IH (past ++ [typewrite part_value])) as [made ->].
      eexists; reflexivity.
    + destruct (IH (past ++ [press part_value])) as [made ->].
      eexists; reflexivity.
Qed.

Lemma base_delay_slept (a : Action) past :
  (if is_positive (delay a) then time_sleep (delay a) else dev_ret tt) past
  = if is_positive (delay a) && too_long (delay a)
    then (Raise (mkExn OverflowError
                   "timestamp too large to convert to C _PyTime_t"), [])
    else (Ok tt, if is_positive (delay a) then [sleep (delay a)] else []).
Proof.
  destruct (is_positive (delay a)) eqn:Hp; [|reflexivity].
  unfold time_sleep. rewrite (positive_is_not_negative _ Hp).
  destruct (too_long (delay a)); reflexivity.
Qed.

Lemma execute_without_faults (a : Action) past :
  if fails_to_sleep a
  then exists made message, execute fault a past = (ActionError message, made)
  else exists made, execute fault a past = (Returned true, made).
Proof.
  unfold fails_to_sleep, execute, execute_body.
  destruct (enabled a); cbn [negb andb]; [|eexists; reflexivity].
  unfold dev_bind. rewrite base_delay_slept.
  destruct (is_positive (delay a) && too_long (delay a)); cbn [orb];
    [do 2 eexists; reflexivity|].
  set (slept := if is_positive (delay a) then [sleep (delay a)] else []).
  destruct (variant a) as [text|x y button|w|keys|key|x y clicks direction
                          |sx sy ex ey duration button]; cbn [_execute_impl].
  - destruct text as [|c text]; [eexists; reflexivity|].
    unfold dev_bind.
    destruct (type_parts_succeeds
                (Tokenizer._parse_text_with_special_keys (String c text))
                (past ++ slept)) as [made ->].
    eexists; reflexivity.
  - unfold dev_bind. rewrite pyautogui_succeeds. eexists; reflexivity.
  - unfold dev_bind, time_sleep.
    destruct (is_negative w); cbn [orb]; [do 2 eexists; reflexivity|].
    destruct (too_long w); [do 2 eexists; reflexivity|eexists; reflexivity].
  - unfold dev_bind. rewrite pyautogui_succeeds. eexists; reflexivity.
  - unfold dev_bind. rewrite pyautogui_succeeds. eexists; reflexivity.
  - unfold dev_bind. rewrite !pyautogui_succeeds. eexists; reflexivity.
  - unfold dev_bind. rewrite pyautogui_succeeds. eexists; reflexivity.
Qed.

Lemma valid_in_range_sleeps (a : Action) :
  validate a = true -> sleeps_in_range a = true -> fails_to_sleep a = false.
Proof.
  unfold validate, sleeps_in_range, fails_to_sleep. intros Hv Hr.
  apply andb_true_iff in Hr. destruct Hr as [Hd Hw].
  apply negb_true_iff in Hd. rewrite Hd, andb_false_r. cbn [orb].
  destruct (variant a); try apply andb_false_r.
  apply negb_true_iff in Hw. rewrite Hw. unfold is_negative. rewrite Hv.
  apply andb_false_r.
Qed.

(** X7. In a world where no call of the input-injection library fails,
    [execute()] fails exactly on an enabled action one of whose sleeps
    [time.sleep] refuses: a positive base delay beyond the range of
    [time.sleep], or, for a [DelayAction], a [wait_time] that is negative
    or beyond that range. Every other action, disabled or not, returns
    true; a negative base delay is never slept. The numeric fields are
    finite numbers. *)
Theorem only_a_refused_sleep_fails_without_faults (a : Action) past :
  failed (execute fault a past).1 = fails_to_sleep a
  /\ (fails_to_sleep a = false -> (execute fault a past).1 = Returned true).
Proof.
  pose proof (execute_without_faults a past) as H.
  destruct (fails_to_sleep a).
  - destruct H as (made & message & ->). split; [reflexivity|discriminate].
  - destruct H as (made & ->). split; reflexivity.
Qed.

(** X8. An action that passes its [validate()] and whose base delay and
    [wait_time] are within the range of [time.sleep], which [validate()]
    does not test, cannot fail in a world where no call of the
    input-injection library fails: [execute()] returns true. *)
Theorem valid_action_in_range_succeeds_without_faults (a : Action) past :
  validate a = true -> sleeps_in_range a = true ->
  (execute fault a past).1 = Returned true.
Proof.
  intros Hv Hr. pose proof (execute_without_faults a past) as H.
  rewrite (valid_in_range_sleeps a Hv Hr) in H.
  destruct H as (made & ->). reflexivity.
Qed.

End FaultFree.

(** X7, witness: a wait of minus one second fails, and so does a wait of
    ten thousand million seconds, which [validate()] accepts; a click with a
    negative delay does not. *)
Lemma refused_waits_fail_and_click_does_not :
  (forall past op, no_fault past op = None)
  /\ failed (execute no_fault (DelayAction show_Q 0 (-1)) []).1 = true
  /\ validate (DelayAction show_Q 0 10000000000) = true
  /\ failed (execute no_fault (DelayAction show_Q 0 10000000000) []).1 = true
  /\ (execute no_fault (ClickAction show_Q 0 (-5) 7 "left" (-3)) []).1
     = Returned true.
Proof.
  split; [reflexivity|]. split; [|split; [reflexivity|split]].
  - rewrite (proj1 (only_a_refused_sleep_fails_without_faults no_fault
                      (fun _ _ => eq_refl) (DelayAction show_Q 0 (-1)) [])).
    reflexivity.
  - rewrite (proj1 (only_a_refused_sleep_fails_without_faults no_fault
                      (fun _ _ => eq_refl) (DelayAction show_Q 0 10000000000) [])).
    reflexivity.
  - apply (only_a_refused_sleep_fails_without_faults no_fault
             (fun _ _ => eq_refl) (ClickAction show_Q 0 (-5) 7 "left" (-3)) []).
    reflexivity.
Defined.

(** X8, witness: a valid scroll. *)
Lemma valid_scroll_succeeds :
  (forall past op, no_fault past op = None)
  /\ validate (ScrollAction show_Q 0 10 20 3 "down" 1) = true
  /\ sleeps_in_range (ScrollAction show_Q 0 10 20 3 "down" 1) = true
  /\ (execute no_fault (ScrollAction show_Q 0 10 20 3 "down" 1) []).1
     = Returned true.
Proof.
  split; [reflexivity|]. split; [reflexivity|]. split; [reflexivity|].
  apply (valid_action_in_range_succeeds_without_faults no_fault
           (fun _ _ => eq_refl));
    reflexivity.
Defined.

End CheckFacts.

(** ** Editing a sequence *)

Module SequenceFacts.
Import Py Actions Engine Sequences.

Section Editing.
Context {A : Type}.
Implicit Types (s : ActionSequence A) (l rest : list A) (x : A).

Lemma in_range_spec (index : Z) s :
  in_range index s = true
  <-> (0 <= index)%Z /\ (Z.to_nat index < length (actions s))%nat.
Proof.
  unfold in_range. rewrite andb_true_iff, Z.leb_le, Z.ltb_lt. lia.
Qed.

Lemma pop_in_range (i : nat) l :
  (i < length l)%nat -> exists x, l !! i = Some x /\ pop i l = Some (x, delete i l).
Proof.
  intros Hi. destruct (lookup_lt_is_Some_2 l i Hi) as [x Hx].
  exists x. unfold pop. rewrite Hx. auto.
Qed.

Lemma insert_at_lookup (j : nat) x rest :
  (j <= length rest)%nat -> insert_at j x rest !! j = Some x.
Proof.
  intros Hj. unfold insert_at.
  rewrite lookup_app_r by (rewrite length_take; lia).
  rewrite length_take. replace (j - j `min` length rest)%nat with 0%nat by lia.
  reflexivity.
Qed.

Lemma delete_insert_at (j : nat) x rest :
  (j <= length rest)%nat -> delete j (insert_at j x rest) = rest.
Proof.
  intros Hj. unfold insert_at. rewrite delete_take_drop.
  rewrite take_app_length' by (rewrite length_take; lia).
  rewrite cons_middle, app_assoc.
  rewrite drop_app_length' by (rewrite length_app, length_take; simpl; lia).
  apply take_drop.
Qed.

Lemma insert_at_delete (i : nat) x l :
  l !! i = Some x -> insert_at i x (delete i l) = l.
Proof.
  intros Hx. unfold insert_at. rewrite delete_take_drop.
  assert (Hi : (i < length l)%nat) by (eapply lookup_lt_Some; eauto).
  rewrite take_app_length' by (rewrite length_take; lia).
  rewrite drop_app_length' by (rewrite length_take; lia).
  apply take_drop_middle, Hx.
Qed.

Lemma length_delete_in_range (i : nat) l :
  (i < length l)%nat -> length (delete i l) = (length l - 1)%nat.
Proof.
  intros Hi. destruct (lookup_lt_is_Some_2 l i Hi) as [x Hx].
  pose proof (length_delete l i (ltac:(eauto))). lia.
Qed.

(** X9. [remove_action] and [move_action] refuse an index that is negative
    or not below the number of actions (also a negative one that [list.pop]
    would take), whichever of the two indices of [move_action] it is: they
    return false and leave the object as it was, [modified_at] included. *)
Theorem out_of_range_edits_are_refused (now : Q) (index other : Z) s :
  (index < 0 \/ Z.of_nat (length (actions s)) <= index)%Z ->
  remove_action now index s = (false, s)
  /\ move_action now index other s = (false, s)
  /\ move_action now other index s = (false, s).
Proof.
  intros H.
  assert (Hr : in_range index s = false).
  { unfold in_range. apply andb_false_iff.
    destruct H; [left; apply Z.leb_gt|right; apply Z.ltb_ge]; lia. }
  unfold remove_action, move_action. rewrite Hr, andb_false_r. auto.
Qed.

(** X10. [remove_action] with an index in range returns true, stamps
    [modified_at], and takes out exactly the action at that index: the
    actions before it keep their positions, those after it move down by
    one, and nothing else of the object changes. *)
Theorem remove_action_takes_out_one_action (now : Q) (index : Z) s :
  (0 <= index < Z.of_nat (length (actions s)))%Z ->
  remove_action now index s
  = (true, edited now (delete (Z.to_nat index) (actions s)) s)
  /\ length (delete (Z.to_nat index) (actions s)) = (length (actions s) - 1)%nat
  /\ forall k : nat,
       delete (Z.to_nat index) (actions s) !! k
       = actions s !! (if (k <? Z.to_nat index)%nat then k else S k).
Proof.
  intros H.
  assert (Hi : (Z.to_nat index < length (actions s))%nat) by lia.
  assert (Hr : in_range index s = true) by (apply in_range_spec; lia).
  unfold remove_action. rewrite Hr.
  destruct (pop_in_range _ _ Hi) as (x & Hx & ->).
  split; [reflexivity|]. split; [apply length_delete_in_range, Hi|].
  intros k. destruct (Nat.ltb_spec k (Z.to_nat index)).
  - apply list_lookup_delete_lt; assumption.
  - apply list_lookup_delete_ge; assumption.
Qed.

(** X11. [move_action] with both indices in range returns true and stamps
    [modified_at]; the action that stood at [from_index] stands at
    [to_index] afterwards, and the new list holds the same actions as the
    old one, as many times each. *)
Theorem move_action_puts_the_action_at_its_target (now : Q)
    (from_index to_index : Z) s :
  (0 <= from_index < Z.of_nat (length (actions s)))%Z ->
  (0 <= to_index < Z.of_nat (length (actions s)))%Z ->
  exists s', move_action now from_index to_index s = (true, s')
    /\ s' = edited now (actions s') s
    /\ actions s' !! Z.to_nat to_index = actions s !! Z.to_nat from_index
    /\ actions s' ≡ₚ actions s.
Proof.
  intros Hf Ht.
  assert (Hi : (Z.to_nat from_index < length (actions s))%nat) by lia.
  assert (Hrf : in_range from_index s = true) by (apply in_range_spec; lia).
  assert (Hrt : in_range to_index s = true) by (apply in_range_spec; lia).
  unfold move_action. rewrite Hrf, Hrt. cbn [andb].
  destruct (pop_in_range _ _ Hi) as (x & Hx & ->).
  eexists. split; [reflexivity|]. cbn [actions edited].
  split; [reflexivity|]. split.
  - rewrite Hx. apply insert_at_lookup.
    rewrite (length_delete_in_range _ _ Hi). lia.
  - unfold insert_at. rewrite <- Permutation_middle, take_drop.
    rewrite <- (take_drop_middle _ _ _ Hx) at 2.
    rewrite delete_take_drop. apply Permutation_middle.
Qed.

(** X12. Moving an action from one position to another and then back
    restores the order of the actions: the second call returns true and
    leaves the list as it was before the first. *)
Theorem moving_an_action_back_restores_the_order (now now' : Q)
    (from_index to_index : Z) s :
  (0 <= from_index < Z.of_nat (length (actions s)))%Z ->
  (0 <= to_index < Z.of_nat (length (actions s)))%Z ->
  exists s', move_action now from_index to_index s = (true, s')
    /\ move_action now' to_index from_index s'
       = (true, edited now' (actions s) s).
Proof.
  intros Hf Ht.
  assert (Hi : (Z.to_nat from_index < length (actions s))%nat) by lia.
  assert (Hrf : in_range from_index s = true) by (apply in_range_spec; lia).
  assert (Hrt : in_range to_index s = true) by (apply in_range_spec; lia).
  unfold move_action at 1. rewrite Hrf, Hrt. cbn [andb].
  destruct (pop_in_range _ _ Hi) as (x & Hx & ->).
  eexists. split; [reflexivity|].
  set (rest := delete (Z.to_nat from_index) (actions s)).
  assert (Hlen : length rest = (length (actions s) - 1)%nat)
    by apply length_delete_in_range, Hi.
  assert (Hj : (Z.to_nat to_index <= length rest)%nat) by lia.
  assert (Hlen' : length (insert_at (Z.to_nat to_index) x rest)
                  = length (actions s)).
  { unfold insert_at. rewrite length_app, length_take. simpl.
    rewrite length_drop. lia. }
  unfold move_action, in_range. cbn [actions edited]. rewrite Hlen'.
  fold (in_range to_index s) (in_range from_index s). rewrite Hrf, Hrt.
  cbn [andb]. unfold pop. rewrite (insert_at_lookup _ _ _ Hj).
  rewrite (delete_insert_at _ _ _ Hj). unfold rest.
  rewrite (insert_at_delete _ _ _ Hx). reflexivity.
Qed.

(** X13. Removing the action that [add_action] has just appended, at the
    index that was the length of the list, restores the list. *)
Theorem removing_the_added_action_restores_the_list (now now' : Q)
    (action : A) s :
  remove_action now' (Z.of_nat (length (actions s))) (add_action now action s)
  = (true, edited now' (actions s) s).
Proof.
  unfold remove_action, add_action, in_range. cbn [actions edited].
  rewrite length_app. simpl.
  replace ((0 <=? Z.of_nat (length (actions s)))%Z) with true
    by (symmetry; apply Z.leb_le; lia).
  replace ((Z.of_nat (length (actions s))
            <? Z.of_nat (length (actions s) + 1))%Z) with true
    by (symmetry; apply Z.ltb_lt; lia).
  cbn [andb]. rewrite Nat2Z.id. unfold pop.
  rewrite lookup_app_r, Nat.sub_diag by lia. cbn [lookup list_lookup].
  rewrite delete_take_drop, take_app_length.
  rewrite drop_ge by (rewrite length_app; simpl; lia).
  rewrite app_nil_r. reflexivity.
Qed.

End Editing.

(** X9, witness: index -1 and index 3 on the three key presses. *)
Lemma minus_one_and_three_are_refused :
  ((-1 < 0)%Z \/ (Z.of_nat (length (actions (EngineSamples.three_keys true)))
                  <= -1)%Z)
  /\ remove_action 9 (-1) (EngineSamples.three_keys true)
     = (false, EngineSamples.three_keys true)
  /\ move_action 9 0 3 (EngineSamples.three_keys true)
     = (false, EngineSamples.three_keys true).
Proof.
  split; [left; lia|].
  destruct (out_of_range_edits_are_refused 9 (-1) 0
              (EngineSamples.three_keys true)) as (H1 & _ & _); [left; lia|].
  split; [exact H1|]. reflexivity.
Defined.

(** X10, witness: removing the second of the three key presses. *)
Lemma removing_the_second_key :
  (0 <= 1 < Z.of_nat (length (actions (EngineSamples.three_keys true))))%Z
  /\ actions (remove_action 9 1 (EngineSamples.three_keys true)).2
     = [EngineSamples.press_key "f1"; EngineSamples.press_key "f3"].
Proof.
  split; [simpl; lia|].
  rewrite (proj1 (remove_action_takes_out_one_action 9 1
                    (EngineSamples.three_keys true) ltac:(simpl; lia))).
  reflexivity.
Defined.

(** X11, witness: the first key press moved to the end. *)
Lemma moving_the_first_key_last :
  (0 <= 0 < Z.of_nat (length (actions (EngineSamples.three_keys true))))%Z
  /\ (0 <= 2 < Z.of_nat (length (actions (EngineSamples.three_keys true))))%Z
  /\ exists s', move_action 9 0 2 (EngineSamples.three_keys true) = (true, s')
       /\ actions s' !! 2%nat = Some (EngineSamples.press_key "f1").
Proof.
  split; [simpl; lia|]. split; [simpl; lia|].
  destruct (move_action_puts_the_action_at_its_target 9 0 2
              (EngineSamples.three_keys true) ltac:(simpl; lia) ltac:(simpl; lia))
    as (s' & Hm & _ & Hat & _).
  exists s'. split; [exact Hm|exact Hat].
Defined.

(** X12, witness: the first key press moved to the end and back. *)
Lemma moving_the_first_key_last_and_back :
  (0 <= 0 < Z.of_nat (length (actions (EngineSamples.three_keys true))))%Z
  /\ (0 <= 2 < Z.of_nat (length (actions (EngineSamples.three_keys true))))%Z
  /\ exists s', move_action 9 0 2 (EngineSamples.three_keys true) = (true, s')
       /\ actions (move_action 9 2 0 s').2
          = actions (EngineSamples.three_keys true).
Proof.
  split; [simpl; lia|]. split; [simpl; lia|].
  destruct (moving_an_action_back_restores_the_order 9 9 0 2
              (EngineSamples.three_keys true) ltac:(simpl; lia) ltac:(simpl; lia))
    as (s' & Hm & Hback).
  exists s'. split; [exact Hm|]. rewrite Hback. reflexivity.
Defined.

End SequenceFacts.

(** ** Checking and storing a sequence *)

Module StoredFacts.
Import Py Actions Engine Sequences.

Section Stored.
Variable repr_float : Q -> string.

Local Abbreviation valid := (fun a : Action => ActionChecks.validate a = true).
Local Abbreviation rederived := (ActionChecks.rederived repr_float).

Lemma invalid_actions_nil (l : list Action) : forall i,
  invalid_actions repr_float i l = [] <-> Forall valid l.
Proof.
  induction l as [|a l IH]; intros i; simpl.
  - split; auto.
  - rewrite Forall_cons. destruct (ActionChecks.validate a); simpl.
    + rewrite IH. tauto.
    + split; [discriminate|intros [H _]; discriminate].
Qed.

Lemma invalid_actions_length (l : list Action) : forall i,
  length (invalid_actions repr_float i l)
  = length (List.filter (fun a => negb (ActionChecks.validate a)) l).
Proof.
  induction l as [|a l IH]; intros i; simpl; [reflexivity|].
  destruct (ActionChecks.validate a); simpl; rewrite IH; reflexivity.
Qed.

(** X14. [ActionSequence.validate] returns no message exactly when the
    sequence holds at least one action and every action passes its own
    [validate()]; in general it returns one message for an empty sequence
    and one for each invalid action. *)
Theorem sequence_validate_reports_every_invalid_action (s : ActionSequence Action) :
  (validate repr_float s = []
   <-> actions s <> [] /\ Forall valid (actions s))
  /\ length (validate repr_float s)
     = ((match actions s with [] => 1 | _ :: _ => 0 end)
        + length (List.filter (fun a => negb (ActionChecks.validate a))
                              (actions s)))%nat.
Proof.
  unfold validate. split.
  - destruct (actions s) as [|a l] eqn:E.
    + simpl. split; [discriminate|intros [H _]; congruence].
    + rewrite app_nil_l, invalid_actions_nil. split; [|tauto].
      intros H. split; [discriminate|exact H].
  - rewrite length_app, invalid_actions_length.
    destruct (actions s); reflexivity.
Qed.

Lemma create_from_to_dict (now : Q) (a : Action) :
  create_from_dict repr_float now (Actions.to_dict a) = Typed (Ok (rederived a)).
Proof. exact (ActionFacts.clone_rederives repr_float now a). Qed.

Lemma load_stored (clock : nat -> Q) (l : list Action) : forall i loaded,
  load_actions repr_float clock i (stored <$> l) loaded
  = Some (loaded ++ (rederived <$> l)).
Proof.
  induction l as [|a l IH]; intros i loaded.
  - simpl. rewrite app_nil_r. reflexivity.
  - rewrite !fmap_cons. cbn [load_actions stored].
    rewrite create_from_to_dict, IH, <- app_assoc. reflexivity.
Qed.

(** An entry that is left out: no dictionary, or one the factory refuses. *)
Lemma load_refused (clock : nat -> Q) (junk : PyVal) items i loaded :
  (forall d now, junk = VDict d ->
     exists e, create_from_dict repr_float now d = Typed (Raise e)) ->
  load_actions repr_float clock i (junk :: items) loaded
  = load_actions repr_float clock (S i) items loaded.
Proof.
  intros H. destruct junk; try reflexivity.
  cbn [load_actions]. destruct (H d (clock i) eq_refl) as [e ->]. reflexivity.
Qed.

Lemma load_stored_around (clock : nat -> Q) (junk : PyVal)
    (before after_ : list Action) :
  (forall d now, junk = VDict d ->
     exists e, create_from_dict repr_float now d = Typed (Raise e)) ->
  forall i loaded,
  load_actions repr_float clock i
    ((stored <$> before) ++ junk :: (stored <$> after_)) loaded
  = Some (loaded ++ (rederived <$> before ++ after_)).
Proof.
  intros H. induction before as [|a l IH]; intros i loaded.
  - cbn [fmap list_fmap app]. rewrite (load_refused _ _ _ _ _ H).
    apply load_stored.
  - rewrite fmap_cons, <- app_comm_cons. cbn [load_actions stored].
    rewrite create_from_to_dict, IH, <- app_assoc. reflexivity.
Qed.

(** X15. Loading the dictionary that [to_dict] gives of a sequence [s] into
    any sequence object ends normally and assigns the eight settings of [s]
    and its actions, each with the description derived anew; the three
    runtime fields of the object that is loaded into are left as they
    were. *)
Theorem stored_sequence_loads_back (created modified : Q) (clock : nat -> Q)
    (self s : ActionSequence Action) :
  from_dict repr_float created modified clock self (to_dict s)
  = Typed (Ok (reloaded self s (rederived <$> actions s), Ok tt)).
Proof.
  unfold from_dict, to_dict.
  cbn [get_at lookup_total]. unfold get_at.
  rewrite !lookup_insert_ne by discriminate.
  repeat (rewrite lookup_insert_eq || rewrite lookup_insert_ne by discriminate).
  cbn [at_type as_str as_num as_bool as_int default
       ApiIntegration.py_iter Datatypes.id].
  rewrite load_stored. reflexivity.
Qed.

(** X16. An entry of the stored list that is no dictionary, or on which the
    factory raises (the [ValueError] of an unknown type, or what a
    constructor raises on a field of the wrong type), is left out and does
    not end the load: the entries before and after it are loaded, in
    order. *)
Theorem refused_entries_are_left_out (created modified : Q) (clock : nat -> Q)
    (self s : ActionSequence Action) (before after_ : list Action)
    (junk : PyVal) :
  (forall d now, junk = VDict d ->
     exists e, create_from_dict repr_float now d = Typed (Raise e)) ->
  from_dict repr_float created modified clock self
    (<["actions" := VList ((stored <$> before) ++ junk :: (stored <$> after_))]>
       (to_dict s))
  = Typed (Ok (reloaded self s (rederived <$> before ++ after_), Ok tt)).
Proof.
  intros H. unfold from_dict, to_dict, get_at.
  repeat (rewrite lookup_insert_eq || rewrite lookup_insert_ne by discriminate).
  cbn [at_type as_str as_num as_bool as_int default
       ApiIntegration.py_iter Datatypes.id].
  rewrite (load_stored_around clock junk before after_ H). reflexivity.
Qed.

(** X17. When ["actions"] holds a value that cannot be iterated (a number,
    a boolean, [None]), [from_dict] raises [TypeError], and it does so
    after it has assigned the eight settings and emptied the list: the
    object is left with the stored settings and no action. *)
Theorem actions_that_cannot_be_iterated_leave_an_empty_sequence
    (created modified : Q) (clock : nat -> Q)
    (self s : ActionSequence Action) (v : PyVal) :
  iterable v = false ->
  from_dict repr_float created modified clock self
    (<["actions" := v]> (to_dict s))
  = Typed (Ok (reloaded self s [],
               Raise (mkExn TypeError "object is not iterable"))).
Proof.
  intros H. unfold from_dict, to_dict, get_at.
  repeat (rewrite lookup_insert_eq || rewrite lookup_insert_ne by discriminate).
  cbn [at_type as_str as_num as_bool as_int default Datatypes.id].
  destruct v; try discriminate; reflexivity.
Qed.

End Stored.

(** X16, witness: the entry [{"type": "TypeAction", "text": 5}], on which
    the constructor raises [TypeError], between two stored key presses. *)
Lemma a_number_as_text_between_two_keys_is_left_out :
  (forall now, create_from_dict Samples.show_Q now Samples.text_is_a_number
               = Typed (Raise (mkExn TypeError "object is not subscriptable")))
  /\ from_dict Samples.show_Q 0 0 Samples.at_zero
       (EngineSamples.three_keys true)
       (<["actions" := VList ((stored <$> [EngineSamples.press_key "f1"])
                              ++ VDict Samples.text_is_a_number
                              :: (stored <$> [EngineSamples.press_key "f3"]))]>
          (to_dict (EngineSamples.three_keys true)))
     = Typed (Ok (reloaded (EngineSamples.three_keys true)
                    (EngineSamples.three_keys true)
                    [EngineSamples.press_key "f1"; EngineSamples.press_key "f3"],
                  Ok tt)).
Proof.
  assert (Hraises : forall now,
            create_from_dict Samples.show_Q now Samples.text_is_a_number
            = Typed (Raise (mkExn TypeError "object is not subscriptable")))
    by (intros now; reflexivity).
  split; [exact Hraises|].
  apply (refused_entries_are_left_out Samples.show_Q 0 0 Samples.at_zero
           (EngineSamples.three_keys true) (EngineSamples.three_keys true)
           [EngineSamples.press_key "f1"] [EngineSamples.press_key "f3"]
           (VDict Samples.text_is_a_number)).
  intros d now Hd. injection Hd as <-. eexists. apply Hraises.
Defined.

(** X17, witness: ["actions"] is the number 5. *)
Lemma actions_five_leaves_an_empty_sequence :
  iterable (VInt 5) = false
  /\ from_dict Samples.show_Q 0 0 Samples.at_zero EngineSamples.looped
       (<["actions" := VInt 5]> (to_dict (EngineSamples.three_keys true)))
     = Typed (Ok (reloaded EngineSamples.looped (EngineSamples.three_keys true) [],
                  Raise (mkExn TypeError "object is not iterable"))).
Proof.
  split; [reflexivity|].
  apply (actions_that_cannot_be_iterated_leave_an_empty_sequence
           Samples.show_Q 0 0 Samples.at_zero).
  reflexivity.
Defined.

End StoredFacts.

(** ** The engine at its edges *)

Section EngineEdges.
Context {A : Type} {executable : Executable A}.
Variable progress_callback : bool.
Variable stop_check : option (list (Event A) -> bool).

(** X18. With looping enabled and a [loop_count] of zero or less,
    [range(loop_count)] is empty: [execute()] returns true at once, having
    asked the stop predicate nothing, called no callback and invoked no
    action. *)
Theorem nonpositive_loop_count_runs_nothing (sequence : ActionSequence A) :
  loop_enabled sequence = true -> (loop_count sequence <= 0)%Z ->
  let r := execute progress_callback stop_check sequence in
  result r = true /\ events r = [].
Proof.
  intros Hen Hlc. unfold execute. cbn [self loop_enabled loop_count set_is_running].
  rewrite Hen. replace (Z.to_nat (loop_count sequence)) with 0%nat by lia.
  split; reflexivity.
Qed.

Lemma run_actions_never_failing li lc total (todo : list A) :
  (forall a past, a ∈ todo -> failed (run a past).1 = false) ->
  forall ai (s : State A),
  (run_actions progress_callback stop_check li lc total ai todo s).1 = Continue.
Proof.
  induction todo as [|a todo IH]; intros Hok ai s; [reflexivity|].
  rewrite run_actions_cons.
  destruct (stop_requested _ _) as [stop s1]. destruct stop; [reflexivity|].
  unfold turn_result. rewrite Hok by (left). cbn [andb].
  apply IH. intros a' past Hin. apply Hok. right. exact Hin.
Qed.

Lemma run_loops_never_failing lc total (loops : list nat) : forall (s : State A),
  (forall a past, a ∈ actions (self s) -> failed (run a past).1 = false) ->
  (run_loops progress_callback stop_check lc total loops s).1 = true.
Proof.
  induction loops as [|k loops IH]; intros s Hok; [reflexivity|].
  cbn [run_loops].
  destruct (stop_requested _ _) as [stop s1] eqn:E1.
  apply stop_requested_spec in E1. destruct E1 as (Hself1 & _ & _).
  cbn [self emit update] in Hself1.
  destruct stop; [reflexivity|].
  assert (Hact1 : actions (self s1) = actions (self s)).
  { rewrite Hself1. destruct (self s); reflexivity. }
  pose proof (run_actions_never_failing k lc total (actions (self s1))) as Hc.
  rewrite Hact1 in Hc. specialize (Hc Hok 0%nat s1). rewrite <- Hact1 in Hc.
  destruct (run_actions _ _ _ _ _ _ _ _) as [flow s2] eqn:E2.
  cbn [fst] in Hc. subst flow.
  apply run_actions_spec in E2. destruct E2 as (Hset2 & _).
  destruct (wait_between_loops_spec progress_callback k lc total s2) as (Hself3 & _).
  apply IH. rewrite Hself3.
  replace (actions (self s2)) with (actions (self s)); [exact Hok|].
  unfold settings in Hset2. congruence.
Qed.

Lemma execute_never_failing (sequence : ActionSequence A) :
  (forall a past, a ∈ actions sequence -> failed (run a past).1 = false) ->
  result (execute progress_callback stop_check sequence) = true.
Proof.
  intros Hok. unfold execute.
  pose proof (run_loops_never_failing
    (if loop_enabled (self {| self := set_is_running true sequence; trace := [] |})
     then loop_count (self {| self := set_is_running true sequence; trace := [] |})
     else 1%Z)
    (length (actions (self {| self := set_is_running true sequence; trace := [] |})))
    (seq 0 (Z.to_nat
      (if loop_enabled (self {| self := set_is_running true sequence; trace := [] |})
       then loop_count (self {| self := set_is_running true sequence; trace := [] |})
       else 1%Z)))
    {| self := set_is_running true sequence; trace := [] |}) as H.
  cbv zeta. destruct (run_loops _ _ _ _ _ _) as [res s']. cbn [result].
  apply H. exact Hok.
Qed.

End EngineEdges.

(** X19. A sequence for which [validate()] returns no message runs to its
    end in a world where no call of the input-injection library fails,
    provided that [time.sleep] accepts every length it is given: no base
    delay, [wait_time] or [repeat_interval] is beyond its range, which
    [validate()] does not test. Then [execute()] returns true whether
    [stop_on_error] is set or not, and, when the stop predicate never
    answers yes, every action is invoked once in every loop, in order. *)
Theorem validated_sequence_completes_without_faults
    (fault : list DeviceOp -> DeviceOp -> option string)
    (repr_float : Q -> string) (progress_callback : bool)
    (stop_check : option (list (Event Action) -> bool))
    (sequence : ActionSequence Action) :
  (forall past op, fault past op = None) ->
  Sequences.validate repr_float sequence = [] ->
  Forall (fun a => ActionChecks.sleeps_in_range a = true) (actions sequence) ->
  too_long (repeat_interval sequence) = false ->
  let r := @execute Action (Actions.execute fault) progress_callback stop_check
                    sequence in
  result r = true
  /\ (~ stopped_early (events r) ->
      executed (events r)
      = flat_map (fun li => indices li 0 (length (actions sequence)))
                 (seq 0 (loops_of sequence))).
Proof.
  intros Hfault Hvalid Hrange _ r.
  assert (Hres : result r = true).
  { apply execute_never_failing. intros a past Hin.
    unfold Sequences.validate in Hvalid. apply app_eq_nil in Hvalid.
    destruct Hvalid as [_ Hvalid].
    apply StoredFacts.invalid_actions_nil in Hvalid.
    rewrite Forall_forall in Hvalid. specialize (Hvalid a Hin).
    rewrite Forall_forall in Hrange. specialize (Hrange a Hin).
    pose proof (CheckFacts.execute_without_faults fault Hfault a past) as H.
    rewrite (CheckFacts.valid_in_range_sleeps a Hvalid Hrange) in H.
    destruct H as [made H]. unfold run. rewrite H. reflexivity. }
  split; [exact Hres|].
  intros Hno.
  destruct (@execute_spec Action (Actions.execute fault) progress_callback
              stop_check sequence) as [_ H].
  fold r in H. rewrite Hres in H. destruct H as [_ H].
  apply (H Hno).
Qed.

(** X19, witness: the three key presses, which are valid, with
    [stop_on_error] set. *)
Lemma three_valid_keys_complete :
  (forall past op, Samples.no_fault past op = None)
  /\ Sequences.validate Samples.show_Q (three_keys true) = []
  /\ result (@execute _ fine false None (three_keys true)) = true.
Proof.
  split; [reflexivity|]. split; [reflexivity|].
  apply (validated_sequence_completes_without_faults Samples.no_fault
           Samples.show_Q false None (three_keys true));
    try reflexivity.
  repeat constructor.
Defined.

(** ** Stopping inside a loop *)

Section StopInside.
Context {A : Type} {executable : Executable A}.
Variable progress_callback : bool.

Lemma stop_inside_first_loop (check : list (Event A) -> bool)
    (sequence : ActionSequence A) (lc : Z) (total : nat) (more : list nat) :
  actions sequence <> [] ->
  loop_enabled sequence = true -> (2 <= lc)%Z ->
  is_positive (repeat_interval sequence) = true ->
  check [LoopBegins 0] = false ->
  (forall t, StopCheck false ∈ t -> check t = true) ->
  exists s',
    run_loops progress_callback (Some check) lc total (0%nat :: 1%nat :: more)
              {| self := sequence; trace := [] |} = (true, s')
    /\ trace s'
       = [LoopBegins 0; StopCheck false; StopCheck true]
         ++ (if progress_callback
             then [ProgressCallback 0 lc (-1) total None]
             else [])
         ++ [Device (sleep (repeat_interval sequence)); LoopBegins 1;
             StopCheck true].
Proof.
  intros Hne Hen Hlc Hpos Hfirst Hlater.
  destruct (actions sequence) as [|a rest] eqn:Hact; [congruence|]. clear Hne.
  cbn [run_loops].
  unfold stop_requested at 1. cbn [trace emit update self app].
  rewrite Hfirst.
  cbn [actions set_current_loop]. rewrite Hact.
  cbn [run_actions].
  unfold stop_requested at 1. cbn [trace emit update self app].
  rewrite Hlater by (apply list_elem_of_In; simpl; auto).
  unfold wait_between_loops.
  cbn [self emit update loop_enabled repeat_interval set_current_action_index
       set_current_loop].
  rewrite Hen, Hpos.
  replace (Z.of_nat 0 <? lc - 1)%Z with true by (symmetry; apply Z.ltb_lt; lia).
  cbn [andb]. unfold stop_requested. cbn [trace emit update self app report].
  rewrite Hlater
    by (destruct progress_callback; apply list_elem_of_In; simpl; auto).
  eexists. split; [reflexivity|].
  destruct progress_callback; reflexivity.
Qed.
(** X20. A stop request seen inside a loop leaves only the inner loop: with
    looping enabled, two loops or more and a positive [repeat_interval]
    that [time.sleep] accepts (one that is not [too_long]), a stop predicate
    that answers no at the top of the first loop and yes once it has
    answered no makes the engine skip every action, but still make the
    marker call and sleep [repeat_interval] before it asks again at the top
    of the second loop and returns true. *)
Theorem stop_inside_a_loop_does_not_skip_the_pause
    (check : list (Event A) -> bool) (sequence : ActionSequence A) :
  actions sequence <> [] ->
  loop_enabled sequence = true -> (2 <= loop_count sequence)%Z ->
  is_positive (repeat_interval sequence) = true ->
  too_long (repeat_interval sequence) = false ->
  check [LoopBegins 0] = false ->
  (forall t, StopCheck false ∈ t -> check t = true) ->
  let r := execute progress_callback (Some check) sequence in
  result r = true
  /\ events r
     = [LoopBegins 0; StopCheck false; StopCheck true]
       ++ (if progress_callback
           then [ProgressCallback 0 (loop_count sequence) (-1)
                   (length (actions sequence)) None]
           else [])
       ++ [Device (sleep (repeat_interval sequence)); LoopBegins 1;
           StopCheck true].
Proof.
  intros Hne Hen Hlc Hpos _ Hfirst Hlater.
  unfold execute. cbn [self loop_enabled loop_count set_is_running actions].
  rewrite Hen.
  destruct (Z.to_nat (loop_count sequence)) as [|[|m]] eqn:Hm; [lia|lia|].
  cbn [seq].
  destruct (stop_inside_first_loop check (set_is_running true sequence)
              (loop_count sequence) (length (actions sequence)) (seq 2 m))
    as (s' & -> & Htrace); auto.
Qed.

End StopInside.

(** X20, witness: the looped key press with a stop predicate that answers
    yes from its second call on. *)
Lemma stopped_loop_still_pauses :
  actions looped <> []
  /\ too_long (repeat_interval looped) = false
  /\ stop_from_second_poll [LoopBegins 0] = false
  /\ (forall t : list (Event Action),
        StopCheck false ∈ t -> stop_from_second_poll t = true)
  /\ device_ops
       (events (@execute _ fine false (Some stop_from_second_poll) looped))
     = [sleep 2].
Proof.
  assert (H : forall t : list (Event Action),
             StopCheck false ∈ t -> stop_from_second_poll t = true).
  { intros t Ht. apply existsb_exists. exists (StopCheck false).
    split; [apply list_elem_of_In, Ht|reflexivity]. }
  split; [discriminate|]. split; [reflexivity|]. split; [reflexivity|].
  split; [exact H|].
  destruct (@stop_inside_a_loop_does_not_skip_the_pause _ fine false
              stop_from_second_poll looped ltac:(discriminate) eq_refl
              ltac:(simpl; lia) eq_refl eq_refl eq_refl H)
    as [_ Hev].
  rewrite Hev. reflexivity.
Defined.

(** ** What the parser raises and what it drops *)

Module ReplyFacts.
Import Py Actions ApiIntegration Samples.

Section Replies.
Variable repr_float : Q -> string.
Variable json_loads : string -> Exc PyVal.
Variable py_int : string -> option Z.
Variable py_float : string -> option Q.
Variable time_time : nat -> Q.

Local Abbreviation _create_action_from_data :=
  (_create_action_from_data repr_float).
Local Abbreviation collect_actions := (collect_actions repr_float time_time).
Local Abbreviation parse_action_body :=
  (parse_action_body repr_float json_loads time_time).
Local Abbreviation _parse_action_response :=
  (_parse_action_response repr_float json_loads py_int py_float time_time).

Local Abbreviation raises_one_of_three e :=
  (exn_class e = KeyError \/ exn_class e = TypeError
   \/ exn_class e = AttributeError).

Lemma subscript_then_raises {B : Type} (d : gmap string PyVal) (key : string)
    (k : PyVal -> Dyn B) (e : Exn) :
  dyn_bind (subscript d key) k = Typed (Raise e) ->
  exn_class e = KeyError \/ exists v, k v = Typed (Raise e).
Proof.
  unfold subscript. destruct (d !! key) as [v|]; simpl.
  - intros H. right. exists v. exact H.
  - intros H. inversion H. left. reflexivity.
Qed.

Lemma TypeAction_of_raises (now : Q) (text delay : PyVal) (e : Exn) :
  TypeAction_of repr_float now text delay = Typed (Raise e) ->
  exn_class e = TypeError.
Proof.
  unfold TypeAction_of, built, TypeAction_dyn, at_type.
  destruct text; cbn [dyn_bind]; try discriminate;
    try (intros H; inversion H; reflexivity).
  destruct (as_num delay); discriminate.
Qed.

Lemma ClickAction_of_raises (now : Q) (x y button delay : PyVal) (e : Exn) :
  ClickAction_of repr_float now x y button delay = Typed (Raise e) ->
  exn_class e = AttributeError.
Proof.
  unfold ClickAction_of, built, ClickAction_dyn, at_type, no_title.
  destruct button; cbn [dyn_bind]; try (intros H; inversion H; reflexivity).
  destruct (as_int x); [|discriminate].
  destruct (as_int y); [|discriminate].
  destruct (as_num delay); discriminate.
Qed.

Lemma DelayAction_of_returns (now : Q) (wait_time : PyVal) (e : Exn) :
  DelayAction_of repr_float now wait_time <> Typed (Raise e).
Proof.
  unfold DelayAction_of, built, DelayAction_dyn, at_type.
  destruct (as_num wait_time); discriminate.
Qed.

Lemma HotkeyAction_of_raises (now : Q) (keys delay : PyVal) (e : Exn) :
  HotkeyAction_of repr_float now keys delay = Typed (Raise e) ->
  exn_class e = TypeError.
Proof.
  unfold HotkeyAction_of, built, HotkeyAction_dyn, at_type.
  destruct (as_strs _); cbn [dyn_bind].
  - destruct (as_num delay); discriminate.
  - intros H; inversion H; reflexivity.
Qed.

Lemma SpecialKeyAction_of_returns (now : Q) (key delay : PyVal) (e : Exn) :
  SpecialKeyAction_of repr_float now key delay <> Typed (Raise e).
Proof.
  unfold SpecialKeyAction_of, built, SpecialKeyAction_dyn, at_type.
  destruct (as_str key); [|discriminate].
  destruct (as_num delay); discriminate.
Qed.

Lemma create_action_body_raises (now : Q) (data : PyVal) (e : Exn) :
  create_action_body repr_float now data = Typed (Raise e) ->
  raises_one_of_three e.
Proof.
  unfold create_action_body, no_attribute.
  destruct data as [| | | | | |d];
    try (intros H; inversion H; right; right; reflexivity).
  destruct (default (VStr "") (d !! "type")) as [| | | |type_| |];
    try (intros H; inversion H; right; right; reflexivity).
  destruct (String.eqb (PyStr.upper type_) "TYPE").
  { intros H. apply subscript_then_raises in H. destruct H as [H|[v H]].
    - left. exact H.
    - right. left. eapply TypeAction_of_raises, H. }
  destruct (String.eqb (PyStr.upper type_) "CLICK").
  { intros H. apply subscript_then_raises in H. destruct H as [H|[v H]].
    - left. exact H.
    - apply subscript_then_raises in H. destruct H as [H|[w H]].
      + left. exact H.
      + right. right. eapply ClickAction_of_raises, H. }
  destruct (String.eqb (PyStr.upper type_) "DELAY").
  { intros H. apply subscript_then_raises in H. destruct H as [H|[v H]].
    - left. exact H.
    - exfalso. eapply DelayAction_of_returns, H. }
  destruct (String.eqb (PyStr.upper type_) "HOTKEY").
  { intros H. apply subscript_then_raises in H. destruct H as [H|[v H]].
    - left. exact H.
    - right. left. eapply HotkeyAction_of_raises, H. }
  destruct (String.eqb (PyStr.upper type_) "SPECIAL_KEY").
  { intros H. apply subscript_then_raises in H. destruct H as [H|[v H]].
    - left. exact H.
    - exfalso. eapply SpecialKeyAction_of_returns, H. }
  discriminate.
Qed.

Lemma create_action_raises (now : Q) (data : PyVal) (e : Exn) :
  _create_action_from_data now data = Typed (Raise e) ->
  exn_class e = AttributeError.
Proof.
  unfold ApiIntegration._create_action_from_data, dyn_try.
  destruct (create_action_body repr_float now data) as [[a|e']|] eqn:E;
    try discriminate.
  apply create_action_body_raises in E.
  destruct (caught_by _ e') eqn:Hc; [discriminate|].
  intros H; inversion H; subst.
  destruct E as [E|[E|E]]; [| |exact E];
    unfold caught_by, isinstance in Hc; rewrite E in Hc; discriminate.
Qed.

Lemma collect_actions_raises (items : list PyVal) : forall actions e,
  collect_actions items actions = Typed (Raise e) ->
  exn_class e = AttributeError.
Proof.
  induction items as [|item items IH]; intros actions e; [discriminate|].
  cbn [ApiIntegration.collect_actions]. unfold dyn_bind.
  destruct (_create_action_from_data _ item) as [[a|e']|] eqn:E.
  - apply IH.
  - intros H; inversion H; subst. eapply create_action_raises, E.
  - discriminate.
Qed.

(** X21. No exception raised while the actions of a reply are built leads
    to the fallback parser. An exception of the body of
    [_parse_action_response] is either the one [json.loads] raised on the
    text between the braces, or a [TypeError] or an [AttributeError] from
    the shape of the decoded value: a missing key is caught where the action
    is built. So the fallback parser runs only when [json.loads] itself
    raises one of the two caught exceptions, and every other exception,
    that of [json.loads] (a [RecursionError] on a deeply nested text)
    included, reaches the caller. *)
Theorem parser_falls_back_only_on_undecodable_json (content : string) (e : Exn) :
  parse_action_body content = Typed (Raise e) ->
  ((exists json_str,
      json_span content = Some json_str /\ json_loads json_str = Raise e)
   \/ exn_class e = TypeError \/ exn_class e = AttributeError)
  /\ (caught_by [JSONDecodeError; KeyError] e = true ->
      exists json_str,
        json_span content = Some json_str /\ json_loads json_str = Raise e)
  /\ (caught_by [JSONDecodeError; KeyError] e = false ->
      _parse_action_response content = Typed (Raise e)).
Proof.
  intros Hbody.
  assert (Hcases :
    (exists json_str,
       json_span content = Some json_str /\ json_loads json_str = Raise e)
    \/ exn_class e = TypeError \/ exn_class e = AttributeError).
  { revert Hbody. unfold ApiIntegration.parse_action_body.
    destruct (json_span content) as [json_str|]; [|discriminate].
    destruct (json_loads json_str) as [[| | | | | |data]|e'] eqn:Hj;
      try (intros H; inversion H; right; right; reflexivity).
    - unfold dyn_bind, py_iter.
      destruct (default (VList []) (data !! "actions"));
        try (intros H; inversion H; right; left; reflexivity);
        intros H; apply collect_actions_raises in H; auto.
    - intros H; inversion H; subst. left. exists json_str. auto. }
  split; [exact Hcases|].
  unfold ApiIntegration._parse_action_response, dyn_try.
  fold (parse_action_body content). rewrite Hbody.
  split.
  - intros Hc. destruct Hcases as [Hj|[Hk|Hk]]; [exact Hj| |];
      unfold caught_by, isinstance in Hc; rewrite Hk in Hc; discriminate.
  - intros ->. reflexivity.
Qed.

Lemma collect_actions_skips (bad : PyVal) (items1 items2 : list PyVal) :
  (forall now, _create_action_from_data now bad = Typed (Ok None)) ->
  forall actions,
  collect_actions (items1 ++ bad :: items2) actions
  = collect_actions (items1 ++ items2) actions.
Proof.
  intros Hbad. induction items1 as [|item items1 IH]; intros actions.
  - cbn [app ApiIntegration.collect_actions]. rewrite Hbad. reflexivity.
  - cbn [app ApiIntegration.collect_actions].
    destruct (_create_action_from_data _ item) as [[[a|]|e]|];
      cbn [dyn_bind]; auto.
Qed.

(** X22. An entry of the decoded ["actions"] list from which no action is
    built (its type is none of the five, or a required key is missing) is
    dropped without a trace: the parser returns what it returns on the
    reply without that entry, so the entries around it still become
    actions and the fallback parser is not called. *)
Theorem entry_that_builds_nothing_is_dropped (content json_str : string)
    (data : gmap string PyVal) (bad : PyVal) (items1 items2 : list PyVal) :
  json_span content = Some json_str ->
  json_loads json_str = Ok (VDict data) ->
  data !! "actions" = Some (VList (items1 ++ bad :: items2)) ->
  (forall now, _create_action_from_data now bad = Typed (Ok None)) ->
  _parse_action_response content
  = dyn_try (collect_actions (items1 ++ items2) [])
            [JSONDecodeError; KeyError]
            (fun _ => Typed (Ok (_parse_text_response repr_float py_int py_float
                                   time_time content))).
Proof.
  intros Hs Hj Ha Hbad.
  unfold ApiIntegration._parse_action_response, ApiIntegration.parse_action_body.
  rewrite Hs, Hj, Ha. cbn [default py_iter dyn_bind Datatypes.id].
  rewrite (collect_actions_skips bad items1 items2 Hbad). reflexivity.
Qed.

Lemma parse_line_adds (line : string) (actions : list Action) :
  exists added,
    parse_line repr_float py_int py_float time_time line actions
    = actions ++ added
    /\ (length added <= 1)%nat
    /\ Forall (fun a => ReplyShapes.fallback_shape a = true) added.
Proof.
  assert (Hnone : exists added, actions = actions ++ added
            /\ (length added <= 1)%nat
            /\ Forall (fun a => ReplyShapes.fallback_shape a = true) added).
  { exists []. rewrite app_nil_r. repeat split; [simpl; lia|constructor]. }
  unfold parse_line.
  destruct (PyStr.strip line) as [|c rest]; [exact Hnone|].
  destruct (PyStr.startswith "type:" _).
  { eexists. split; [reflexivity|]. split; [simpl; lia|].
    repeat constructor. }
  destruct (PyStr.startswith "click:" _).
  { destruct (PyStr.contains _ _); [|exact Hnone].
    destruct (PyStr.split _ _) as [|a [|b [|c' l]]]; try exact Hnone.
    destruct (py_int a); [|exact Hnone].
    destruct (py_int b); [|exact Hnone].
    eexists. split; [reflexivity|]. split; [simpl; lia|].
    repeat constructor. }
  destruct (PyStr.startswith "wait:" _); [|exact Hnone].
  destruct (py_float _); [|exact Hnone].
  eexists. split; [reflexivity|]. split; [simpl; lia|].
  repeat constructor.
Qed.

Lemma parse_lines_add (lines : list string) : forall actions,
  exists added,
    foldl (fun actions line =>
             parse_line repr_float py_int py_float time_time line actions)
          actions lines
    = actions ++ added
    /\ (length added <= length lines)%nat
    /\ Forall (fun a => ReplyShapes.fallback_shape a = true) added.
Proof.
  induction lines as [|line lines IH]; intros actions.
  - exists []. rewrite app_nil_r. repeat split; [simpl; lia|constructor].
  - cbn [foldl].
    destruct (parse_line_adds line actions) as (added1 & -> & Hl1 & Hs1).
    destruct (IH (actions ++ added1)) as (added2 & -> & Hl2 & Hs2).
    exists (added1 ++ added2). rewrite app_assoc.
    split; [reflexivity|]. split.
    + rewrite length_app. simpl. lia.
    + apply Forall_app; split; assumption.
Qed.

(** X23. Whatever the reply, the fallback parser builds at most one action
    for each line of it, and every action it builds is enabled and is a
    [TypeAction] with delay 0.5, a left [ClickAction] with delay 0.2, or a
    [DelayAction] with base delay 0: it builds no hotkey, key, scroll or
    drag action. *)
Theorem fallback_builds_three_kinds_of_action (content : string) :
  let actions := _parse_text_response repr_float py_int py_float time_time
                   content in
  Forall (fun a => ReplyShapes.fallback_shape a = true) actions
  /\ (length actions <= length (PyStr.split "010" content))%nat.
Proof.
  unfold ApiIntegration._parse_text_response.
  destruct (parse_lines_add (PyStr.split "010" content) [])
    as (added & -> & Hl & Hs).
  cbn [app]. split; assumption.
Qed.

End Replies.

(** X21, witness: a text nested too deep, on which [json.loads] raises
    [RecursionError], and the reply [{"actions": 5}], which raises
    [TypeError]; no handler of the parser catches either. *)
Lemma uncaught_exceptions_leave_the_parser :
  _parse_action_response show_Q
    (fun _ => Raise (mkExn RecursionError "maximum recursion depth exceeded"))
    no_number no_float at_zero "{}"
  = Typed (Raise (mkExn RecursionError "maximum recursion depth exceeded"))
  /\ _parse_action_response show_Q sample_json_loads no_number no_float
       at_zero actions_is_a_number
     = Typed (Raise (mkExn TypeError "object is not iterable")).
Proof.
  split.
  - apply (parser_falls_back_only_on_undecodable_json show_Q
             (fun _ => Raise (mkExn RecursionError
                                    "maximum recursion depth exceeded"))
             no_number no_float at_zero "{}" _ eq_refl).
    reflexivity.
  - apply (parser_falls_back_only_on_undecodable_json show_Q sample_json_loads
             no_number no_float at_zero actions_is_a_number _ eq_refl).
    reflexivity.
Defined.

(** X22, witness: an entry of type [TYPE] without ["text"] between nothing
    and nothing, in a reply that decodes to [{"actions": [{"type":
    "type"}]}]. *)
Lemma type_without_text_is_dropped :
  json_span "{}" = Some "{}"
  /\ (forall now, ApiIntegration._create_action_from_data show_Q now
                    ReplyShapes.type_without_text = Typed (Ok None))
  /\ _parse_action_response show_Q
       (fun _ => Ok (ReplyShapes.reply_with [ReplyShapes.type_without_text]))
       no_number no_float at_zero "{}"
     = Typed (Ok []).
Proof.
  assert (H : forall now, ApiIntegration._create_action_from_data show_Q now
                ReplyShapes.type_without_text = Typed (Ok None))
    by (intros now; reflexivity).
  split; [reflexivity|]. split; [exact H|].
  rewrite (entry_that_builds_nothing_is_dropped show_Q
             (fun _ => Ok (ReplyShapes.reply_with [ReplyShapes.type_without_text]))
             no_number no_float at_zero "{}" "{}"
             (<["actions" := VList [ReplyShapes.type_without_text]]> ∅)
             ReplyShapes.type_without_text [] [] eq_refl eq_refl eq_refl H).
  reflexivity.
Defined.

End ReplyFacts.

(** ** What the factory builds *)

Module FactoryFacts.
Import Py Actions Samples.

Section Factory.
Variable repr_float : Q -> string.

Local Ltac built_by_constructor :=
  let Hbuilt := fresh "Hbuilt" in
  intros Hbuilt; injection Hbuilt as Hbuilt; revert Hbuilt;
  unfold TypeAction_dyn, ClickAction_dyn, DelayAction_dyn, HotkeyAction_dyn,
         SpecialKeyAction_dyn, ScrollAction_dyn, DragAction_dyn, at_type,
         no_title;
  repeat case_match; intros Hbuilt; inversion Hbuilt; subst; auto.

Lemma construct_class (now : Q) (action_type : string)
    (data : gmap string PyVal) (b : Action) :
  construct repr_float now action_type data = Some (Typed (Ok b)) ->
  class_name (variant b) = action_type.
Proof.
  unfold construct. cbv zeta.
  destruct (String.eqb_spec action_type "TypeAction") as [->|_];
    [built_by_constructor|].
  destruct (String.eqb_spec action_type "ClickAction") as [->|_];
    [built_by_constructor|].
  destruct (String.eqb_spec action_type "DelayAction") as [->|_];
    [built_by_constructor|].
  destruct (String.eqb_spec action_type "HotkeyAction") as [->|_];
    [built_by_constructor|].
  destruct (String.eqb_spec action_type "SpecialKeyAction") as [->|_];
    [built_by_constructor|].
  destruct (String.eqb_spec action_type "ScrollAction") as [->|_];
    [built_by_constructor|].
  destruct (String.eqb_spec action_type "DragAction") as [->|_];
    [built_by_constructor|].
  discriminate.
Qed.

Lemma construct_raises (now : Q) (action_type : string)
    (data : gmap string PyVal) (e : Exn) :
  construct repr_float now action_type data = Some (Typed (Raise e)) ->
  exn_class e = TypeError \/ exn_class e = AttributeError.
Proof.
  unfold construct. cbv zeta.
  destruct (String.eqb action_type "TypeAction"); [built_by_constructor|].
  destruct (String.eqb action_type "ClickAction"); [built_by_constructor|].
  destruct (String.eqb action_type "DelayAction"); [built_by_constructor|].
  destruct (String.eqb action_type "HotkeyAction"); [built_by_constructor|].
  destruct (String.eqb action_type "SpecialKeyAction"); [built_by_constructor|].
  destruct (String.eqb action_type "ScrollAction"); [built_by_constructor|].
  destruct (String.eqb action_type "DragAction"); [built_by_constructor|].
  discriminate.
Qed.

Lemma variant_from_dict_keeps_class (v w : Variant) (data : gmap string PyVal) :
  variant_from_dict v data = Some w -> class_name w = class_name v.
Proof.
  destruct v; cbn [variant_from_dict]; intros H; simplify_option_eq; reflexivity.
Qed.

Lemma get_at_absent {B : Type} (read : PyVal -> option B)
    (data : gmap string PyVal) (key : string) (default : B) (x : B) :
  get_at read data key default = Some x -> data !! key = None -> x = default.
Proof. unfold get_at. intros H Hk. rewrite Hk in H. congruence. Qed.

(** X24. Every action that [create_from_dict] returns is of the class that
    ["type"] names and carries the description derived from its fields,
    whatever ["description"] the mapping holds. The constructor's values
    do not survive the [from_dict] that follows: a mapping without
    ["name"] gives an action whose name is the empty string, not the
    display name of its class; without ["delay"] the delay is 0, without
    ["enabled"] the action is enabled, and ["id"] defaults to [None]. *)
Theorem created_action_follows_the_mapping (now : Q)
    (data : gmap string PyVal) (a : Action) :
  create_from_dict repr_float now data = Typed (Ok a) ->
  data !! "type" = Some (VStr (class_name (variant a)))
  /\ description a = describe repr_float (variant a)
  /\ (data !! "name" = None -> name a = "")
  /\ (data !! "delay" = None -> delay a = 0%Q)
  /\ (data !! "enabled" = None -> enabled a = true)
  /\ (data !! "created_at" = None -> created_at a = now)
  /\ id a = default VNone (data !! "id").
Proof.
  unfold create_from_dict.
  destruct (data !! "type") as [[| | | |action_type| |]|]; try discriminate.
  destruct (construct repr_float now action_type data) as [[[b|e]|]|] eqn:Hc;
    try discriminate.
  apply construct_class in Hc. cbn [dyn_bind].
  destruct (from_dict repr_float now b data) as [a'|] eqn:Hf; [|discriminate].
  intros H; inversion H; subst a'. clear H.
  unfold from_dict, base_from_dict in Hf.
  destruct (get_at as_num data "delay" 0%Q) as [d|] eqn:Hd; [|discriminate].
  destruct (get_at as_str data "name" "") as [n|] eqn:Hn; [|discriminate].
  destruct (get_at as_str data "description" "") as [de|]; [|discriminate].
  destruct (get_at as_bool data "enabled" true) as [en|] eqn:He; [|discriminate].
  destruct (get_at as_num data "created_at" now) as [c|] eqn:Hcr; [|discriminate].
  cbn [mbind option_bind variant] in Hf.
  destruct (variant_from_dict (variant b) data) as [v|] eqn:Hv; [|discriminate].
  apply variant_from_dict_keeps_class in Hv.
  cbn in Hf. inversion Hf; subst a. cbn [variant description name delay enabled
                                       created_at id].
  split; [congruence|]. split; [reflexivity|].
  split; [apply (get_at_absent _ _ _ _ _ Hn)|].
  split; [apply (get_at_absent _ _ _ _ _ Hd)|].
  split; [apply (get_at_absent _ _ _ _ _ He)|].
  split; [apply (get_at_absent _ _ _ _ _ Hcr)|reflexivity].
Qed.

Lemma construct_known (now : Q) (action_type : string)
    (data : gmap string PyVal) :
  (construct repr_float now action_type data = None)
  <-> existsb (String.eqb action_type)
        ["TypeAction"; "ClickAction"; "DelayAction"; "HotkeyAction";
         "SpecialKeyAction"; "ScrollAction"; "DragAction"] = false.
Proof.
  unfold construct. cbn [existsb].
  destruct (String.eqb action_type "TypeAction"); [split; discriminate|].
  destruct (String.eqb action_type "ClickAction"); [split; discriminate|].
  destruct (String.eqb action_type "DelayAction"); [split; discriminate|].
  destruct (String.eqb action_type "HotkeyAction"); [split; discriminate|].
  destruct (String.eqb action_type "SpecialKeyAction"); [split; discriminate|].
  destruct (String.eqb action_type "ScrollAction"); [split; discriminate|].
  destruct (String.eqb action_type "DragAction"); [split; discriminate|].
  split; reflexivity.
Qed.

(** X2. [create_from_dict] raises [ValueError] exactly when ["type"] is
    absent, is no string, or is a string other than the seven class names.
    With a known type it raises only what the constructor raises on a field
    it uses as a string, which is not caught: a [TypeError] (for a
    dictionary as text a [KeyError] from Python 3.12 on) or an
    [AttributeError]. So the mapping [{"type": "TypeAction", "text": 5}]
    raises [TypeError]. *)
Theorem factory_raises_value_error_exactly_on_an_unknown_type (now : Q)
    (data : gmap string PyVal) :
  (ActionChecks.known_type data = false
   <-> exists e, create_from_dict repr_float now data = Typed (Raise e)
                 /\ exn_class e = ValueError)
  /\ (forall e, create_from_dict repr_float now data = Typed (Raise e) ->
       exn_class e = ValueError \/ exn_class e = TypeError
       \/ exn_class e = KeyError \/ exn_class e = AttributeError)
  /\ create_from_dict repr_float now text_is_a_number
     = Typed (Raise (mkExn TypeError "object is not subscriptable")).
Proof.
  split; [|split; [|reflexivity]];
    unfold ActionChecks.known_type, create_from_dict;
    destruct (data !! "type") as [[| | | |action_type| |]|];
    try (split; [eexists; split; reflexivity|reflexivity]);
    try (intros e H; inversion H; left; reflexivity).
  - destruct (construct repr_float now action_type data) as [[[b|e']|]|] eqn:Hc;
      cbn [dyn_bind].
    + assert (Hk : existsb (String.eqb action_type)
          ["TypeAction"; "ClickAction"; "DelayAction"; "HotkeyAction";
           "SpecialKeyAction"; "ScrollAction"; "DragAction"] <> false).
      { intros Hk. apply (proj2 (construct_known now action_type data)) in Hk.
        congruence. }
      split; [intros H; contradiction|].
      destruct (from_dict repr_float now b data); intros [e [H _]];
        discriminate H.
    + assert (Hk : existsb (String.eqb action_type)
          ["TypeAction"; "ClickAction"; "DelayAction"; "HotkeyAction";
           "SpecialKeyAction"; "ScrollAction"; "DragAction"] <> false).
      { intros Hk. apply (proj2 (construct_known now action_type data)) in Hk.
        congruence. }
      split; [intros H; contradiction|].
      intros [e [H He]]. inversion H; subst e'.
      apply construct_raises in Hc. destruct Hc as [Hc|Hc]; congruence.
    + assert (Hk : existsb (String.eqb action_type)
          ["TypeAction"; "ClickAction"; "DelayAction"; "HotkeyAction";
           "SpecialKeyAction"; "ScrollAction"; "DragAction"] <> false).
      { intros Hk. apply (proj2 (construct_known now action_type data)) in Hk.
        congruence. }
      split; [intros H; contradiction|intros [e [H _]]; discriminate H].
    + apply (proj1 (construct_known now action_type data)) in Hc.
      split; [eexists; split; reflexivity|intros _; exact Hc].
  - destruct (construct repr_float now action_type data) as [[[b|e']|]|] eqn:Hc;
      cbn [dyn_bind].
    + destruct (from_dict repr_float now b data); intros e H; discriminate H.
    + intros e H. inversion H; subst e'. apply construct_raises in Hc.
      destruct Hc as [Hc|Hc]; auto.
    + intros e H; discriminate H.
    + intros e H; inversion H; left; reflexivity.
Qed.

(** X25. Cloning is idempotent: the clone of a clone is the clone, whatever
    the clock readings. *)
Theorem cloning_a_clone_changes_nothing (now now' : Q) (a : Action) :
  dyn_bind (clone repr_float now a) (clone repr_float now')
  = clone repr_float now a.
Proof.
  unfold clone. rewrite StoredFacts.create_from_to_dict. cbn [dyn_bind].
  rewrite StoredFacts.create_from_to_dict. reflexivity.
Qed.

End Factory.

(** X24, witness: the mapping [{"type": "ClickAction", "x": 3}]. *)
Lemma bare_click_mapping_gives_an_unnamed_click :
  create_from_dict show_Q 7 (<["x" := VInt 3]> (<["type" := VStr "ClickAction"]> ∅))
  = Typed (Ok {| delay := 0; id := VNone; name := "";
                 description := "Click left at (3, 0)"; enabled := true;
                 created_at := 7; variant := ClickV 3 0 "left" |})
  /\ name {| delay := 0; id := VNone; name := "";
             description := "Click left at (3, 0)"; enabled := true;
             created_at := 7; variant := ClickV 3 0 "left" |} = "".
Proof.
  assert (H : create_from_dict show_Q 7
                (<["x" := VInt 3]> (<["type" := VStr "ClickAction"]> ∅))
              = Typed (Ok {| delay := 0; id := VNone; name := "";
                             description := "Click left at (3, 0)";
                             enabled := true; created_at := 7;
                             variant := ClickV 3 0 "left" |}))
    by reflexivity.
  split; [exact H|].
  apply (created_action_follows_the_mapping show_Q 7 _ _ H). reflexivity.
Defined.

End FactoryFacts.

(** ** The segments of a typed text *)

Module SegmentFacts.
Import PyStr Config Tokenizer TokenizerSpec Segments.

Lemma flush_well_formed (literal : string) : Forall well_formed (flush literal).
Proof.
  destruct literal as [|c literal]; [constructor|].
  cbn [flush]. constructor; [|constructor].
  left. split; [reflexivity|discriminate].
Qed.

Lemma hit_registered (c : ascii) (s key rest : string) :
  hit c s = Some (key, rest) -> exists token, SPECIAL_KEYS !! token = Some key.
Proof.
  unfold hit. destruct (Ascii.eqb c "<"); [|discriminate].
  destruct (upto_closing s) as [[inside r]|]; [|discriminate].
  destruct (SPECIAL_KEYS !! _) as [k|] eqn:E; [|discriminate].
  intros H. inversion H. subst. eexists. exact E.
Qed.

Lemma scan_segments (remaining literal : string) :
  Forall well_formed (scan remaining literal)
  /\ no_two_texts (scan remaining literal) = true.
Proof.
  funelim (scan remaining literal).
  - split; [apply flush_well_formed|]. destruct literal; reflexivity.
  - destruct H as [Hw Hn]. split.
    + apply Forall_app. split; [apply flush_well_formed|].
      constructor; [|exact Hw].
      right. split; [reflexivity|]. eapply hit_registered, Hhit.
    + destruct literal as [|a literal]; cbn [flush app].
      * destruct (scan rest EmptyString); [reflexivity|]. exact Hn.
      * cbn [no_two_texts is_text fst]. cbn.
        destruct (scan rest EmptyString); [reflexivity|]. exact Hn.
  - exact H.
Qed.

(** X1. The segments of every text are well formed: a literal segment is never
    empty, two literal segments never follow one another, and every key
    segment holds a key name of the registry. *)
Theorem segments_are_well_formed (text : string) :
  Forall well_formed (_parse_text_with_special_keys text)
  /\ no_two_texts (_parse_text_with_special_keys text) = true.
Proof.
  unfold _parse_text_with_special_keys.
  rewrite TokenizerFacts.parse_loop_scans. cbn [app drop].
  apply scan_segments.
Qed.

Lemma append_empty (s : string) : s +:+ "" = s.
Proof.
  induction s as [|c s IH]; [reflexivity|].
  change (String c (s +:+ "") = String c s). f_equal. exact IH.
Qed.

Lemma append_one (s t : string) (c : ascii) :
  (s +:+ String c "") +:+ t = s +:+ String c t.
Proof.
  induction s as [|a s IH]; [reflexivity|].
  change (String a ((s +:+ String c "") +:+ t) = String a (s +:+ String c t)).
  f_equal. exact IH.
Qed.

Lemma scan_plain (s : string) : forall literal,
  (forall i, String.get i s <> Some "<"%char) ->
  scan s literal = flush (literal +:+ s).
Proof.
  induction s as [|c s IH]; intros literal Hno.
  - simp scan. rewrite append_empty. reflexivity.
  - assert (Hmiss : hit c s = None).
    { unfold hit. destruct (Ascii.eqb_spec c "<") as [->|_]; [|reflexivity].
      exfalso. apply (Hno 0%nat). reflexivity. }
    rewrite (TokenizerFacts.scan_miss _ _ _ Hmiss), IH, append_one; [reflexivity|].
    intros i. apply (Hno (S i)).
Qed.

(** X26. A text that holds no [<] is one literal segment, the text itself,
    whatever else it holds; the empty text gives no segment. *)
Theorem text_without_bracket_is_one_segment (text : string) :
  (forall i, String.get i text <> Some "<"%char) ->
  _parse_text_with_special_keys text = flush text.
Proof.
  intros Hno. unfold _parse_text_with_special_keys.
  rewrite TokenizerFacts.parse_loop_scans. cbn [app drop].
  apply (scan_plain text EmptyString Hno).
Qed.

(** X26, witness: a text with a closing bracket only. *)
Lemma text_with_closing_bracket_only :
  (forall i, String.get i "a>b" <> Some "<"%char)
  /\ _parse_text_with_special_keys "a>b" = [("text", "a>b")].
Proof.
  assert (H : forall i, String.get i "a>b" <> Some "<"%char).
  { intros [|[|[|i]]]; discriminate. }
  split; [exact H|].
  apply (text_without_bracket_is_one_segment "a>b" H).
Defined.

End SegmentFacts.

(** ** The provider manager *)

Module ManagerFacts.
Import Py Manager.

(** What every manager satisfies: only the two provider names are
    registered, and the current provider, when there is one, is one of
    them. *)
Local Abbreviation consistent m :=
  ((forall k, is_Some (providers m !! k) -> k = "gemini" \/ k = "openai")
   /\ match current_provider m with
      | Some name => is_Some (providers m !! name)
      | None => True
      end).

Lemma initialize_provider_consistent (name : string) (cls : ProviderClass)
    api_config (m m' : AIManager) :
  name = "gemini" \/ name = "openai" ->
  consistent m -> initialize_provider name cls api_config m = Some m' ->
  consistent m'.
Proof.
  intros Hname [Hkeys Hcur]. unfold initialize_provider.
  destruct (truthy _ && truthy _); [|intros H; inversion H; subst; auto].
  destruct (default ∅ (api_config !! name) !! "api_key") as [[| | | |key| |]|];
    try discriminate.
  intros H; inversion H; subst; clear H. cbn [providers current_provider]. split.
  - intros k Hk. destruct (decide (name = k)) as [<-|Hne]; [exact Hname|].
    rewrite lookup_insert_ne in Hk by exact Hne. auto.
  - destruct (unset (current_provider m)) eqn:Hu.
    + rewrite lookup_insert_eq. eauto.
    + destruct (current_provider m) as [cur|]; [|exact I].
      destruct (decide (name = cur)) as [<-|Hne].
      * rewrite lookup_insert_eq. eauto.
      * rewrite lookup_insert_ne by exact Hne. exact Hcur.
Qed.

Lemma init_consistent api_config (m : AIManager) :
  init api_config = Some m -> consistent m.
Proof.
  unfold init. intros H.
  destruct (initialize_provider "gemini" _ _ _) as [m1|] eqn:E1; [|discriminate].
  cbn in H.
  apply (initialize_provider_consistent "openai" OpenAIProvider api_config m1 m);
    [auto| |exact H].
  apply (initialize_provider_consistent "gemini" GeminiProvider api_config
           {| providers := ∅; current_provider := None |} m1); [auto| |exact E1].
  split; [|exact I]. intros k Hk. cbn [providers] in Hk.
  rewrite lookup_empty in Hk. destruct Hk as [x Hx]. discriminate.
Qed.

Lemma renew_consistent (name : string) (cls : ProviderClass) (key : string) w :
  name = "gemini" \/ name = "openai" ->
  consistent w.2 -> consistent (renew name cls key w).2.
Proof.
  intros Hname [Hkeys Hcur]. unfold renew. cbn [snd providers current_provider].
  split.
  - intros k Hk. destruct (decide (name = k)) as [<-|Hne]; [exact Hname|].
    rewrite lookup_insert_ne in Hk by exact Hne. auto.
  - destruct (current_provider w.2) as [cur|]; [|exact I].
    destruct (decide (name = cur)) as [<-|Hne].
    + rewrite lookup_insert_eq. eauto.
    + rewrite lookup_insert_ne by exact Hne. exact Hcur.
Qed.

Lemma call_consistent w (c : Call) : consistent w.2 -> consistent (call w c).2.
Proof.
  intros Hw. destruct c as [name|name key]; cbn [call snd].
  - unfold set_current_provider.
    destruct (providers w.2 !! name) as [p|] eqn:E; [|exact Hw].
    cbn [snd providers current_provider]. split; [apply Hw|]. rewrite E. eauto.
  - unfold update_api_key.
    destruct (String.eqb name "gemini"); [apply renew_consistent; auto|].
    destruct (String.eqb name "openai"); [apply renew_consistent; auto|].
    exact Hw.
Qed.

Lemma calls_consistent (calls : list Call) : forall w,
  consistent w.2 -> consistent (foldl call w calls).2.
Proof.
  induction calls as [|c calls IH]; intros w Hw; [exact Hw|].
  cbn [foldl]. apply IH, call_consistent, Hw.
Qed.

(** X27. The current provider of an available manager is there: whatever
    [API_CONFIG] holds when the manager is built and whatever calls of
    [set_current_provider] and [update_api_key] follow, [is_available()]
    being true means that [get_current_provider()] returns a provider, so
    the branch "No AI provider available" of the three request methods is
    not taken after a successful availability test. *)
Theorem available_manager_has_a_current_provider
    (api_config : gmap string (gmap string PyVal)) (m0 : AIManager)
    (calls : list Call) :
  init api_config = Some m0 ->
  is_available (foldl call (api_config, m0) calls).2 = true ->
  exists p, get_current_provider (foldl call (api_config, m0) calls).2 = Some p.
Proof.
  intros Hinit Hav.
  pose proof (calls_consistent calls (api_config, m0)
                (init_consistent _ _ Hinit)) as [Hkeys Hcur].
  unfold is_available in Hav. unfold get_current_provider.
  destruct (current_provider _) as [name|];
    [|rewrite andb_false_r in Hav; discriminate].
  destruct (Hkeys name Hcur) as [-> | ->]; cbn; destruct Hcur as [p Hp]; eauto.
Qed.

Lemma updates_keep_current (calls : list Call) : forall w,
  Forall (fun c => is_update c = true) calls ->
  current_provider (foldl call w calls).2 = current_provider w.2.
Proof.
  induction calls as [|c calls IH]; intros w Hc; [reflexivity|].
  apply Forall_cons in Hc. destruct Hc as [Hu Hc].
  cbn [foldl]. rewrite (IH _ Hc).
  destruct c as [name|name key]; [discriminate|].
  cbn [call]. unfold update_api_key.
  destruct (String.eqb name "gemini"); [reflexivity|].
  destruct (String.eqb name "openai"); reflexivity.
Qed.

(** X28. With [API_CONFIG] as shipped, in which both providers are disabled, the
    manager starts with no provider, and calls of [update_api_key] alone
    never make it available: they register providers but leave
    [current_provider] at [None], so [is_available()] stays false and
    [get_current_provider()] returns [None] until [set_current_provider]
    is called. *)
Theorem update_api_key_alone_leaves_the_manager_unavailable (calls : list Call) :
  Forall (fun c => is_update c = true) calls ->
  exists m0, init API_CONFIG = Some m0
    /\ is_available (foldl call (API_CONFIG, m0) calls).2 = false
    /\ get_current_provider (foldl call (API_CONFIG, m0) calls).2 = None.
Proof.
  intros Hc. exists {| providers := ∅; current_provider := None |}.
  split; [reflexivity|].
  unfold is_available, get_current_provider.
  rewrite (updates_keep_current calls _ Hc). cbn [snd current_provider].
  rewrite andb_false_r. auto.
Qed.

(** X28, witness: a key for Gemini is stored and a provider registered, and
    the manager is still unavailable. *)
Lemma gemini_key_alone_is_not_enough :
  Forall (fun c => is_update c = true) [UpdateApiKey "gemini" "secret"]
  /\ is_Some (providers (foldl call (API_CONFIG, {| providers := ∅;
                                                    current_provider := None |})
                          [UpdateApiKey "gemini" "secret"]).2 !! "gemini")
  /\ is_available (foldl call (API_CONFIG, {| providers := ∅;
                                              current_provider := None |})
                    [UpdateApiKey "gemini" "secret"]).2 = false.
Proof.
  assert (H : Forall (fun c => is_update c = true) [UpdateApiKey "gemini" "secret"])
    by (repeat constructor).
  split; [exact H|]. split; [eexists; reflexivity|].
  destruct (update_api_key_alone_leaves_the_manager_unavailable _ H)
    as (m0 & Hinit & Hav & _).
  assert (m0 = {| providers := ∅; current_provider := None |}) as ->.
  { assert (Hi : init API_CONFIG
                 = Some {| providers := ∅; current_provider := None |})
      by reflexivity.
    congruence. }
  exact Hav.
Defined.

(** X27, witness: a manager built from a configuration with an enabled Gemini
    key. *)
Lemma enabled_gemini_is_current :
  init (<["gemini" := <["enabled" := VBool true]> (<["api_key" := VStr "secret"]> ∅)]> ∅)
  = Some {| providers := <["gemini" := new_provider GeminiProvider "secret"
                             (<["enabled" := VBool true]>
                                (<["api_key" := VStr "secret"]> ∅))]> ∅;
            current_provider := Some "gemini" |}
  /\ exists p,
       get_current_provider
         (foldl call
            (<["gemini" := <["enabled" := VBool true]>
                             (<["api_key" := VStr "secret"]> ∅)]> ∅,
             {| providers := <["gemini" := new_provider GeminiProvider "secret"
                                 (<["enabled" := VBool true]>
                                    (<["api_key" := VStr "secret"]> ∅))]> ∅;
                current_provider := Some "gemini" |}) []).2 = Some p.
Proof.
  assert (H : init (<["gemini" := <["enabled" := VBool true]>
                                   (<["api_key" := VStr "secret"]> ∅)]> ∅)
    = Some {| providers := <["gemini" := new_provider GeminiProvider "secret"
                               (<["enabled" := VBool true]>
                                  (<["api_key" := VStr "secret"]> ∅))]> ∅;
              current_provider := Some "gemini" |}) by reflexivity.
  split; [exact H|].
  apply (available_manager_has_a_current_provider _ _ [] H). reflexivity.
Defined.

End ManagerFacts.

(** ** More runs of the engine and of single actions *)

(** X18, witness: the key press looped zero times. *)
Lemma zero_loops_run_nothing :
  loop_enabled looped_zero_times = true
  /\ (loop_count looped_zero_times <= 0)%Z
  /\ events (@execute _ fine true None looped_zero_times) = [].
Proof.
  split; [reflexivity|]. split; [simpl; lia|].
  apply (@nonpositive_loop_count_runs_nothing _ fine true None looped_zero_times);
    [reflexivity|simpl; lia].
Defined.

Module TypingFacts.
Import Py Actions ActionChecks Samples.

Section Typing.
Variable fault : list DeviceOp -> DeviceOp -> option string.

Lemma type_parts_stops (before : list Tokenizer.segment) :
  forall (part : Tokenizer.segment) (after_ : list Tokenizer.segment)
         (past : list DeviceOp) (message : string),
  (forall k op, (segment_op <$> before) !! k = Some op ->
     fault (past ++ take k (segment_op <$> before)) op = None) ->
  fault (past ++ (segment_op <$> before)) (segment_op part) = Some message ->
  type_parts fault (before ++ part :: after_) past
  = (Raise (mkExn DeviceFault message),
     (segment_op <$> before) ++ [segment_op part]).
Proof.
  induction before as [|[kind value] before IH];
    intros part after_ past message Hok Hfail.
  - cbn [app fmap list_fmap] in *. rewrite app_nil_r in Hfail.
    destruct part as [kind value]. cbn [type_parts]. unfold dev_bind.
    unfold segment_op in *. cbn [fst snd] in *.
    destruct (String.eqb kind "text"); unfold pyautogui; rewrite Hfail;
      reflexivity.
  - rewrite fmap_cons in *. cbn [app type_parts]. unfold dev_bind.
    pose proof (Hok 0%nat (segment_op (kind, value)) eq_refl) as H0.
    cbn [take] in H0. rewrite app_nil_r in H0.
    assert (Hstep : (if String.eqb kind "text"
                     then pyautogui fault (typewrite value)
                     else pyautogui fault (press value)) past
                    = (Ok tt, [segment_op (kind, value)])).
    { unfold segment_op in *. cbn [fst snd] in *.
      destruct (String.eqb kind "text"); unfold pyautogui; rewrite H0;
        reflexivity. }
    rewrite Hstep.
    rewrite (IH part after_ (past ++ [segment_op (kind, value)]) message).
    + reflexivity.
    + intros k op Hk. rewrite <- app_assoc. cbn [app].
      apply (Hok (S k) op). exact Hk.
    + rewrite <- app_assoc. exact Hfail.
Qed.

(** X29. When a call of the input-injection library fails in the middle of a
    text, the typing stops there: after the sleep of the base delay, which
    is made when the delay is positive (and is taken to be one that
    [time.sleep] accepts), the segments before the failing one have been
    sent, the failing call has been made, no later segment is sent, and
    [execute()] raises an [ActionError] that names [TypeAction] and carries
    the message of the failure. *)
Theorem typing_stops_at_the_first_failing_call (a : Action) (text : string)
    (before : list Tokenizer.segment) (part : Tokenizer.segment)
    (after_ : list Tokenizer.segment) (past : list DeviceOp)
    (message : string) :
  variant a = TypeV text -> enabled a = true -> too_long (delay a) = false ->
  Tokenizer._parse_text_with_special_keys text = before ++ part :: after_ ->
  (forall k op, (segment_op <$> before) !! k = Some op ->
     fault (past ++ delay_ops a ++ take k (segment_op <$> before)) op = None) ->
  fault (past ++ delay_ops a ++ (segment_op <$> before)) (segment_op part)
  = Some message ->
  execute fault a past
  = (ActionError ("Failed to execute TypeAction: " +:+ message),
     delay_ops a ++ (segment_op <$> before) ++ [segment_op part]).
Proof.
  intros Hv He Hd Hparse Hok Hfail.
  unfold execute, execute_body. rewrite He, Hv. cbn [negb].
  unfold dev_bind at 1. rewrite CheckFacts.base_delay_slept.
  rewrite Hd, andb_false_r. fold (delay_ops a).
  cbn [_execute_impl].
  destruct text as [|c text].
  - destruct before; discriminate Hparse.
  - unfold dev_bind. rewrite Hparse.
    rewrite (type_parts_stops before part after_ (past ++ delay_ops a) message).
    + reflexivity.
    + intros k op Hk. rewrite <- app_assoc. apply Hok, Hk.
    + rewrite <- app_assoc. exact Hfail.
Qed.

End Typing.

(** X29, witness: the text [a<f2>b] with a base delay of half a second, in
    a world where pressing [f2] fails. *)
Lemma typing_stops_at_f2 :
  execute EngineSamples.f2_is_stuck (TypeAction show_Q 0 "a<f2>b" (1 # 2)) []
  = (ActionError "Failed to execute TypeAction: stuck",
     [sleep (1 # 2); typewrite "a"; press "f2"]).
Proof.
  apply (typing_stops_at_the_first_failing_call EngineSamples.f2_is_stuck
           (TypeAction show_Q 0 "a<f2>b" (1 # 2)) "a<f2>b"
           [("text", "a")] ("key", "f2") [("text", "b")] [] "stuck");
    try reflexivity.
  intros [|k] op H; inversion H. reflexivity.
Defined.

End TypingFacts.

(** ** The engine on an empty sequence *)

Section EmptySequence.
Context {A : Type} {executable : Executable A}.
Variable progress_callback : bool.
Variable stop_check : option (list (Event A) -> bool).

Local Abbreviation only_sleeps interval new :=
  (Forall (fun op => op = sleep interval) (device_ops new)).

Lemma asked_is_silent (stop : bool) :
  executed (asked stop_check stop : list (Event A)) = []
  /\ device_ops (asked stop_check stop : list (Event A)) = [].
Proof. unfold asked. destruct stop_check; split; reflexivity. Qed.

Lemma device_ops_app (l l' : list (Event A)) :
  device_ops (l ++ l') = device_ops l ++ device_ops l'.
Proof. apply omap_app. Qed.

Lemma run_loops_on_nothing lc total (loops : list nat) : forall (s : State A),
  actions (self s) = [] ->
  exists s' new,
    run_loops progress_callback stop_check lc total loops s = (true, s')
    /\ trace s' = trace s ++ new
    /\ executed new = []
    /\ only_sleeps (repeat_interval (self s)) new.
Proof.
  induction loops as [|k loops IH]; intros s Hnil.
  - exists s, []. rewrite app_nil_r. repeat split. constructor.
  - cbn [run_loops].
    destruct (stop_requested _ _) as [stop s1] eqn:E1.
    apply stop_requested_spec in E1. destruct E1 as (Hself1 & Htr1 & _).
    cbn [self trace emit update] in Hself1, Htr1.
    destruct (asked_is_silent stop) as [Aex Adev].
    destruct stop.
    + exists s1, ([LoopBegins k] ++ asked stop_check true).
      split; [reflexivity|]. split; [rewrite Htr1, <- app_assoc; reflexivity|].
      split; [rewrite executed_app, Aex; reflexivity|].
      rewrite device_ops_app, Adev. constructor.
    + assert (Hact1 : actions (self s1) = []).
      { rewrite Hself1. destruct (self s); exact Hnil. }
      assert (Hri1 : repeat_interval (self s1) = repeat_interval (self s)).
      { rewrite Hself1. destruct (self s); reflexivity. }
      rewrite Hact1. cbn [run_actions].
      set (s2 := wait_between_loops progress_callback k lc total s1).
      assert (Hw : self s2 = self s1
                /\ exists paused, trace s2 = trace s1 ++ paused
                     /\ executed paused = []
                     /\ only_sleeps (repeat_interval (self s)) paused).
      { unfold s2, wait_between_loops, report.
        destruct (loop_enabled (self s1) && _ && _).
        - split; [destruct progress_callback; reflexivity|].
          destruct progress_callback; cbn [emit self trace].
          + eexists. split; [rewrite <- app_assoc; reflexivity|].
            split; [reflexivity|]. rewrite Hri1. repeat constructor.
          + eexists. split; [reflexivity|].
            split; [reflexivity|]. rewrite Hri1. repeat constructor.
        - split; [reflexivity|]. exists []. rewrite app_nil_r.
          repeat split. constructor. }
      destruct Hw as (Hself2 & paused & Htr2 & Pex & Pdev).
      destruct (IH s2) as (s' & new & Hrun & Htr & Hex & Hdev).
      { rewrite Hself2. exact Hact1. }
      exists s', ([LoopBegins k] ++ asked stop_check false ++ paused ++ new).
      split; [exact Hrun|].
      split; [rewrite Htr, Htr2, Htr1, <- !app_assoc; reflexivity|].
      split.
      * rewrite !executed_app, Aex, Pex, Hex. reflexivity.
      * rewrite !device_ops_app, Adev.
        change (device_ops [LoopBegins k : Event A]) with (@nil DeviceOp).
        cbn [app]. apply Forall_app. split; [exact Pdev|].
        rewrite Hself2, Hri1 in Hdev. exact Hdev.
Qed.

(** X30. [execute()] does not refuse an empty sequence, for which
    [validate()] has a message: when [repeat_interval] is one that
    [time.sleep] accepts, it returns true, invokes no action, and the only
    calls it makes on the outside world are the sleeps of [repeat_interval]
    between the loops. *)
Theorem empty_sequence_runs_and_only_sleeps (sequence : ActionSequence A) :
  actions sequence = [] ->
  too_long (repeat_interval sequence) = false ->
  let r := execute progress_callback stop_check sequence in
  result r = true
  /\ executed (events r) = []
  /\ Forall (fun op => op = sleep (repeat_interval sequence))
            (device_ops (events r)).
Proof.
  intros Hnil _. unfold execute.
  destruct (run_loops_on_nothing
              (if loop_enabled (self {| self := set_is_running true sequence;
                                        trace := [] |})
               then loop_count (self {| self := set_is_running true sequence;
                                        trace := [] |})
               else 1%Z)
              (length (actions (self {| self := set_is_running true sequence;
                                        trace := [] |})))
              (seq 0 (Z.to_nat
                 (if loop_enabled (self {| self := set_is_running true sequence;
                                           trace := [] |})
                  then loop_count (self {| self := set_is_running true sequence;
                                           trace := [] |})
                  else 1%Z)))
              {| self := set_is_running true sequence; trace := [] |})
    as (s' & new & Hrun & Htr & Hex & Hdev); [exact Hnil|].
  cbv zeta. rewrite Hrun. cbn [result events].
  cbn [trace app] in Htr. rewrite Htr.
  split; [reflexivity|]. split; [exact Hex|exact Hdev].
Qed.

End EmptySequence.

(** X30, witness: the looped sequence after [clear()], for which
    [validate()] returns its message. *)
Lemma cleared_loop_only_sleeps :
  actions (Sequences.clear 5 looped) = []
  /\ Sequences.validate Samples.show_Q (Sequences.clear 5 looped)
     = ["Sequence is empty"]
  /\ result (@execute _ fine true None (Sequences.clear 5 looped)) = true
  /\ device_ops (events (@execute _ fine true None (Sequences.clear 5 looped)))
     = [sleep 2; sleep 2].
Proof.
  split; [reflexivity|]. split; [reflexivity|].
  split; [|reflexivity].
  apply (@empty_sequence_runs_and_only_sleeps _ fine true None
           (Sequences.clear 5 looped)); reflexivity.
Defined.
